(** * Seq2SeqModel: configuration, training loop, early stopping, prediction

    A shallow embedding of [simpletransformers/seq2seq/seq2seq_model.py].

    Conventions of the embedding:
    - Python [int] is [Z]; [//] and [%] are [Z.div] and [Z.modulo] (both
      floor towards minus infinity, as Python does) behind an explicit
      zero-divisor check that raises [ZeroDivisionError].
    - Python [float] values (losses, metrics, deltas) are rationals [Q].
      In the loop and in the evaluation [+], [-] and [/] on them are the
      operations of [Q]: a sum or a quotient there stands for the float
      that Python computes, and nothing is proved from its exact value.
      In the prologue of [train], where a rounded product decides an
      integer, the float operations are an oracle ([FloatOps]).
    - A [dict] used as a mapping is a [gmap string _]; a [dict] whose key
      order is observable (the progress table, the evaluation results) is
      an association list in insertion order.
    - The model, the optimizer, the tokenizers and the file system are
      external: their answers come from oracles held in Section variables,
      and the calls made to [_save_model] are recorded in a trace. *)

From Stdlib Require Import ZArith QArith Qround Lia Ascii.
From Stdlib Require Import DecimalString DecimalN DecimalPos.
From stdpp Require Import gmap strings list.

Open Scope Z_scope.

(** ** Python runtime *)

Inductive exn : Type :=
  | ValueError
  | ZeroDivisionError
  | KeyError
  | TypeError
  | UnboundLocalError.

Inductive result (A : Type) : Type :=
  | Ok (a : A)
  | Raise (e : exn).
Arguments Ok {A} a.
Arguments Raise {A} e.

Definition rbind {A B} (r : result A) (k : A -> result B) : result B :=
  match r with
  | Ok a => k a
  | Raise e => Raise e
  end.

(** [a // b] *)
Definition py_floordiv (a b : Z) : result Z :=
  if b =? 0 then Raise ZeroDivisionError else Ok (a / b).

(** [a % b] *)
Definition py_mod (a b : Z) : result Z :=
  if b =? 0 then Raise ZeroDivisionError else Ok (a mod b).

(** [range(n)] *)
Definition py_range (n : Z) : list Z :=
  map Z.of_nat (seq 0 (Z.to_nat n)).

(** [x < y] on floats *)
Definition Qltb (x y : Q) : bool :=
  (Qnum x * QDen y <? Qnum y * QDen x)%Z.

(** Truth value of an optional float: [None] and [0.0] are falsy. *)
Definition truthy (v : option Q) : bool :=
  match v with
  | None => false
  | Some q => negb (Qeq_bool q 0)
  end.

(** [d[key]] on a dict kept in insertion order. *)
Fixpoint dict_get {V} (d : list (string * V)) (key : string) : result V :=
  match d with
  | [] => Raise KeyError
  | (k, v) :: d' => if String.eqb k key then Ok v else dict_get d' key
  end.

(** [d[key] = v]: an existing key keeps its position. *)
Fixpoint dict_set {V} (d : list (string * V)) (key : string) (v : V)
  : list (string * V) :=
  match d with
  | [] => [(key, v)]
  | (k, w) :: d' =>
      if String.eqb k key then (k, v) :: d' else (k, w) :: dict_set d' key v
  end.

(** ** Training arguments read by the loop

    The fields are the entries of [self.args] that [train] reads after its
    prologue, as the loop uses them: [num_train_epochs] is
    [int(args["num_train_epochs"])], the argument of [trange] at line 345
    (a float is cut towards zero there), and the other counts are ints. *)

Record TrainArgs : Type := {
  num_train_epochs : Z;
  gradient_accumulation_steps : Z;
  logging_steps : Z;
  save_steps : Z;
  save_model_every_epoch : bool;
  evaluate_during_training : bool;
  evaluate_during_training_steps : Z;
  save_eval_checkpoints : bool;
  save_best_model : bool;
  early_stopping_metric : string;
  early_stopping_metric_minimize : bool;
  early_stopping_delta : Q;
  use_early_stopping : bool;
  early_stopping_patience : Z;
  early_stopping_consider_epochs : bool;
  model_name : string
}.

(** Directories handed to [_save_model]. *)
Inductive save_dir : Type :=
  | CheckpointStep (step : Z)
  | CheckpointEpoch (step epoch : Z)
  | BestModelDir.

(** A cell of the progress table: [global_step] is an int, the rest floats. *)
Inductive cell : Type :=
  | CInt (z : Z)
  | CFloat (q : Q).

(** The table written by [report.to_csv]: header line and data rows. *)
Record csv : Type := {
  csv_header : list string;
  csv_rows : list (list cell)
}.

(** ** Local variables of [train] *)

Record TrainState : Type := {
  global_step : Z;
  tr_loss : Q;
  logging_loss : Q;
  current_loss : option Q;            (* unbound until a batch has run *)
  epoch_number : Z;
  best_eval_metric : option Q;
  early_stopping_counter : Z;
  steps_trained_in_current_epoch : Z;
  epochs_trained : Z;
  evals_done : nat;                   (* number of [eval_model] calls so far *)
  saved : list save_dir;              (* trace of [_save_model] calls, newest first *)
  training_progress_scores : list (string * list cell);
  progress_file : option csv          (* training_progress_scores.csv *)
}.

(** Assignments to one local variable. *)

Definition set_global_step (v : Z) (st : TrainState) : TrainState :=
  {| global_step := v;
     tr_loss := tr_loss st;
     logging_loss := logging_loss st;
     current_loss := current_loss st;
     epoch_number := epoch_number st;
     best_eval_metric := best_eval_metric st;
     early_stopping_counter := early_stopping_counter st;
     steps_trained_in_current_epoch := steps_trained_in_current_epoch st;
     epochs_trained := epochs_trained st;
     evals_done := evals_done st;
     saved := saved st;
     training_progress_scores := training_progress_scores st;
     progress_file := progress_file st |}.

Definition set_tr_loss (v : Q) (st : TrainState) : TrainState :=
  {| global_step := global_step st;
     tr_loss := v;
     logging_loss := logging_loss st;
     current_loss := current_loss st;
     epoch_number := epoch_number st;
     best_eval_metric := best_eval_metric st;
     early_stopping_counter := early_stopping_counter st;
     steps_trained_in_current_epoch := steps_trained_in_current_epoch st;
     epochs_trained := epochs_trained st;
     evals_done := evals_done st;
     saved := saved st;
     training_progress_scores := training_progress_scores st;
     progress_file := progress_file st |}.

Definition set_logging_loss (v : Q) (st : TrainState) : TrainState :=
  {| global_step := global_step st;
     tr_loss := tr_loss st;
     logging_loss := v;
     current_loss := current_loss st;
     epoch_number := epoch_number st;
     best_eval_metric := best_eval_metric st;
     early_stopping_counter := early_stopping_counter st;
     steps_trained_in_current_epoch := steps_trained_in_current_epoch st;
     epochs_trained := epochs_trained st;
     evals_done := evals_done st;
     saved := saved st;
     training_progress_scores := training_progress_scores st;
     progress_file := progress_file st |}.

Definition set_current_loss (v : option Q) (st : TrainState) : TrainState :=
  {| global_step := global_step st;
     tr_loss := tr_loss st;
     logging_loss := logging_loss st;
     current_loss := v;
     epoch_number := epoch_number st;
     best_eval_metric := best_eval_metric st;
     early_stopping_counter := early_stopping_counter st;
     steps_trained_in_current_epoch := steps_trained_in_current_epoch st;
     epochs_trained := epochs_trained st;
     evals_done := evals_done st;
     saved := saved st;
     training_progress_scores := training_progress_scores st;
     progress_file := progress_file st |}.

Definition set_epoch_number (v : Z) (st : TrainState) : TrainState :=
  {| global_step := global_step st;
     tr_loss := tr_loss st;
     logging_loss := logging_loss st;
     current_loss := current_loss st;
     epoch_number := v;
     best_eval_metric := best_eval_metric st;
     early_stopping_counter := early_stopping_counter st;
     steps_trained_in_current_epoch := steps_trained_in_current_epoch st;
     epochs_trained := epochs_trained st;
     evals_done := evals_done st;
     saved := saved st;
     training_progress_scores := training_progress_scores st;
     progress_file := progress_file st |}.

Definition set_best_eval_metric (v : option Q) (st : TrainState) : TrainState :=
  {| global_step := global_step st;
     tr_loss := tr_loss st;
     logging_loss := logging_loss st;
     current_loss := current_loss st;
     epoch_number := epoch_number st;
     best_eval_metric := v;
     early_stopping_counter := early_stopping_counter st;
     steps_trained_in_current_epoch := steps_trained_in_current_epoch st;
     epochs_trained := epochs_trained st;
     evals_done := evals_done st;
     saved := saved st;
     training_progress_scores := training_progress_scores st;
     progress_file := progress_file st |}.

Definition set_early_stopping_counter (v : Z) (st : TrainState) : TrainState :=
  {| global_step := global_step st;
     tr_loss := tr_loss st;
     logging_loss := logging_loss st;
     current_loss := current_loss st;
     epoch_number := epoch_number st;
     best_eval_metric := best_eval_metric st;
     early_stopping_counter := v;
     steps_trained_in_current_epoch := steps_trained_in_current_epoch st;
     epochs_trained := epochs_trained st;
     evals_done := evals_done st;
     saved := saved st;
     training_progress_scores := training_progress_scores st;
     progress_file := progress_file st |}.

Definition set_steps_trained_in_current_epoch (v : Z) (st : TrainState) : TrainState :=
  {| global_step := global_step st;
     tr_loss := tr_loss st;
     logging_loss := logging_loss st;
     current_loss := current_loss st;
     epoch_number := epoch_number st;
     best_eval_metric := best_eval_metric st;
     early_stopping_counter := early_stopping_counter st;
     steps_trained_in_current_epoch := v;
     epochs_trained := epochs_trained st;
     evals_done := evals_done st;
     saved := saved st;
     training_progress_scores := training_progress_scores st;
     progress_file := progress_file st |}.

Definition set_epochs_trained (v : Z) (st : TrainState) : TrainState :=
  {| global_step := global_step st;
     tr_loss := tr_loss st;
     logging_loss := logging_loss st;
     current_loss := current_loss st;
     epoch_number := epoch_number st;
     best_eval_metric := best_eval_metric st;
     early_stopping_counter := early_stopping_counter st;
     steps_trained_in_current_epoch := steps_trained_in_current_epoch st;
     epochs_trained := v;
     evals_done := evals_done st;
     saved := saved st;
     training_progress_scores := training_progress_scores st;
     progress_file := progress_file st |}.

Definition set_evals_done (v : nat) (st : TrainState) : TrainState :=
  {| global_step := global_step st;
     tr_loss := tr_loss st;
     logging_loss := logging_loss st;
     current_loss := current_loss st;
     epoch_number := epoch_number st;
     best_eval_metric := best_eval_metric st;
     early_stopping_counter := early_stopping_counter st;
     steps_trained_in_current_epoch := steps_trained_in_current_epoch st;
     epochs_trained := epochs_trained st;
     evals_done := v;
     saved := saved st;
     training_progress_scores := training_progress_scores st;
     progress_file := progress_file st |}.

Definition set_saved (v : list save_dir) (st : TrainState) : TrainState :=
  {| global_step := global_step st;
     tr_loss := tr_loss st;
     logging_loss := logging_loss st;
     current_loss := current_loss st;
     epoch_number := epoch_number st;
     best_eval_metric := best_eval_metric st;
     early_stopping_counter := early_stopping_counter st;
     steps_trained_in_current_epoch := steps_trained_in_current_epoch st;
     epochs_trained := epochs_trained st;
     evals_done := evals_done st;
     saved := v;
     training_progress_scores := training_progress_scores st;
     progress_file := progress_file st |}.

Definition set_training_progress_scores (v : list (string * list cell)) (st : TrainState) : TrainState :=
  {| global_step := global_step st;
     tr_loss := tr_loss st;
     logging_loss := logging_loss st;
     current_loss := current_loss st;
     epoch_number := epoch_number st;
     best_eval_metric := best_eval_metric st;
     early_stopping_counter := early_stopping_counter st;
     steps_trained_in_current_epoch := steps_trained_in_current_epoch st;
     epochs_trained := epochs_trained st;
     evals_done := evals_done st;
     saved := saved st;
     training_progress_scores := v;
     progress_file := progress_file st |}.

Definition set_progress_file (v : option csv) (st : TrainState) : TrainState :=
  {| global_step := global_step st;
     tr_loss := tr_loss st;
     logging_loss := logging_loss st;
     current_loss := current_loss st;
     epoch_number := epoch_number st;
     best_eval_metric := best_eval_metric st;
     early_stopping_counter := early_stopping_counter st;
     steps_trained_in_current_epoch := steps_trained_in_current_epoch st;
     epochs_trained := epochs_trained st;
     evals_done := evals_done st;
     saved := saved st;
     training_progress_scores := training_progress_scores st;
     progress_file := v |}.

(** ** Control flow of the loop body

    [Next] falls through to the next statement, [Return] is a [return]
    statement reached in the given state with the given value, [Throw] an
    uncaught exception. *)

Inductive flow : Type :=
  | Next (st : TrainState)
  | Return (st : TrainState) (r : Z * Q)
  | Throw (e : exn).

Definition fbind (f : flow) (k : TrainState -> flow) : flow :=
  match f with
  | Next st => k st
  | Return st r => Return st r
  | Throw e => Throw e
  end.

(** [for x in l: body] with [return] and exceptions leaving the loop. *)
Fixpoint for_each {A} (body : A -> TrainState -> flow) (l : list A)
  (st : TrainState) : flow :=
  match l with
  | [] => Next st
  | x :: l' => fbind (body x st) (for_each body l')
  end.

(** [return global_step, tr_loss / global_step] *)
Definition return_mean_loss (st : TrainState) : flow :=
  if global_step st =? 0 then Throw ZeroDivisionError
  else Return st (global_step st, (tr_loss st / inject_Z (global_step st))%Q).

(** ** The progress table *)

(** [_create_training_progress_scores]: a dict literal, keys in the order
    they are written; [kwargs] are the names of the keyword arguments. *)
Definition _create_training_progress_scores (kwargs : list string)
  : list (string * list cell) :=
  let extra_metrics := map (fun key => (key, @nil cell)) kwargs in
  fold_left (fun d kv => dict_set d (fst kv) (snd kv))
    ([("global_step", []); ("eval_loss", []); ("train_loss", [])]
       ++ extra_metrics)
    [].

(** [d[key].append(v)] *)
Fixpoint dict_append {V} (d : list (string * list V)) (key : string) (v : V)
  : result (list (string * list V)) :=
  match d with
  | [] => Raise KeyError
  | (k, col) :: d' =>
      if String.eqb k key then Ok ((k, col ++ [v]) :: d')
      else rbind (dict_append d' key v) (fun d'' => Ok ((k, col) :: d''))
  end.

(** [for key in results: d[key].append(results[key])] *)
Fixpoint append_results (d : list (string * list cell))
  (results : list (string * Q)) : result (list (string * list cell)) :=
  match results with
  | [] => Ok d
  | (key, v) :: results' =>
      rbind (dict_append d key (CFloat v))
        (fun d' => append_results d' results')
  end.

(** [pd.DataFrame(d)]: one column per key in key order; columns of
    different lengths are refused. *)
Definition DataFrame (d : list (string * list cell)) : result csv :=
  match d with
  | [] => Ok {| csv_header := []; csv_rows := [] |}
  | (_, c0) :: _ =>
      if forallb (fun kc => Nat.eqb (length (snd kc)) (length c0)) d then
        Ok {| csv_header := map fst d;
              csv_rows :=
                map (fun i => map (fun kc => nth i (snd kc) (CInt 0)) d)
                  (seq 0 (length c0)) |}
      else Raise ValueError
  end.

(** Lines 471-478 and 561-566: extend the table by the scores of this
    evaluation and rewrite the file from it. *)
Definition record_progress (results : list (string * Q)) (st : TrainState)
  : result TrainState :=
  rbind (dict_append (training_progress_scores st) "global_step"
           (CInt (global_step st))) (fun d1 =>
  match current_loss st with
  | None => Raise UnboundLocalError
  | Some loss =>
      rbind (dict_append d1 "train_loss" (CFloat loss)) (fun d2 =>
      rbind (append_results d2 results) (fun d3 =>
      rbind (DataFrame d3) (fun report =>
      Ok (set_progress_file (Some report)
            (set_training_progress_scores d3 st)))))
  end).

(** ** Early stopping *)

(** [self._save_model(dir, ...)]: the call is recorded in the trace. *)
Definition save_model (dir : save_dir) (st : TrainState) : TrainState :=
  set_saved (dir :: saved st) st.

(** [best_eval_metric = results[...]] followed by the optional save of
    the best model. *)
Definition take_as_best (a : TrainArgs) (metric : Q) (st : TrainState)
  : TrainState :=
  let st := set_best_eval_metric (Some metric) st in
  if save_best_model a then save_model BestModelDir st else st.

(** The [else] arm of both comparisons. [gate] is
    [args["use_early_stopping"]] after a step, and
    [args["use_early_stopping"] and args["early_stopping_consider_epochs"]]
    after an epoch. *)
Definition no_improvement (gate : bool) (a : TrainArgs) (st : TrainState)
  : flow :=
  if gate then
    if early_stopping_counter st <? early_stopping_patience a then
      Next (set_early_stopping_counter (early_stopping_counter st + 1) st)
    else return_mean_loss st
  else Next st.

(** Lines 483-488 and 571-574: [if not best_eval_metric: ...]. *)
Definition init_best (a : TrainArgs) (metric : Q) (st : TrainState)
  : TrainState :=
  if truthy (best_eval_metric st) then st else take_as_best a metric st.

(** Lines 489-542 and 575-618: the comparison against the best value.
    The subtraction raises [TypeError] on [None]. *)
Definition compare_with_best (gate : bool) (a : TrainArgs) (metric : Q)
  (st : TrainState) : flow :=
  match best_eval_metric st with
  | None => Throw TypeError
  | Some best =>
      if truthy (Some best) && early_stopping_metric_minimize a then
        if Qltb (metric - best) (early_stopping_delta a) then
          Next (set_early_stopping_counter 0 (take_as_best a metric st))
        else no_improvement gate a st
      else
        if Qltb (early_stopping_delta a) (metric - best) then
          Next (set_early_stopping_counter 0 (take_as_best a metric st))
        else no_improvement gate a st
  end.

(** Lines 483-542 and 571-618: the guard, then the comparison; the second
    [if] is not an [elif]. *)
Definition early_stopping_check (gate : bool) (a : TrainArgs) (metric : Q)
  (st : TrainState) : flow :=
  compare_with_best gate a metric (init_best a metric st).

(** ** Strings

    A Python [str] is a Rocq [string]; only ASCII text is modelled. *)

(** [s.split(sep)] for a one-character separator. *)
Fixpoint split (sep : ascii) (s : string) : list string :=
  match s with
  | EmptyString => [EmptyString]
  | String c s' =>
      if Ascii.eqb c sep then EmptyString :: split sep s'
      else match split sep s' with
           | [] => [String c EmptyString]
           | w :: ws => String c w :: ws
           end
  end.

(** Characters that [int] skips around a numeral in an ASCII string: tab,
    line feed, vertical tab, form feed, carriage return and space. (The
    separators 0x1c to 0x1f, which [str.strip] removes, are not skipped:
    [int] refuses a numeral next to one.) *)
Definition is_space (c : ascii) : bool :=
  let n := nat_of_ascii c in
  (Nat.leb 9 n && Nat.leb n 13) || Nat.eqb n 32.

Definition digit_of (c : ascii) : option Z :=
  let n := nat_of_ascii c in
  if Nat.leb 48 n && Nat.leb n 57 then Some (Z.of_nat n - 48) else None.

Fixpoint lstrip (s : string) : string :=
  match s with
  | EmptyString => EmptyString
  | String c s' => if is_space c then lstrip s' else s
  end.

Fixpoint rstrip (s : string) : string :=
  match s with
  | EmptyString => EmptyString
  | String c s' =>
      match rstrip s' with
      | EmptyString =>
          if is_space c then EmptyString else String c EmptyString
      | r => String c r
      end
  end.

Definition strip (s : string) : string := rstrip (lstrip s).

(** What the scanner of [int] has just read. *)
Inductive scan : Type :=
  | AtStart
  | AfterDigit
  | AfterUnderscore.

(** Decimal digits, single underscores allowed between two digits. *)
Fixpoint digits_value (prev : scan) (acc : Z) (s : string) : option Z :=
  match s with
  | EmptyString =>
      match prev with
      | AfterDigit => Some acc
      | _ => None
      end
  | String c s' =>
      match digit_of c with
      | Some d => digits_value AfterDigit (10 * acc + d) s'
      | None =>
          if Ascii.eqb c "_"%char then
            match prev with
            | AfterDigit => digits_value AfterUnderscore acc s'
            | _ => None
            end
          else None
      end
  end.

(** [int(s)] for a string of ASCII text: optional surrounding white
    space, optional sign, decimal digits; anything else is a [ValueError].
    (The bound that [int] puts on the length of a numeral is left out: a
    component of a path that exists is shorter.) *)
Definition py_int (s : string) : result Z :=
  let body :=
    match strip s with
    | EmptyString => (1, EmptyString)
    | String c s' =>
        if Ascii.eqb c "+"%char then (1, s')
        else if Ascii.eqb c "-"%char then (-1, s')
        else (1, String c s')
    end in
  match digits_value AtStart 0 (snd body) with
  | Some v => Ok (fst body * v)
  | None => Raise ValueError
  end.

(** [l[-1]] of a list that [split] returned. *)
Definition last_part (l : list string) : string := List.last l EmptyString.

(** Lines 355-359: the part of the checkpoint name that holds the step. *)
Definition checkpoint_suffix (name : string) : string :=
  let checkpoint_suffix :=
    split "-"%char (last_part (split "/"%char name)) in
  if (2 <? length checkpoint_suffix)%nat
  then nth 1 checkpoint_suffix EmptyString
  else last_part checkpoint_suffix.

(** ** The training loop *)

Section TrainLoop.

(** [loss.item()] of the forward pass on batch [step] of epoch
    [current_epoch]. *)
Variable batch_loss : Z -> Z -> Q.

(** What the [n]-th call of [eval_model] of this run returns. *)
Variable eval_model : nat -> list (string * Q).

(** [len(train_dataloader)]: at least 1 in a run of [train], whose
    sampler refuses an empty data set. *)
Variable n_batches : Z.

(** [os.path.exists] *)
Variable path_exists : string -> bool.

(** Names of the metric functions passed as keyword arguments. *)
Variable kwargs : list string.

(** Lines 457-542 and 554-618: one evaluation during training. *)
Definition evaluation (gate : bool) (dir : save_dir) (a : TrainArgs)
  (st : TrainState) : flow :=
  let results := eval_model (evals_done st) in
  let st := set_evals_done (S (evals_done st)) st in
  let st := if save_eval_checkpoints a then save_model dir st else st in
  match record_progress results st with
  | Raise e => Throw e
  | Ok st =>
      match dict_get results (early_stopping_metric a) with
      | Raise e => Throw e
      | Ok metric => early_stopping_check gate a metric st
      end
  end.

(** Lines 432-444: [logging_loss] follows [tr_loss] every
    [logging_steps] optimizer steps. *)
Definition log_metrics (a : TrainArgs) (st : TrainState) : TrainState :=
  if (0 <? logging_steps a) && (global_step st mod logging_steps a =? 0)
  then set_logging_loss (tr_loss st) st else st.

(** Lines 446-450: the periodic checkpoint. *)
Definition save_checkpoint (a : TrainArgs) (st : TrainState) : TrainState :=
  if (0 <? save_steps a) && (global_step st mod save_steps a =? 0)
  then save_model (CheckpointStep (global_step st)) st else st.

(** Lines 422-542: the body of
    [if (step + 1) % gradient_accumulation_steps == 0]. *)
Definition optimizer_update (a : TrainArgs) (st : TrainState) : flow :=
  let st := set_global_step (global_step st + 1) st in
  let st := log_metrics a st in
  let st := save_checkpoint a st in
  if evaluate_during_training a
     && ((0 <? evaluate_during_training_steps a)
         && (global_step st mod evaluate_during_training_steps a =? 0))
  then evaluation (use_early_stopping a) (CheckpointStep (global_step st))
         a st
  else Next st.

(** Lines 386-542: one iteration of the loop over the batches. *)
Definition train_batch (a : TrainArgs) (current_epoch step : Z)
  (st : TrainState) : flow :=
  if 0 <? steps_trained_in_current_epoch st then
    Next (set_steps_trained_in_current_epoch
            (steps_trained_in_current_epoch st - 1) st)
  else
    let loss := batch_loss current_epoch step in
    let st := set_current_loss (Some loss) st in
    let loss :=
      if 1 <? gradient_accumulation_steps a
      then (loss / inject_Z (gradient_accumulation_steps a))%Q
      else loss in
    let st := set_tr_loss (tr_loss st + loss)%Q st in
    match py_mod (step + 1) (gradient_accumulation_steps a) with
    | Raise e => Throw e
    | Ok r => if r =? 0 then optimizer_update a st else Next st
    end.

(** Lines 381-618: one iteration of the loop over the epochs. *)
Definition train_epoch (a : TrainArgs) (current_epoch : Z)
  (st : TrainState) : flow :=
  if 0 <? epochs_trained st then
    Next (set_epochs_trained (epochs_trained st - 1) st)
  else
    fbind (for_each (train_batch a current_epoch) (py_range n_batches) st)
      (fun st =>
         let st := set_epoch_number (epoch_number st + 1) st in
         let dir := CheckpointEpoch (global_step st) (epoch_number st) in
         let st :=
           if save_model_every_epoch a then save_model dir st else st in
         if evaluate_during_training a then
           evaluation
             (use_early_stopping a && early_stopping_consider_epochs a)
             dir a st
         else Next st).

(** Lines 352-371: the step encoded in the name of the checkpoint.
    Only [ValueError] is caught. *)
Definition resume (a : TrainArgs) (st : TrainState) : result TrainState :=
  if negb (String.eqb (model_name a) "") && path_exists (model_name a) then
    match py_int (checkpoint_suffix (model_name a)) with
    | Raise ValueError => Ok st
    | Raise e => Raise e
    | Ok n =>
        rbind (py_floordiv n_batches (gradient_accumulation_steps a))
          (fun per_epoch =>
        rbind (py_floordiv n per_epoch) (fun epochs =>
        rbind (py_floordiv n_batches (gradient_accumulation_steps a))
          (fun per_epoch' =>
        rbind (py_mod n per_epoch') (fun steps =>
        Ok (set_steps_trained_in_current_epoch steps
              (set_epochs_trained epochs (set_global_step n st)))))))
    end
  else Ok st.

(** Lines 342-350 and 373-374. *)
Definition initial_state (a : TrainArgs) : TrainState :=
  {| global_step := 0;
     tr_loss := 0;
     logging_loss := 0;
     current_loss := None;
     epoch_number := 0;
     best_eval_metric := None;
     early_stopping_counter := 0;
     steps_trained_in_current_epoch := 0;
     epochs_trained := 0;
     evals_done := 0;
     saved := [];
     training_progress_scores :=
       if evaluate_during_training a
       then _create_training_progress_scores kwargs else [];
     progress_file := None |}.

(** Lines 381-618: [for current_epoch in train_iterator]. *)
Definition train_loop (a : TrainArgs) (st : TrainState) : flow :=
  for_each (train_epoch a) (py_range (num_train_epochs a)) st.

(** Lines 342-620, keeping the state in which [train] returned. *)
Definition train_run (a : TrainArgs) : flow :=
  match resume a (initial_state a) with
  | Raise e => Throw e
  | Ok st => fbind (train_loop a st) return_mean_loss
  end.

(** What the loop hands back: the value of the [return] statement. *)
Definition train_result (a : TrainArgs) : result (Z * Q) :=
  match train_run a with
  | Return _ r => Ok r
  | Throw e => Raise e
  | Next _ => Raise TypeError
  end.

End TrainLoop.

(** ** The configuration mapping *)

(** Values held in [self.args]. *)
#[local] Set Warnings "-register-all".
Inductive value : Type :=
  | VNone
  | VBool (b : bool)
  | VInt (z : Z)
  | VFloat (q : Q)
  | VStr (s : string)
  | VDict (entries : list (string * value)).

(** Truth value of a configuration entry. *)
Definition value_truthy (v : value) : bool :=
  match v with
  | VNone => false
  | VBool b => b
  | VInt z => negb (z =? 0)
  | VFloat q => negb (Qeq_bool q 0)
  | VStr s => negb (String.eqb s "")
  | VDict entries => match entries with [] => false | _ => true end
  end.

(** Truth value of an optional string argument: [None] and [""] are falsy. *)
Definition str_truthy (s : option string) : bool :=
  match s with
  | None => false
  | Some s => negb (String.eqb s "")
  end.

(** The string behind a truthy optional argument. *)
Definition or_empty (s : option string) : string :=
  match s with
  | None => ""
  | Some s => s
  end.

(** [d.update(other)]: the entries of [other] win. *)
Definition update (d other : gmap string value) : gmap string value :=
  other ∪ d.

(** Lines 123-134: the defaults written in [__init__]. *)
Definition default_args : gmap string value :=
  list_to_map
    [("dataset_class", VNone);
     ("do_sample", VBool false);
     ("max_steps", VInt (-1));
     ("evaluate_generated_text", VBool false);
     ("num_beams", VInt 1);
     ("max_length", VInt 20);
     ("repetition_penalty", VFloat 1);
     ("length_penalty", VFloat 2);
     ("early_stopping", VBool true);
     ("preprocess_inputs", VBool true)].

(** Keys of [MODEL_CLASSES]. *)
Definition MODEL_CLASSES : list string :=
  ["auto"; "bert"; "roberta"; "distilbert"; "camembert"; "electra"; "bart"].

(** Arguments of [Seq2SeqModel.__init__]; [config] only matters through
    its truth value. *)
Record InitArgs : Type := {
  encoder_type : option string;
  encoder_name : option string;
  decoder_name : option string;
  encoder_decoder_type : option string;
  encoder_decoder_name : option string;
  config : bool;
  args : option (gmap string value);
  use_cuda : bool
}.

Section Init.

(** [simpletransformers.config.global_args.global_args], imported by the
    module and defined outside it. *)
Variable global_args : gmap string value.

(** [torch.cuda.is_available()] and whether [import wandb] succeeded. *)
Variable cuda_available : bool.
Variable wandb_available : bool.

(** Lines 123-139: the three layers. *)
Definition merge_args (p : InitArgs) : gmap string value :=
  let self_args := update default_args global_args in
  match args p with
  | Some overrides =>
      if decide (overrides = ∅) then self_args
      else update self_args overrides
  | None => self_args
  end.

(** Lines 101-206: [self.args] when [__init__] is done. Loading the
    pretrained weights is assumed to succeed. *)
Definition init_args (p : InitArgs) : result (gmap string value) :=
  if negb (config p)
     && negb ((str_truthy (encoder_name p) && str_truthy (decoder_name p))
              || str_truthy (encoder_decoder_name p))
  then Raise ValueError
  else if negb (config p)
          && negb (str_truthy (encoder_type p)
                   || str_truthy (encoder_decoder_type p))
  then Raise ValueError
  else
    let self_args := merge_args p in
    if use_cuda p && negb cuda_available then Raise ValueError
    else
      let self_args :=
        if use_cuda p then self_args
        else <["fp16" := VBool false]> self_args in
      let model_key :=
        if str_truthy (encoder_decoder_type p)
        then or_empty (encoder_decoder_type p)
        else or_empty (encoder_type p) in
      if negb (bool_decide (model_key ∈ MODEL_CLASSES)) then Raise KeyError
      else
        match self_args !! "wandb_project" with
        | None => Raise KeyError
        | Some project =>
            let self_args :=
              if value_truthy project && negb wandb_available
              then <["wandb_project" := VNone]> self_args
              else self_args in
            let model_name :=
              if str_truthy (encoder_decoder_name p)
              then or_empty (encoder_decoder_name p)
              else if str_truthy (encoder_name p)
                      && str_truthy (decoder_name p)
              then or_empty (encoder_name p) +:+ "-"
                     +:+ or_empty (decoder_name p)
              else "encoder-decoder" in
            let self_args := <["model_name" := VStr model_name]> self_args in
            let model_type :=
              if str_truthy (encoder_decoder_type p)
              then or_empty (encoder_decoder_type p)
              else if str_truthy (encoder_type p)
              then or_empty (encoder_type p) +:+ "-bert"
              else "encoder-decoder" in
            Ok (<["model_type" := VStr model_type]> self_args)
        end.

End Init.

(** ** [train] on the configuration mapping *)

(** [args[key]] *)
Definition get_item (d : gmap string value) (key : string) : result value :=
  match d !! key with
  | None => Raise KeyError
  | Some v => Ok v
  end.

(** The truth value of [args[key]]. *)
Definition get_bool (d : gmap string value) (key : string) : result bool :=
  match d !! key with
  | None => Raise KeyError
  | Some v => Ok (value_truthy v)
  end.

(** [v == 0] *)
Definition value_is_zero (v : value) : bool :=
  match v with
  | VInt z => z =? 0
  | VFloat q => Qeq_bool q 0
  | VBool b => negb b
  | _ => false
  end.

(** A Python number. A [bool] is an [int]: [True] is 1, [False] is 0. *)
Inductive number : Type :=
  | NInt (z : Z)
  | NFloat (q : Q).

(** An entry as the operand of [>], [//] or [*]: [None], a [dict] and,
    but for [int * str], a [str] make the operator raise [TypeError]. *)
Definition as_number (v : value) : result number :=
  match v with
  | VBool b => Ok (NInt (if b then 1 else 0))
  | VInt z => Ok (NInt z)
  | VFloat q => Ok (NFloat q)
  | _ => Raise TypeError
  end.

Definition get_number (d : gmap string value) (key : string)
  : result number :=
  rbind (get_item d key) as_number.

(** The entry that holds a number. *)
Definition number_value (n : number) : value :=
  match n with
  | NInt z => VInt z
  | NFloat q => VFloat q
  end.

(** [x > 0] *)
Definition number_positive (n : number) : bool :=
  match n with
  | NInt z => 0 <? z
  | NFloat q => Qltb 0 q
  end.

(** [x == 0] *)
Definition number_is_zero (n : number) : bool :=
  match n with
  | NInt z => z =? 0
  | NFloat q => Qeq_bool q 0
  end.

(** [math.ceil(x)] *)
Definition math_ceil (n : number) : Z :=
  match n with
  | NInt z => z
  | NFloat q => Qceiling q
  end.

(** [int(x)]: a float is cut towards zero. *)
Definition number_int (n : number) : Z :=
  match n with
  | NInt z => z
  | NFloat q => Z.quot (Qnum q) (Z.pos (Qden q))
  end.

(** The arithmetic of the machine on floats. A float is written as the
    rational it is; an operation returns the float that the machine rounds
    the exact result to, and which float that is stays open:
    [float_of_int] converts an [int] operand, [float_floordiv] is [//] by
    a divisor that is not zero. *)
Record FloatOps : Type := {
  float_of_int : Z -> Q;
  float_add : Q -> Q -> Q;
  float_mul : Q -> Q -> Q;
  float_floordiv : Q -> Q -> Q
}.

(** Arithmetic without rounding, for the concrete runs. *)
Definition exact_floats : FloatOps :=
  {| float_of_int := inject_Z;
     float_add := Qplus;
     float_mul := Qmult;
     float_floordiv := fun x y => inject_Z (Qfloor (x / y)) |}.

(** What line 300 leaves in [t_total]: a number or, for an [int] times a
    [str], a text. *)
Inductive product : Type :=
  | PNumber (n : number)
  | PText.

Section Numbers.

Variable F : FloatOps.

(** The float operand that a number makes. *)
Definition to_float (n : number) : Q :=
  match n with
  | NInt z => float_of_int F z
  | NFloat q => q
  end.

(** [a // b] *)
Definition number_floordiv (a b : number) : result number :=
  match a, b with
  | NInt x, NInt y => rbind (py_floordiv x y) (fun q => Ok (NInt q))
  | _, _ =>
      if number_is_zero b then Raise ZeroDivisionError
      else Ok (NFloat (float_floordiv F (to_float a) (to_float b)))
  end.

(** [a + 1] *)
Definition number_succ (a : number) : number :=
  match a with
  | NInt z => NInt (z + 1)
  | NFloat q => NFloat (float_add F q (float_of_int F 1))
  end.

(** [a * b] *)
Definition number_mul (a b : number) : number :=
  match a, b with
  | NInt x, NInt y => NInt (x * y)
  | _, _ => NFloat (float_mul F (to_float a) (to_float b))
  end.

(** [a * v] for a number [a] and an entry [v]. *)
Definition number_times (a : number) (v : value) : result product :=
  match v, a with
  | VStr _, NInt _ => Ok PText
  | _, _ => rbind (as_number v) (fun b => Ok (PNumber (number_mul a b)))
  end.

(** [t * v] for what line 300 left in [t]. *)
Definition product_times (t : product) (v : value) : result product :=
  match t with
  | PNumber a => number_times a v
  | PText =>
      match v with
      | VInt _ | VBool _ => Ok PText
      | _ => Raise TypeError
      end
  end.

(** [math.ceil(x)] for a product. *)
Definition product_ceil (x : product) : result Z :=
  match x with
  | PNumber n => Ok (math_ceil n)
  | PText => Raise TypeError
  end.

(** Lines 294-312: the total number of optimizer steps and the two
    entries of [args] that [train] writes. The mapping is returned as it
    is when the prologue ends or raises. *)
Definition train_prologue (n_batches : Z) (d : gmap string value)
  : gmap string value * result product :=
  match get_number d "max_steps" with
  | Raise e => (d, Raise e)
  | Ok max_steps =>
      let after_epochs : gmap string value * result product :=
        if number_positive max_steps then
          match
            rbind (get_number d "gradient_accumulation_steps") (fun gas =>
            rbind (number_floordiv (NInt n_batches) gas) (fun per_epoch =>
            rbind (number_floordiv max_steps per_epoch) (fun q =>
            Ok (number_succ q))))
          with
          | Raise e => (d, Raise e)
          | Ok epochs =>
              (<["num_train_epochs" := number_value epochs]> d,
               Ok (PNumber max_steps))
          end
        else
          (d,
           rbind (get_number d "gradient_accumulation_steps") (fun gas =>
           rbind (number_floordiv (NInt n_batches) gas) (fun per_epoch =>
           rbind (get_item d "num_train_epochs") (fun epochs =>
           number_times per_epoch epochs)))) in
      match after_epochs with
      | (d, Raise e) => (d, Raise e)
      | (d, Ok t_total) =>
          match
            rbind (get_item d "weight_decay") (fun _ =>
            rbind (get_item d "warmup_ratio") (fun warmup_ratio =>
            rbind (product_times t_total warmup_ratio) (fun x =>
            rbind (product_ceil x) (fun warmup_steps =>
            rbind (get_item d "warmup_steps") (fun old =>
            Ok (if value_is_zero old then VInt warmup_steps else old))))))
          with
          | Raise e => (d, Raise e)
          | Ok v => (<["warmup_steps" := v]> d, Ok t_total)
          end
      end
  end.

(** [len(train_dataloader)]; zero when the data set is empty. The loader
    is taken to accept [args["train_batch_size"]]. *)
Variable n_batches : Z.

(** Lines 314-620 on [args] as the prologue leaves it: the optimizer, the
    scheduler and the loop. They read [args] and never assign to it. *)
Variable train_from_optimizer : gmap string value -> result (Z * Q).

(** [Seq2SeqModel.train]: [self.args] after the call, and the returned
    pair or the exception. Lines 290-292 read two entries and build the
    sampler, which raises [ValueError] for an empty data set. *)
Definition train (d : gmap string value)
  : gmap string value * result (Z * Q) :=
  match get_item d "tensorboard_dir" with
  | Raise e => (d, Raise e)
  | Ok _ =>
      if n_batches <=? 0 then (d, Raise ValueError)
      else
        match get_item d "train_batch_size" with
        | Raise e => (d, Raise e)
        | Ok _ =>
            match train_prologue n_batches d with
            | (d', Raise e) => (d', Raise e)
            | (d', Ok _) => (d', train_from_optimizer d')
            end
        end
  end.

End Numbers.

(** ** [predict] *)

(** Decoding parameters handed to [generate]. *)
Record GenerateArgs : Type := {
  decoder_start_token_id : option Z;
  num_beams : Z;
  max_length : Z;
  length_penalty : Q;
  early_stopping : bool;
  repetition_penalty : Q;
  do_sample : bool
}.

(** The entries of [self.args] that [predict] reads. *)
Record PredictArgs : Type := {
  eval_batch_size : Z;
  max_seq_length : Z;
  model_type : string;
  generation : GenerateArgs
}.

(** [range(0, stop, step)] for [stop >= 0]. *)
Definition py_range_step (stop step : Z) : result (list Z) :=
  if step =? 0 then Raise ValueError
  else if step <? 0 then Ok []
  else Ok (map (fun k => Z.of_nat k * step)
             (seq 0 (Z.to_nat ((stop + step - 1) / step)))).

(** [l[i : j]] for [0 <= i <= j]. *)
Definition slice {A} (l : list A) (i j : Z) : list A :=
  take (Z.to_nat (j - i)) (drop (Z.to_nat i) l).

Section Predict.

(** [encoder_tokenizer.batch_encode_plus(batch, max_length=...,
    pad_to_max_length=True)["input_ids"]]: one row of ids per text. *)
Variable batch_encode_plus : list string -> Z -> list (list Z).

(** [model.generate(input_ids=..., ...)]: the generated rows. *)
Variable generate : list (list Z) -> GenerateArgs -> list (list Z).

(** [decoder_tokenizer.decode(ids, skip_special_tokens=...,
    clean_up_tokenization_spaces=...)]. *)
Variable decode : list Z -> bool -> bool -> string.

(** [self.model.config.decoder.pad_token_id] *)
Variable decoder_pad_token_id : Z.

(** The keyword arguments of the call of [generate]. *)
Definition generate_args (pa : PredictArgs) : GenerateArgs :=
  {| decoder_start_token_id :=
       if String.eqb (model_type pa) "bart" then None
       else Some decoder_pad_token_id;
     num_beams := num_beams (generation pa);
     max_length := max_length (generation pa);
     length_penalty := length_penalty (generation pa);
     early_stopping := early_stopping (generation pa);
     repetition_penalty := repetition_penalty (generation pa);
     do_sample := do_sample (generation pa) |}.

(** Lines 724-727: the list of batches. *)
Definition batches (pa : PredictArgs) (to_predict : list string)
  : result (list (list string)) :=
  rbind (py_range_step (Z.of_nat (length to_predict)) (eval_batch_size pa))
    (fun starts =>
       Ok (map (fun i => slice to_predict i (i + eval_batch_size pa))
             starts)).

(** The rows generated for one batch. *)
Definition generate_batch (pa : PredictArgs) (batch : list string)
  : list (list Z) :=
  generate (batch_encode_plus batch (max_seq_length pa)) (generate_args pa).

(** Lines 709-760. *)
Definition predict (pa : PredictArgs) (to_predict : list string)
  : result (list string) :=
  rbind (batches pa to_predict) (fun bs =>
    let all_outputs := concat (map (generate_batch pa) bs) in
    Ok (map (fun output_id => decode output_id true true) all_outputs)).

End Predict.

(** ** The early-stopping rule in the words of the specification *)



(** ** Concrete runs *)

(** A configuration that evaluates after every optimizer step and after
    every epoch, with the given direction, delta and patience. *)
Definition example_args (minimize : bool) (delta : Q) (patience : Z)
  (stopping : bool) : TrainArgs :=
  {| num_train_epochs := 3;
     gradient_accumulation_steps := 1;
     logging_steps := 0;
     save_steps := 0;
     save_model_every_epoch := false;
     evaluate_during_training := true;
     evaluate_during_training_steps := 1;
     save_eval_checkpoints := false;
     save_best_model := true;
     early_stopping_metric := "eval_loss";
     early_stopping_metric_minimize := minimize;
     early_stopping_delta := delta;
     use_early_stopping := stopping;
     early_stopping_patience := patience;
     early_stopping_consider_epochs := true;
     model_name := "" |}.

(** The locals of [train] after [steps] optimizer steps of loss one, with
    the given best value and counter. *)
Definition example_state (steps : Z) (best : option Q) (counter : Z)
  : TrainState :=
  {| global_step := steps;
     tr_loss := inject_Z steps;
     logging_loss := 0;
     current_loss := Some 1%Q;
     epoch_number := 0;
     best_eval_metric := best;
     early_stopping_counter := counter;
     steps_trained_in_current_epoch := 0;
     epochs_trained := 0;
     evals_done := 0;
     saved := [];
     training_progress_scores := _create_training_progress_scores [];
     progress_file := None |}.

(** ** Reasoning about flows *)

(** The locals at the point where a piece of the loop body is left, if it
    is left by falling through or by [return]. *)
Definition flow_state (f : flow) : option TrainState :=
  match f with
  | Next st => Some st
  | Return st _ => Some st
  | Throw _ => None
  end.

(** [I] holds when the piece falls through, [R] when it returns. *)
Definition flow_sat (I : TrainState -> Prop)
  (R : TrainState -> Z * Q -> Prop) (f : flow) : Prop :=
  match f with
  | Next st => I st
  | Return st r => R st r
  | Throw _ => True
  end.

(** A configuration without evaluation that accumulates gradients over
    [gas] batches. *)
Definition example_accumulating_args (gas : Z) : TrainArgs :=
  {| num_train_epochs := 1;
     gradient_accumulation_steps := gas;
     logging_steps := 0;
     save_steps := 0;
     save_model_every_epoch := false;
     evaluate_during_training := false;
     evaluate_during_training_steps := 0;
     save_eval_checkpoints := false;
     save_best_model := false;
     early_stopping_metric := "eval_loss";
     early_stopping_metric_minimize := true;
     early_stopping_delta := 0;
     use_early_stopping := false;
     early_stopping_patience := 3;
     early_stopping_consider_epochs := false;
     model_name := "" |}.

(** ** Early stopping along a run *)

(** The early-stopping view of the locals: best value, counter, number of
    evaluations made. *)
Definition es_view (st : TrainState) : option Q * Z * nat :=
  (best_eval_metric st, early_stopping_counter st, evals_done st).

(** The view after [n] evaluations of a run whose metric [m] decreases up
    to evaluation [k] (counted from 0) and stays flat afterwards: the
    first evaluation is compared with itself and counts as a
    non-improvement. *)
Definition expected_view (m : nat -> Q) (k n : nat) : option Q * Z * nat :=
  (match n with
   | O => None
   | S i => Some (m (Nat.min i k))
   end,
   if Nat.eqb n 1 then 1 else Z.max 0 (Z.of_nat n - 1 - Z.of_nat k),
   n).

(** Metrics of a run: 5, 4, 3 and then 3 for ever. *)
Definition example_metrics (n : nat) : Q :=
  match n with
  | O => 5
  | 1%nat => 4
  | _ => 3
  end.

Definition example_eval_model (n : nat) : list (string * Q) :=
  [("eval_loss", example_metrics n)].

(** What holds of the locals while such a run goes on: the view is the
    expected one and the counter has not passed the patience. *)
Definition patience_inv (a : TrainArgs) (m : nat -> Q) (k : nat)
  (st : TrainState) : Prop :=
  es_view st = expected_view m k (evals_done st)
  /\ early_stopping_counter st <= early_stopping_patience a.

(** What holds when [train] returns from inside the loop: the evaluation
    that stopped the run is number [k + patience + 1] (counted from 0),
    and the pair returned is the global step and the mean loss. *)
Definition patience_post (a : TrainArgs) (k : nat) (st : TrainState)
  (r : Z * Q) : Prop :=
  Z.of_nat (evals_done st) = Z.of_nat k + early_stopping_patience a + 2
  /\ global_step st <> 0
  /\ r = (global_step st, (tr_loss st / inject_Z (global_step st))%Q).

(** What holds whenever [train] returns from inside the loop: early
    stopping is enabled, the counter has reached the patience, and the
    pair returned is the global step and the mean loss. *)
Definition early_exit_post (a : TrainArgs) (st : TrainState) (r : Z * Q)
  : Prop :=
  use_early_stopping a = true
  /\ early_stopping_patience a <= early_stopping_counter st
  /\ global_step st <> 0
  /\ r = (global_step st, (tr_loss st / inject_Z (global_step st))%Q).

(** ** Checkpoint names *)

(** Whether character [c] occurs in [s]. *)
Fixpoint contains (c : ascii) (s : string) : bool :=
  match s with
  | EmptyString => false
  | String c' s' => Ascii.eqb c' c || contains c s'
  end.




(** The decimal numeral of a natural number, as ["checkpoint-{}".format]
    writes it. *)
Definition decimal (n : N) : string :=
  NilEmpty.string_of_uint (N.to_uint n).

(** The number read off a numeral from the left, starting from [acc]. *)
Fixpoint uint_acc (d : Decimal.uint) (acc : Z) : Z :=
  match d with
  | Decimal.Nil => acc
  | Decimal.D0 l => uint_acc l (10 * acc + 0)
  | Decimal.D1 l => uint_acc l (10 * acc + 1)
  | Decimal.D2 l => uint_acc l (10 * acc + 2)
  | Decimal.D3 l => uint_acc l (10 * acc + 3)
  | Decimal.D4 l => uint_acc l (10 * acc + 4)
  | Decimal.D5 l => uint_acc l (10 * acc + 5)
  | Decimal.D6 l => uint_acc l (10 * acc + 6)
  | Decimal.D7 l => uint_acc l (10 * acc + 7)
  | Decimal.D8 l => uint_acc l (10 * acc + 8)
  | Decimal.D9 l => uint_acc l (10 * acc + 9)
  end.

(** A resumable configuration: the model is loaded from [name]. *)
Definition example_resume_args (name : string) (gas : Z) : TrainArgs :=
  {| num_train_epochs := 30;
     gradient_accumulation_steps := gas;
     logging_steps := 0;
     save_steps := 0;
     save_model_every_epoch := false;
     evaluate_during_training := false;
     evaluate_during_training_steps := 0;
     save_eval_checkpoints := false;
     save_best_model := false;
     early_stopping_metric := "eval_loss";
     early_stopping_metric_minimize := true;
     early_stopping_delta := 0;
     use_early_stopping := false;
     early_stopping_patience := 3;
     early_stopping_consider_epochs := false;
     model_name := name |}.

(** The same configuration with another number of epochs. *)
Definition with_num_train_epochs (n : Z) (a : TrainArgs) : TrainArgs :=
  {| num_train_epochs := n;
     gradient_accumulation_steps := gradient_accumulation_steps a;
     logging_steps := logging_steps a;
     save_steps := save_steps a;
     save_model_every_epoch := save_model_every_epoch a;
     evaluate_during_training := evaluate_during_training a;
     evaluate_during_training_steps := evaluate_during_training_steps a;
     save_eval_checkpoints := save_eval_checkpoints a;
     save_best_model := save_best_model a;
     early_stopping_metric := early_stopping_metric a;
     early_stopping_metric_minimize := early_stopping_metric_minimize a;
     early_stopping_delta := early_stopping_delta a;
     use_early_stopping := use_early_stopping a;
     early_stopping_patience := early_stopping_patience a;
     early_stopping_consider_epochs := early_stopping_consider_epochs a;
     model_name := model_name a |}.

(** ** Batches of [predict] *)

(** The batch that holds input [i], and where [i] sits in it. *)
Definition batch_of (pa : PredictArgs) (to_predict : list string) (i : nat)
  : list string :=
  let b := Z.to_nat (eval_batch_size pa) in
  take b (drop (i / b * b) to_predict).

Definition position_in_batch (pa : PredictArgs) (i : nat) : nat :=
  (i mod Z.to_nat (eval_batch_size pa))%nat.

(** Stand-ins for the tokenizers and the model: a text is encoded as its
    length, generation appends a 0, decoding writes one ["a"] per token. *)
Definition example_encode (batch : list string) (max_len : Z)
  : list (list Z) :=
  map (fun text => [Z.of_nat (String.length text)]) batch.

Definition example_generate (ids : list (list Z)) (p : GenerateArgs)
  : list (list Z) :=
  map (fun row => row ++ [0]) ids.

Definition example_decode (ids : list Z) (skip_special cleanup : bool)
  : string :=
  fold_right (fun _ s => String "a"%char s) EmptyString ids.

(** Stand-ins that keep the text: a text is encoded as the codes of its
    characters, generation reverses each row, decoding writes the
    characters back. *)
Definition spell_encode (batch : list string) (max_len : Z)
  : list (list Z) :=
  map (fun text =>
         map (fun c => Z.of_nat (nat_of_ascii c)) (String.list_ascii_of_string text))
    batch.

Definition reverse_generate (ids : list (list Z)) (p : GenerateArgs)
  : list (list Z) :=
  map (@List.rev Z) ids.

Definition spell_decode (ids : list Z) (skip_special cleanup : bool)
  : string :=
  String.string_of_list_ascii (map (fun z => ascii_of_nat (Z.to_nat z)) ids).

Definition example_predict_args (batch_size : Z) : PredictArgs :=
  {| eval_batch_size := batch_size;
     max_seq_length := 16;
     model_type := "bart";
     generation :=
       {| decoder_start_token_id := None;
          num_beams := 1;
          max_length := 20;
          length_penalty := 2;
          early_stopping := true;
          repetition_penalty := 1;
          do_sample := false |} |}.

(** ** The layers of the configuration, in the words of the specification *)

(** The built-in defaults overridden key by key by the global defaults and
    then by the caller's dict. *)
Definition layered (defaults global : gmap string value)
  (overrides : option (gmap string value)) (key : string) : option value :=
  match overrides ≫= (fun o => o !! key) with
  | Some v => Some v
  | None =>
      match global !! key with
      | Some v => Some v
      | None => defaults !! key
      end
  end.

(** A stand-in for [global_args] with the entries that [__init__] and the
    prologue of [train] read. *)
Definition example_global_args : gmap string value :=
  list_to_map
    [("fp16", VBool true);
     ("wandb_project", VNone);
     ("model_name", VNone);
     ("model_type", VNone);
     ("gradient_accumulation_steps", VInt 1);
     ("num_train_epochs", VInt 1);
     ("weight_decay", VInt 0);
     ("warmup_ratio", VFloat (6 # 100));
     ("warmup_steps", VInt 0)].

(** [Seq2SeqModel(encoder_decoder_type="bart",
    encoder_decoder_name="facebook/bart-large", args=overrides,
    use_cuda=False)]. *)
Definition example_init (overrides : gmap string value) : InitArgs :=
  {| encoder_type := None;
     encoder_name := None;
     decoder_name := None;
     encoder_decoder_type := Some "bart";
     encoder_decoder_name := Some "facebook/bart-large";
     config := false;
     args := Some overrides;
     use_cuda := false |}.

(** [r[key]] when [r] is a configuration, nothing when it is an error. *)
Definition result_lookup (r : result (gmap string value)) (key : string)
  : option value :=
  match r with
  | Ok d => d !! key
  | Raise _ => None
  end.

(** A caller's dict that names the model and asks for half precision. *)
Definition example_overrides : gmap string value :=
  {["model_name" := VStr "mine"; "fp16" := VBool true]}.

(** A complete [self.args] for a run without evaluation, with the given
    [max_steps] and [warmup_steps]. *)
Definition example_train_dict (max_steps warmup_steps : Z)
  : gmap string value :=
  list_to_map
    [("tensorboard_dir", VStr "runs/");
     ("train_batch_size", VInt 8);
     ("max_steps", VInt max_steps);
     ("num_train_epochs", VInt 1);
     ("gradient_accumulation_steps", VInt 1);
     ("weight_decay", VInt 0);
     ("warmup_ratio", VFloat (6 # 100));
     ("warmup_steps", VInt warmup_steps);
     ("logging_steps", VInt 50);
     ("save_steps", VInt 2000);
     ("save_model_every_epoch", VBool true);
     ("evaluate_during_training", VBool false);
     ("evaluate_during_training_steps", VInt 2000);
     ("save_eval_checkpoints", VBool true);
     ("save_best_model", VBool true);
     ("early_stopping_metric", VStr "eval_loss");
     ("early_stopping_metric_minimize", VBool true);
     ("early_stopping_delta", VInt 0);
     ("use_early_stopping", VBool false);
     ("early_stopping_patience", VInt 3);
     ("early_stopping_consider_epochs", VBool false);
     ("model_name", VStr "facebook/bart-large")].

(** Lines 314-620 for a run without evaluation on batches of loss one,
    from a cold start and with one accumulation step: the loop makes
    [int(args["num_train_epochs"])] epochs. *)
Definition example_train_from_optimizer (n_batches : Z)
  (d : gmap string value) : result (Z * Q) :=
  rbind (get_number d "num_train_epochs") (fun epochs =>
  train_result (fun _ _ => 1%Q) (fun _ => []) n_batches (fun _ => false) []
    (with_num_train_epochs (number_int epochs)
       (example_accumulating_args 1))).

(** ** Growth of the progress table *)

(** [d'] has the columns of [d], in the same order, each with cells added
    at its end. *)
Definition extends (d d' : list (string * list cell)) : Prop :=
  Forall2
    (fun kc kc' =>
       fst kc' = fst kc /\ exists cells, snd kc' = snd kc ++ cells)
    d d'.

(** All columns of [d] have [n] cells. *)
Definition aligned (n : nat) (d : list (string * list cell)) : Prop :=
  Forall (fun kc => length (snd kc) = n) d.

(** Row [i] of the table. *)
Definition row_of (d : list (string * list cell)) (i : nat) : list cell :=
  map (fun kc => nth i (snd kc) (CInt 0)) d.

(** The cell that an evaluation at global step [step], with the training
    loss [loss] of the last batch and the results [results], writes under
    the column [key]. *)
Definition progress_cell (step : Z) (loss : Q) (results : list (string * Q))
  (key : string) : option cell :=
  if String.eqb key "global_step" then Some (CInt step)
  else if String.eqb key "train_loss" then Some (CFloat loss)
  else match dict_get results key with
       | Ok v => Some (CFloat v)
       | Raise _ => None
       end.

(** Evaluation results with one extra metric. *)
Definition example_eval_model_rouge (n : nat) : list (string * Q) :=
  [("eval_loss", example_metrics n); ("rouge", 1 # 2)].

(** The locals at the first evaluation of a run with the extra metric
    [rouge], after four optimizer steps of loss one. *)
Definition example_first_evaluation : TrainState :=
  set_current_loss (Some 1%Q)
    (set_tr_loss 4
       (set_global_step 4
          (initial_state ["rouge"] (example_args true 0 2 true)))).


(** * Further definitions

    The rest of the module: evaluation, the inputs of the model,
    [train_model], the names of the checkpoints, and the views and
    invariants of the loop that the further properties speak of. The
    arithmetic of the losses is linear arithmetic over [Q]. *)

From Stdlib Require Import Lqa.

(** ** Further reasoning about flows *)

(** The piece falls through, into a state where [I] holds. *)
Definition flow_next (I : TrainState -> Prop) (f : flow) : Prop :=
  match f with
  | Next st => I st
  | Return _ _ => False
  | Throw _ => False
  end.

(** The locals that say where the run stands: global step, batches still
    to skip in this epoch, epochs still to skip. *)
Definition position (st : TrainState) : Z * Z * Z :=
  (global_step st, steps_trained_in_current_epoch st, epochs_trained st).

(** The locals and the file that only an evaluation writes. *)
Definition evaluation_view (st : TrainState)
  : option Q * Z * nat * list (string * list cell) * option csv :=
  (best_eval_metric st, early_stopping_counter st, evals_done st,
   training_progress_scores st, progress_file st).

(** ** Invariants of a run *)

(** The counter of evaluations without improvement lies between zero and
    the patience. *)
Definition counter_in_range (a : TrainArgs) (st : TrainState) : Prop :=
  0 <= early_stopping_counter st <= Z.max 0 (early_stopping_patience a).

(** Whether the configuration [a] has a switch that lets [train] save
    into [dir]: [save_steps] or [save_eval_checkpoints] for the checkpoint
    of a step, [save_model_every_epoch] or [save_eval_checkpoints] for the
    checkpoint of an epoch, [save_best_model] for the best model. *)
Definition save_allowed (a : TrainArgs) (dir : save_dir) : bool :=
  match dir with
  | CheckpointStep step =>
      ((0 <? save_steps a) && (step mod save_steps a =? 0))
      || (evaluate_during_training a && save_eval_checkpoints a
          && ((0 <? evaluate_during_training_steps a)
              && (step mod evaluate_during_training_steps a =? 0)))
  | CheckpointEpoch _ _ =>
      save_model_every_epoch a
      || (evaluate_during_training a && save_eval_checkpoints a)
  | BestModelDir => evaluate_during_training a && save_best_model a
  end.

(** Every directory of the trace is one the configuration allows. *)
Definition saves_allowed (a : TrainArgs) (st : TrainState) : Prop :=
  Forall (fun dir => save_allowed a dir = true) (saved st).

(** A configuration that evaluates after every optimizer step, keeps the
    best model and stops after [patience] evaluations without
    improvement. *)
Definition example_stopping_args (patience : Z) : TrainArgs :=
  {| num_train_epochs := 2;
     gradient_accumulation_steps := 1;
     logging_steps := 0;
     save_steps := 0;
     save_model_every_epoch := false;
     evaluate_during_training := true;
     evaluate_during_training_steps := 1;
     save_eval_checkpoints := false;
     save_best_model := true;
     early_stopping_metric := "eval_loss";
     early_stopping_metric_minimize := true;
     early_stopping_delta := 0;
     use_early_stopping := true;
     early_stopping_patience := patience;
     early_stopping_consider_epochs := false;
     model_name := "" |}.

(** ** Why a recording of scores fails *)

(** The columns that an evaluation with results [results] appends to. *)
Definition touched (results : list (string * Q)) : list string :=
  "global_step" :: "train_loss" :: map fst results.

(** ** Evaluation *)

(** How a call ends when [AssertionError] and [IndexError] are among the
    exceptions it can raise. *)
Inductive outcome (A : Type) : Type :=
  | Returns (v : A)
  | Raises (e : exn)
  | AssertionError
  | IndexError.
Arguments Returns {A} v.
Arguments Raises {A} e.
Arguments AssertionError {A}.
Arguments IndexError {A}.

(** [d.update(other)] on dicts kept in insertion order. *)
Definition dict_update {V} (d other : list (string * V))
  : list (string * V) :=
  fold_left (fun d kv => dict_set d (fst kv) (snd kv)) other d.

(** A row of the evaluation data. *)
Record Example : Type := {
  prefix : string;
  input_text : string;
  target_text : string
}.

(** A metric passed as a keyword argument: from the labels and the
    predictions to a score. *)
Definition metric : Type := list string -> list string -> Q.

(** Lines 822-823: the last value of every column, [values[-1]] raising
    [IndexError] on an empty column. *)
Definition _get_last_metrics (metric_values : list (string * list cell))
  : outcome (list (string * cell)) :=
  fold_left
    (fun acc mv =>
       match acc with
       | Returns d =>
           match last (snd mv) with
           | Some v => Returns (dict_set d (fst mv) v)
           | None => IndexError
           end
       | _ => acc
       end)
    metric_values (Returns []).

Module Evaluator.

(** Lines 664-707: [evaluate], without the writing of [eval_results.txt].
    [losses] lists [loss.mean().item()] for the
    batches of the evaluation data loader, in order. The sum and the
    quotient stand for the floats that Python computes. *)
Definition evaluate (losses : list Q) : result (list (string * Q)) :=
  let results := [] in
  let '(eval_loss, nb_eval_steps) :=
    fold_left (fun acc loss => ((fst acc + loss)%Q, snd acc + 1)) losses
      (0%Q, 0) in
  if nb_eval_steps =? 0 then Raise ZeroDivisionError
  else
    let eval_loss := (eval_loss / inject_Z nb_eval_steps)%Q in
    Ok (dict_set results "eval_loss" eval_loss).

(** Lines 762-782: [compute_metrics]. *)
Definition compute_metrics (kwargs : list (string * metric))
  (labels preds : list string) : outcome (list (string * Q)) :=
  if Nat.eqb (length labels) (length preds) then
    Returns
      (fold_left
         (fun results mf => dict_set results (fst mf) (snd mf labels preds))
         kwargs [])
  else AssertionError.

Section EvalModel.

Variable batch_encode_plus : list string -> Z -> list (list Z).
Variable generate : list (list Z) -> GenerateArgs -> list (list Z).
Variable decode : list Z -> bool -> bool -> string.
Variable decoder_pad_token_id : Z.

(** Lines 622-662: [eval_model]. [self_results] is [self.results] before
    the call; the pair is [self.results] after it and how the call ends,
    the value returned being [self.results] itself. *)
Definition eval_model (pa : PredictArgs) (evaluate_generated_text : bool)
  (kwargs : list (string * metric)) (losses : list Q)
  (eval_data : list Example) (self_results : list (string * Q))
  : list (string * Q) * outcome (list (string * Q)) :=
  match evaluate losses with
  | Raise e => (self_results, Raises e)
  | Ok result =>
      let self_results := dict_update self_results result in
      if evaluate_generated_text then
        let to_predict := map input_text eval_data in
        match
          predict batch_encode_plus generate decode decoder_pad_token_id
            pa to_predict
        with
        | Raise e => (self_results, Raises e)
        | Ok preds =>
            match compute_metrics kwargs (map target_text eval_data) preds with
            | Returns result =>
                let self_results := dict_update self_results result in
                (self_results, Returns self_results)
            | Raises e => (self_results, Raises e)
            | AssertionError => (self_results, AssertionError)
            | IndexError => (self_results, IndexError)
            end
        end
      else (self_results, Returns self_results)
  end.

End EvalModel.

End Evaluator.

(** A metric for the examples: the number of predictions equal to their
    label. *)
Definition example_metric : metric :=
  fun labels preds =>
    inject_Z
      (Z.of_nat
         (length (List.filter (fun lp => String.eqb (fst lp) (snd lp))
                    (combine labels preds)))).

Definition example_eval_data : list Example :=
  [{| prefix := ""; input_text := "ab"; target_text := "aa" |};
   {| prefix := ""; input_text := "abcd"; target_text := "aaaaa" |};
   {| prefix := ""; input_text := "a"; target_text := "aa" |}].

(** ** Inputs of the model *)

(** A batch as the data loader yields it: a dict of tensors from the
    summarization data set, a tuple of tensors from the others. A tensor
    of token ids is a list of rows. *)
Inductive Batch : Type :=
  | BatchDict (source_ids source_mask target_ids : list (list Z))
  | BatchTuple (fields : list (list (list Z))).

(** The keyword arguments of the forward pass; only [bart] is given an
    [attention_mask]. *)
Record Inputs : Type := {
  input_ids : list (list Z);
  attention_mask : option (list (list Z));
  decoder_input_ids : list (list Z);
  lm_labels : list (list Z)
}.

(** [labels[labels == pad_token_id] = -100] *)
Definition mask_padding (pad_token_id : Z) (labels : list (list Z))
  : list (list Z) :=
  map (map (fun t => if t =? pad_token_id then -100 else t)) labels.

(** Lines 874-900: [_get_inputs_dict]. Indexing a tuple with a string
    raises [TypeError], a dict of tensors with [1] raises [KeyError], a
    tuple too short [IndexError]. *)
Definition _get_inputs_dict (model_type : string)
  (encoder_pad_token_id decoder_pad_token_id : Z) (batch : Batch)
  : outcome Inputs :=
  if String.eqb model_type "bart" then
    let pad_token_id := encoder_pad_token_id in
    match batch with
    | BatchDict source_ids source_mask y =>
        (* y[:, :-1] *)
        let y_ids := map (fun row => take (length row - 1) row) y in
        (* y[:, 1:] *)
        let lm_labels := map (drop 1) y in
        let lm_labels := mask_padding pad_token_id lm_labels in
        Returns {| input_ids := source_ids;
                   attention_mask := Some source_mask;
                   decoder_input_ids := y_ids;
                   lm_labels := lm_labels |}
    | BatchTuple _ => Raises TypeError
    end
  else
    match batch with
    | BatchTuple fields =>
        match fields !! 1%nat with
        | None => IndexError
        | Some lm_labels =>
            let lm_labels_masked :=
              mask_padding decoder_pad_token_id lm_labels in
            match fields !! 0%nat with
            | None => IndexError
            | Some batch_0 =>
                Returns {| input_ids := batch_0;
                           attention_mask := None;
                           decoder_input_ids := lm_labels;
                           lm_labels := lm_labels_masked |}
            end
        end
    | BatchDict _ _ _ => Raises KeyError
    end.

(** ** [train_model] *)

(** [args[key]] used as a path. What is no [str] ends the call with a
    [TypeError]: [os.path.exists] or, for an integer, which it takes for
    a file descriptor that is not open, [os.makedirs] raises it before
    anything is trained. *)
Definition get_path (d : gmap string value) (key : string) : result string :=
  match d !! key with
  | None => Raise KeyError
  | Some (VStr s) => Ok s
  | Some _ => Raise TypeError
  end.

Section TrainModel.

Variable F : FloatOps.
Variable n_batches : Z.
Variable train_from_optimizer : gmap string value -> result (Z * Q).

(** [os.path.exists(dir) and os.listdir(dir)]: the directory is there and
    holds something. The path is taken to name a directory or nothing. *)
Variable holds_files : string -> bool.

(** Lines 231-273: [train_model]. [eval_data] tells whether the argument
    was given. The result is [self.args] after the call and, when the
    call returns, the directories the trained model was written to:
    the one of [_save_model] and the one of [save_pretrained]. Moving the
    model to the device, loading the examples, creating the directory
    and writing the model are taken to succeed. *)
Definition train_model (self_args : gmap string value)
  (output_dir : option string) (args : option (gmap string value))
  (eval_data : bool) : gmap string value * result (list string) :=
  let self_args :=
    match args with
    | Some overrides =>
        if decide (overrides = ∅) then self_args
        else update self_args overrides
    | None => self_args
    end in
  match get_bool self_args "evaluate_during_training" with
  | Raise e => (self_args, Raise e)
  | Ok evaluating =>
      if evaluating && negb eval_data then (self_args, Raise ValueError)
      else
        match
          if str_truthy output_dir then Ok (or_empty output_dir)
          else get_path self_args "output_dir"
        with
        | Raise e => (self_args, Raise e)
        | Ok output_dir =>
            match
              if holds_files output_dir
              then rbind (get_bool self_args "overwrite_output_dir")
                     (fun overwrite => Ok (negb overwrite))
              else Ok false
            with
            | Raise e => (self_args, Raise e)
            | Ok true => (self_args, Raise ValueError)
            | Ok false =>
                match
                  train F n_batches train_from_optimizer self_args
                with
                | (self_args, Raise e) => (self_args, Raise e)
                | (self_args, Ok _) =>
                    (self_args,
                     rbind (get_path self_args "output_dir") (fun saved_to =>
                     Ok [saved_to; output_dir]))
                end
            end
        end
  end.

End TrainModel.

(** A [self.args] for [train_model]: the run without evaluation of
    [example_train_dict], writing to [outputs/]. *)
Definition example_self_args : gmap string value :=
  <["output_dir" := VStr "outputs/"]>
    (<["overwrite_output_dir" := VBool false]> (example_train_dict (-1) 0)).

(** ** Names of the checkpoints *)

(** ["{}".format(n)] for an int. *)
Definition str_of_int (z : Z) : string :=
  if z <? 0 then "-" +:+ decimal (Z.to_N (- z)) else decimal (Z.to_N z).

(** Whether [s] ends with the character [c]. *)
Fixpoint ends_with (c : ascii) (s : string) : bool :=
  match s with
  | EmptyString => false
  | String x EmptyString => Ascii.eqb x c
  | String _ s' => ends_with c s'
  end.

(** [os.path.join(a, b)] on a POSIX system, for a relative [b]. *)
Definition path_join (a b : string) : string :=
  if String.eqb a "" then b
  else if ends_with "/"%char a then a +:+ b
  else a +:+ "/" +:+ b.

(** Lines 448, 466 and 545: the path handed to [_save_model] for a
    checkpoint; the best model goes to [args["best_model_dir"]]. *)
Definition checkpoint_dir (output_dir best_model_dir : string)
  (dir : save_dir) : string :=
  match dir with
  | CheckpointStep step =>
      path_join output_dir ("checkpoint-" +:+ str_of_int step)
  | CheckpointEpoch step epoch =>
      path_join output_dir
        ("checkpoint-" +:+ str_of_int step +:+ "-epoch-"
           +:+ str_of_int epoch)
  | BestModelDir => best_model_dir
  end.

(** ** The loss of the last batch *)



(** ** The loss that [train] returns *)

(** [train] returns [r] from the state [st]. *)
Definition returned_from (st : TrainState) (r : Z * Q) : Prop :=
  global_step st <> 0
  /\ r = (global_step st, (tr_loss st / inject_Z (global_step st))%Q).

(** A configuration that evaluates and may stop early, with accumulation
    over [gas] batches. *)
Definition example_evaluating_args (gas : Z) : TrainArgs :=
  {| num_train_epochs := 2;
     gradient_accumulation_steps := gas;
     logging_steps := 0;
     save_steps := 0;
     save_model_every_epoch := false;
     evaluate_during_training := true;
     evaluate_during_training_steps := 1;
     save_eval_checkpoints := false;
     save_best_model := false;
     early_stopping_metric := "eval_loss";
     early_stopping_metric_minimize := true;
     early_stopping_delta := 0;
     use_early_stopping := true;
     early_stopping_patience := 1;
     early_stopping_consider_epochs := false;
     model_name := "" |}.

(** Batch losses between 1 and 2. *)
Definition example_batch_loss (current_epoch step : Z) : Q :=
  if Z.even step then 1 else 2.
(** * Properties *)

(** ** Comparisons on floats *)

Lemma Qltb_lt (x y : Q) : Qltb x y = true <-> (x < y)%Q.
Proof. unfold Qltb, Qlt. apply Z.ltb_lt. Qed.

Lemma Qltb_nlt (x y : Q) : Qltb x y = false <-> ~ (x < y)%Q.
Proof.
  rewrite <- Qltb_lt. destruct (Qltb x y); split; congruence.
Qed.

Lemma truthy_Some (q : Q) : truthy (Some q) = true <-> ~ (q == 0)%Q.
Proof.
  unfold truthy. rewrite negb_true_iff, <- Qeq_bool_iff.
  destruct (Qeq_bool q 0); split; congruence.
Qed.

(** ** The early-stopping rule *)

(** Neither [take_as_best] nor the counter assignment touch the fields the
    other one writes. *)
Lemma take_as_best_best a m st :
  best_eval_metric (take_as_best a m st) = Some m.
Proof. unfold take_as_best. destruct (save_best_model a); reflexivity. Qed.

Lemma take_as_best_counter a m st :
  early_stopping_counter (take_as_best a m st) = early_stopping_counter st.
Proof. unfold take_as_best. destruct (save_best_model a); reflexivity. Qed.

Lemma take_as_best_saved a m st :
  saved (take_as_best a m st)
  = if save_best_model a then BestModelDir :: saved st else saved st.
Proof. unfold take_as_best. destruct (save_best_model a); reflexivity. Qed.

Lemma init_best_truthy a m st :
  truthy (best_eval_metric st) = true -> init_best a m st = st.
Proof. unfold init_best. intros ->. reflexivity. Qed.

Lemma init_best_falsy a m st :
  truthy (best_eval_metric st) = false -> init_best a m st = take_as_best a m st.
Proof. unfold init_best. intros ->. reflexivity. Qed.

Lemma Qminus_lt_0 (x y : Q) : (x - y < 0)%Q <-> (x < y)%Q.
Proof.
  split; intros H.
  - apply (Qplus_lt_l _ _ (- y)). rewrite Qplus_opp_r. exact H.
  - apply (Qplus_lt_l _ _ (- y)) in H. rewrite Qplus_opp_r in H. exact H.
Qed.




(** ** A falsy best value *)

Lemma Qltb_self_zero_delta (m delta : Q) :
  (delta == 0)%Q ->
  Qltb (m - m) delta = false /\ Qltb delta (m - m) = false.
Proof.
  intros Hd. split; apply Qltb_nlt; unfold Qminus;
    rewrite Hd, Qplus_opp_r; apply Qlt_irrefl.
Qed.

(** C9 (as amended). At an evaluation where the stored best value is
    [None] or zero, the guard stores the current metric as best value
    whatever the direction and the delta, saves the best model if
    [save_best_model] is set, and leaves the counter alone. The same
    evaluation then goes on to compare the metric with the value just
    stored: with a zero delta this is a non-improvement, so the counter is
    incremented while below the patience, [train] returns once it is not,
    and only without early stopping does the counter stay as it was. *)
Theorem falsy_best_is_reinitialised gate a metric st :
  truthy (best_eval_metric st) = false ->
  best_eval_metric (init_best a metric st) = Some metric
  /\ saved (init_best a metric st)
     = (if save_best_model a then BestModelDir :: saved st else saved st)
  /\ early_stopping_counter (init_best a metric st)
     = early_stopping_counter st
  /\ ((early_stopping_delta a == 0)%Q ->
      early_stopping_check gate a metric st =
        if gate then
          if early_stopping_counter st <? early_stopping_patience a
          then Next (set_early_stopping_counter
                       (early_stopping_counter st + 1)
                       (init_best a metric st))
          else return_mean_loss (init_best a metric st)
        else Next (init_best a metric st)).
Proof.
  intros Hf. rewrite (init_best_falsy a metric st Hf).
  split; [apply take_as_best_best|].
  split; [apply take_as_best_saved|].
  split; [apply take_as_best_counter|].
  intros Hd. unfold early_stopping_check.
  rewrite (init_best_falsy a metric st Hf).
  unfold compare_with_best. rewrite take_as_best_best.
  destruct (Qltb_self_zero_delta metric _ Hd) as [H1 H2].
  rewrite H1, H2.
  unfold no_improvement. rewrite take_as_best_counter.
  destruct (truthy (Some metric) && early_stopping_metric_minimize a);
    reflexivity.
Qed.

Lemma falsy_best_is_reinitialised_witness :
  truthy (best_eval_metric (example_state 4 (Some 0%Q) 0)) = false
  /\ best_eval_metric
       (init_best (example_args true 0 3 true) 5
          (example_state 4 (Some 0%Q) 0))
     = Some 5%Q.
Proof.
  split; [reflexivity|].
  apply (falsy_best_is_reinitialised true (example_args true 0 3 true) 5
           (example_state 4 (Some 0%Q) 0)).
  reflexivity.
Defined.

(** C9, counterexample. Minimizing with delta 0, patience 3, counter 0
    and a stored best value of 0.0: the evaluation with metric 5 stores 5
    as best value, saves the best model, and leaves with the counter at 1. *)
Lemma counter_incremented_at_reinitialisation :
  truthy (best_eval_metric (example_state 4 (Some 0%Q) 0)) = false
  /\ exists st',
       early_stopping_check true (example_args true 0 3 true) 5
         (example_state 4 (Some 0%Q) 0) = Next st'
       /\ best_eval_metric st' = Some 5%Q
       /\ saved st' = [BestModelDir]
       /\ early_stopping_counter st'
          = early_stopping_counter (example_state 4 (Some 0%Q) 0) + 1.
Proof.
  split; [reflexivity|]. eexists. repeat split.
Qed.

(** ** Hoare-style rules for the loop *)

Lemma fbind_sat I J R f k :
  flow_sat I R f ->
  (forall st, I st -> flow_sat J R (k st)) ->
  flow_sat J R (fbind f k).
Proof. destruct f; simpl; auto. Qed.

Lemma for_each_sat {A} I R (body : A -> TrainState -> flow) l :
  (forall x st, In x l -> I st -> flow_sat I R (body x st)) ->
  forall st, I st -> flow_sat I R (for_each body l st).
Proof.
  induction l as [|x l IH]; intros Hbody st HI; simpl; [exact HI|].
  apply fbind_sat with (I := I).
  - apply Hbody; [left; reflexivity | exact HI].
  - intros st' HI'. apply IH; [|exact HI'].
    intros y st'' Hy. apply Hbody. right. exact Hy.
Qed.

Lemma flow_sat_weaken (I I' : TrainState -> Prop)
  (R R' : TrainState -> Z * Q -> Prop) f :
  (forall st, I st -> I' st) ->
  (forall st r, R st r -> R' st r) ->
  flow_sat I R f -> flow_sat I' R' f.
Proof. destruct f; simpl; auto. Qed.

Lemma return_mean_loss_sat (I : TrainState -> Prop)
  (R : TrainState -> Z * Q -> Prop) st :
  (global_step st <> 0 ->
   R st (global_step st, (tr_loss st / inject_Z (global_step st))%Q)) ->
  flow_sat I R (return_mean_loss st).
Proof.
  intros H. unfold return_mean_loss.
  destruct (Z.eqb_spec (global_step st) 0); simpl; auto.
Qed.

(** ** What an evaluation leaves untouched *)

Lemma record_progress_frame results st st' :
  record_progress results st = Ok st' ->
  exists d f,
    st' = set_progress_file (Some f) (set_training_progress_scores d st).
Proof.
  unfold record_progress, rbind. intros H.
  destruct (dict_append _ _ _) as [d1|]; [|discriminate].
  destruct (current_loss st) as [loss|]; [|discriminate].
  destruct (dict_append d1 _ _) as [d2|]; [|discriminate].
  destruct (append_results d2 results) as [d3|]; [|discriminate].
  destruct (DataFrame d3) as [report|]; [|discriminate].
  injection H as <-. eauto.
Qed.

Lemma take_as_best_global_step a m st :
  global_step (take_as_best a m st) = global_step st.
Proof. unfold take_as_best. destruct (save_best_model a); reflexivity. Qed.

Lemma init_best_global_step a m st :
  global_step (init_best a m st) = global_step st.
Proof.
  unfold init_best. destruct (truthy _); [reflexivity|].
  apply take_as_best_global_step.
Qed.

Lemma no_improvement_global_step gate a st :
  flow_sat (fun st' => global_step st' = global_step st)
    (fun st' _ => global_step st' = global_step st)
    (no_improvement gate a st).
Proof.
  unfold no_improvement. destruct gate; [|reflexivity].
  destruct (_ <? _); [reflexivity|].
  apply return_mean_loss_sat. reflexivity.
Qed.

Lemma early_stopping_check_global_step gate a m st :
  flow_sat (fun st' => global_step st' = global_step st)
    (fun st' _ => global_step st' = global_step st)
    (early_stopping_check gate a m st).
Proof.
  unfold early_stopping_check, compare_with_best.
  pose proof (init_best_global_step a m st) as Hi.
  destruct (best_eval_metric (init_best a m st)); [|exact I].
  assert (Hn : flow_sat (fun st' => global_step st' = global_step st)
                 (fun st' _ => global_step st' = global_step st)
                 (no_improvement gate a (init_best a m st))).
  { eapply flow_sat_weaken; [| |apply no_improvement_global_step];
      simpl; intros; congruence. }
  destruct (_ && _); destruct (Qltb _ _); try exact Hn;
    simpl; rewrite take_as_best_global_step; exact Hi.
Qed.

Section LoopFacts.

Variable batch_loss : Z -> Z -> Q.
Variable eval_model : nat -> list (string * Q).
Variable n_batches : Z.
Variable path_exists : string -> bool.
Variable kwargs : list string.

Lemma evaluation_global_step gate dir a st :
  flow_sat (fun st' => global_step st' = global_step st)
    (fun st' _ => global_step st' = global_step st)
    (evaluation eval_model gate dir a st).
Proof.
  unfold evaluation.
  set (st1 := if save_eval_checkpoints a then _ else _).
  assert (H1 : global_step st1 = global_step st)
    by (subst st1; destruct (save_eval_checkpoints a); reflexivity).
  destruct (record_progress _ st1) as [st2|] eqn:E; [|exact I].
  apply record_progress_frame in E. destruct E as (d & f & ->).
  destruct (dict_get _ _) as [m|]; [|exact I].
  eapply flow_sat_weaken; [| |apply early_stopping_check_global_step];
    simpl; intros; congruence.
Qed.

Lemma log_metrics_frame a st :
  exists l, log_metrics a st = set_logging_loss l st.
Proof.
  unfold log_metrics. destruct (_ && _); eexists; [reflexivity|].
  instantiate (1 := logging_loss st). destruct st; reflexivity.
Qed.

Lemma save_checkpoint_frame a st :
  exists l, save_checkpoint a st = set_saved l st.
Proof.
  unfold save_checkpoint, save_model. destruct (_ && _); eexists;
    [reflexivity|].
  instantiate (1 := saved st). destruct st; reflexivity.
Qed.

Lemma optimizer_update_global_step a st :
  flow_sat (fun st' => global_step st' = global_step st + 1)
    (fun st' _ => global_step st' = global_step st + 1)
    (optimizer_update eval_model a st).
Proof.
  unfold optimizer_update.
  destruct (log_metrics_frame a (set_global_step (global_step st + 1) st))
    as [l ->].
  destruct (save_checkpoint_frame a
              (set_logging_loss l
                 (set_global_step (global_step st + 1) st))) as [l' ->].
  destruct (_ && _); [|reflexivity].
  eapply flow_sat_weaken; [| |apply evaluation_global_step];
    simpl; intros; congruence.
Qed.

End LoopFacts.

(** ** Gradient accumulation *)

Lemma div_succ_step (s g : Z) :
  0 < g ->
  (s + 1) / g = s / g + (if (s + 1) mod g =? 0 then 1 else 0).
Proof.
  intros Hg.
  destruct (Z.eqb_spec ((s + 1) mod g) 0) as [E|E].
  - pose proof (Z.div_mod (s + 1) g ltac:(lia)) as H1.
    pose proof (Z.div_mod s g ltac:(lia)) as H2.
    pose proof (Z.mod_pos_bound s g Hg) as H3.
    rewrite E in H1. nia.
  - pose proof (Z.div_mod (s + 1) g ltac:(lia)) as H1.
    pose proof (Z.div_mod s g ltac:(lia)) as H2.
    pose proof (Z.mod_pos_bound s g Hg) as H3.
    pose proof (Z.mod_pos_bound (s + 1) g Hg) as H4.
    nia.
Qed.

Section Accumulation.

Variable batch_loss : Z -> Z -> Q.
Variable eval_model : nat -> list (string * Q).

Lemma train_batch_global_step a current_epoch step st :
  gradient_accumulation_steps a <> 0 ->
  steps_trained_in_current_epoch st <= 0 ->
  flow_sat
    (fun st' =>
       global_step st'
       = global_step st
         + (if (step + 1) mod gradient_accumulation_steps a =? 0
            then 1 else 0))
    (fun st' _ =>
       global_step st'
       = global_step st
         + (if (step + 1) mod gradient_accumulation_steps a =? 0
            then 1 else 0))
    (train_batch batch_loss eval_model a current_epoch step st).
Proof.
  intros Hg Hskip. unfold train_batch.
  destruct (Z.ltb_spec 0 (steps_trained_in_current_epoch st)); [lia|].
  unfold py_mod. destruct (Z.eqb_spec (gradient_accumulation_steps a) 0);
    [contradiction|].
  destruct (_ mod _ =? 0).
  - eapply flow_sat_weaken; [| |apply optimizer_update_global_step];
      simpl; intros; lia.
  - simpl. lia.
Qed.

Lemma train_batch_without_evaluation a current_epoch step st :
  gradient_accumulation_steps a <> 0 ->
  evaluate_during_training a = false ->
  steps_trained_in_current_epoch st <= 0 ->
  exists st',
    train_batch batch_loss eval_model a current_epoch step st = Next st'
    /\ steps_trained_in_current_epoch st' = steps_trained_in_current_epoch st
    /\ global_step st'
       = global_step st
         + (if (step + 1) mod gradient_accumulation_steps a =? 0
            then 1 else 0).
Proof.
  intros Hg He Hskip.
  pose proof (train_batch_global_step a current_epoch step st Hg Hskip) as Hs.
  revert Hs. unfold train_batch.
  destruct (Z.ltb_spec 0 (steps_trained_in_current_epoch st)); [lia|].
  unfold py_mod. destruct (Z.eqb_spec (gradient_accumulation_steps a) 0);
    [contradiction|].
  destruct (_ mod _ =? 0).
  - unfold optimizer_update. rewrite He. simpl andb. cbv iota.
    intros Hs. eexists. split; [reflexivity|]. split; [|exact Hs].
    match goal with |- context [log_metrics a ?s] =>
      destruct (log_metrics_frame a s) as [l ->] end.
    match goal with |- context [save_checkpoint a ?s] =>
      destruct (save_checkpoint_frame a s) as [l' ->] end.
    reflexivity.
  - intros Hs. eexists. split; [reflexivity|]. split; [reflexivity|exact Hs].
Qed.

Lemma for_each_batches_count a current_epoch :
  0 < gradient_accumulation_steps a ->
  evaluate_during_training a = false ->
  forall (n s : nat) st,
    steps_trained_in_current_epoch st <= 0 ->
    exists st',
      for_each (train_batch batch_loss eval_model a current_epoch)
        (map Z.of_nat (seq s n)) st = Next st'
      /\ steps_trained_in_current_epoch st'
         = steps_trained_in_current_epoch st
      /\ global_step st'
         = global_step st
           + (Z.of_nat (s + n) / gradient_accumulation_steps a
              - Z.of_nat s / gradient_accumulation_steps a).
Proof.
  intros Hg He. induction n as [|n IH]; intros s st Hskip.
  - exists st. simpl. rewrite Nat.add_0_r. repeat split; lia.
  - destruct (train_batch_without_evaluation a current_epoch (Z.of_nat s)
                st ltac:(lia) He Hskip) as (st1 & E1 & Hs1 & Hg1).
    destruct (IH (S s) st1 ltac:(lia)) as (st2 & E2 & Hs2 & Hg2).
    exists st2. simpl. rewrite E1. simpl. split; [exact E2|].
    split; [lia|].
    rewrite Hg2, Hg1.
    replace (S s + n)%nat with (s + S n)%nat by lia.
    replace (Z.of_nat (S s)) with (Z.of_nat s + 1) by lia.
    rewrite (div_succ_step (Z.of_nat s) _ Hg). lia.
Qed.

Lemma train_batch_skipped a current_epoch step st :
  0 < steps_trained_in_current_epoch st ->
  train_batch batch_loss eval_model a current_epoch step st
  = Next (set_steps_trained_in_current_epoch
            (steps_trained_in_current_epoch st - 1) st).
Proof.
  intros Hskip. unfold train_batch.
  destruct (Z.ltb_spec 0 (steps_trained_in_current_epoch st)); [reflexivity|].
  lia.
Qed.

(** Batches [s .. s + n - 1] of an epoch entered with batches to skip. *)
Lemma for_each_batches_resumed a current_epoch :
  0 < gradient_accumulation_steps a ->
  evaluate_during_training a = false ->
  forall (n s : nat) st,
    0 <= steps_trained_in_current_epoch st ->
    exists st',
      for_each (train_batch batch_loss eval_model a current_epoch)
        (map Z.of_nat (seq s n)) st = Next st'
      /\ steps_trained_in_current_epoch st'
         = Z.max 0 (steps_trained_in_current_epoch st - Z.of_nat n)
      /\ global_step st'
         = global_step st
           + (Z.of_nat (s + n) / gradient_accumulation_steps a
              - Z.min (Z.of_nat s + steps_trained_in_current_epoch st)
                  (Z.of_nat (s + n))
                / gradient_accumulation_steps a).
Proof.
  intros Hg He. induction n as [|n IH]; intros s st Hk.
  - exists st. simpl. rewrite Nat.add_0_r, Z.min_r by lia.
    repeat split; lia.
  - destruct (Z.ltb_spec 0 (steps_trained_in_current_epoch st)) as [Hpos|Hz].
    + destruct (IH (S s)
                  (set_steps_trained_in_current_epoch
                     (steps_trained_in_current_epoch st - 1) st))
        as (st2 & E2 & Hs2 & Hg2); [simpl; lia|].
      exists st2. cbn [seq map for_each].
      rewrite (train_batch_skipped a current_epoch _ st Hpos).
      cbn [fbind].
      split; [exact E2|].
      cbn [steps_trained_in_current_epoch global_step set_steps_trained_in_current_epoch] in Hs2, Hg2.
      split; [lia|].
      rewrite Hg2.
      replace (S s + n)%nat with (s + S n)%nat by lia.
      replace (Z.of_nat (S s) + (steps_trained_in_current_epoch st - 1))
        with (Z.of_nat s + steps_trained_in_current_epoch st) by lia.
      reflexivity.
    + destruct (train_batch_without_evaluation a current_epoch (Z.of_nat s)
                  st ltac:(lia) He Hz) as (st1 & E1 & Hs1 & Hg1).
      destruct (IH (S s) st1 ltac:(lia)) as (st2 & E2 & Hs2 & Hg2).
      exists st2. cbn [seq map for_each]. rewrite E1. cbn [fbind].
      split; [exact E2|].
      split; [lia|].
      rewrite Hg2, Hg1, Hs1.
      replace (S s + n)%nat with (s + S n)%nat by lia.
      rewrite !Z.min_l by lia.
      replace (Z.of_nat s + steps_trained_in_current_epoch st)
        with (Z.of_nat s) by lia.
      replace (Z.of_nat (S s) + steps_trained_in_current_epoch st)
        with (Z.of_nat s + 1) by lia.
      rewrite (div_succ_step (Z.of_nat s) _ Hg). lia.
Qed.
(** C4 (as amended). With more than one accumulation step, a batch on
    which the training step runs increments the global step exactly when
    [(step + 1)] is a multiple of [gradient_accumulation_steps], and no
    other batch does; a batch that is skipped because the run resumes
    inside the epoch only counts down the batches to skip and never
    increments the global step. Over the first [n] batches of an epoch
    this makes [n // gradient_accumulation_steps] increments when no
    batch is skipped, and [n // gradient_accumulation_steps
    - k // gradient_accumulation_steps] when the first [k] are.
    (Evaluation is switched off in the statements about [n] batches so
    that the epoch runs to its end.) *)
Theorem global_step_once_per_accumulation a current_epoch st :
  1 < gradient_accumulation_steps a ->
  (steps_trained_in_current_epoch st <= 0 ->
   forall step st',
     flow_state (train_batch batch_loss eval_model a current_epoch step st)
     = Some st' ->
     global_step st'
     = global_step st
       + (if (step + 1) mod gradient_accumulation_steps a =? 0
          then 1 else 0))
  /\ (0 < steps_trained_in_current_epoch st ->
      forall step,
        train_batch batch_loss eval_model a current_epoch step st
        = Next (set_steps_trained_in_current_epoch
                  (steps_trained_in_current_epoch st - 1) st))
  /\ (steps_trained_in_current_epoch st <= 0 ->
      evaluate_during_training a = false ->
      forall n, 0 <= n ->
      exists st',
        for_each (train_batch batch_loss eval_model a current_epoch)
          (py_range n) st = Next st'
        /\ global_step st'
           = global_step st + n / gradient_accumulation_steps a)
  /\ (evaluate_during_training a = false ->
      forall n, 0 <= steps_trained_in_current_epoch st <= n ->
      exists st',
        for_each (train_batch batch_loss eval_model a current_epoch)
          (py_range n) st = Next st'
        /\ steps_trained_in_current_epoch st' = 0
        /\ global_step st'
           = global_step st
             + (n / gradient_accumulation_steps a
                - steps_trained_in_current_epoch st
                  / gradient_accumulation_steps a)).
Proof.
  intros Hg. repeat apply conj.
  - intros Hskip step st' H.
    pose proof (train_batch_global_step a current_epoch step st
                  ltac:(lia) Hskip) as Hs.
    destruct (train_batch _ _ _ _ _ _); simpl in *;
      [injection H as <- | injection H as <- | discriminate]; exact Hs.
  - intros Hskip step. apply train_batch_skipped. exact Hskip.
  - intros Hskip He n Hn.
    destruct (for_each_batches_count a current_epoch ltac:(lia) He
                (Z.to_nat n) 0%nat st Hskip) as (st' & E & _ & Hc).
    exists st'. split; [exact E|].
    rewrite Hc. simpl. rewrite Z2Nat.id by lia.
    rewrite Z.div_0_l by lia. lia.
  - intros He n Hn.
    destruct (for_each_batches_resumed a current_epoch ltac:(lia) He
                (Z.to_nat n) 0%nat st ltac:(lia)) as (st' & E & Hs & Hc).
    exists st'. split; [exact E|]. split; [lia|].
    rewrite Hc. simpl Nat.add. rewrite Z2Nat.id by lia.
    change (Z.of_nat 0) with 0. rewrite Z.add_0_l, Z.min_l by lia.
    reflexivity.
Qed.

End Accumulation.

Lemma global_step_once_per_accumulation_witness :
  1 < gradient_accumulation_steps (example_accumulating_args 2)
  /\ (exists st',
        for_each
          (train_batch (fun _ _ => 1%Q) (fun _ => [])
             (example_accumulating_args 2) 0)
          (py_range 5) (example_state 0 None 0) = Next st'
        /\ global_step st' = 2)
  /\ (exists st',
        for_each
          (train_batch (fun _ _ => 1%Q) (fun _ => [])
             (example_accumulating_args 2) 0)
          (py_range 6)
          (set_steps_trained_in_current_epoch 2 (example_state 0 None 0))
        = Next st'
        /\ global_step st' = 2).
Proof.
  split; [reflexivity|]. split.
  - destruct (global_step_once_per_accumulation (fun _ _ => 1%Q)
                (fun _ => []) (example_accumulating_args 2) 0
                (example_state 0 None 0) eq_refl)
      as (_ & _ & H & _).
    destruct (H ltac:(simpl; lia) eq_refl 5 ltac:(lia)) as (st' & E & Hc).
    exists st'. split; [exact E|]. rewrite Hc. reflexivity.
  - destruct (global_step_once_per_accumulation (fun _ _ => 1%Q)
                (fun _ => []) (example_accumulating_args 2) 0
                (set_steps_trained_in_current_epoch 2
                   (example_state 0 None 0)) eq_refl)
      as (_ & _ & _ & H).
    destruct (H eq_refl 6 ltac:(simpl; lia)) as (st' & E & _ & Hc).
    exists st'. split; [exact E|]. rewrite Hc. reflexivity.
Defined.

(** C4, counterexample. A run that resumes two batches into an epoch of
    six, with two accumulation steps: batch 1 has [(1 + 1)] divisible by
    2, yet it is skipped and the global step stays where it was; the
    epoch makes two increments, not the three that one increment per two
    consecutive batches would give. *)
Lemma skipped_batch_makes_no_step :
  1 < gradient_accumulation_steps (example_accumulating_args 2)
  /\ (1 + 1) mod gradient_accumulation_steps (example_accumulating_args 2)
     = 0
  /\ (exists st',
        for_each
          (train_batch (fun _ _ => 1%Q) (fun _ => [])
             (example_accumulating_args 2) 0)
          (py_range 2)
          (set_steps_trained_in_current_epoch 2 (example_state 0 None 0))
        = Next st'
        /\ global_step st' = global_step (example_state 0 None 0))
  /\ (exists st',
        for_each
          (train_batch (fun _ _ => 1%Q) (fun _ => [])
             (example_accumulating_args 2) 0)
          (py_range 6)
          (set_steps_trained_in_current_epoch 2 (example_state 0 None 0))
        = Next st'
        /\ global_step st' = global_step (example_state 0 None 0) + 2
        /\ 6 / gradient_accumulation_steps (example_accumulating_args 2)
           = 3).
Proof.
  split; [reflexivity|]. split; [reflexivity|]. split.
  - eexists. split; [vm_compute; reflexivity|]. reflexivity.
  - eexists. split; [vm_compute; reflexivity|]. split; reflexivity.
Qed.

(** ** Early stopping along a run *)

Lemma es_view_record_progress results st st' :
  record_progress results st = Ok st' -> es_view st' = es_view st.
Proof.
  intros H. apply record_progress_frame in H. destruct H as (d & f & ->).
  reflexivity.
Qed.

Section PatienceRun.

Variable batch_loss : Z -> Z -> Q.
Variable eval_model : nat -> list (string * Q).
Variable n_batches : Z.
Variable path_exists : string -> bool.
Variable kwargs : list string.
Variable a : TrainArgs.

(** The metric watched by early stopping, evaluation by evaluation. *)
Variable m : nat -> Q.
(** Index of the last improving evaluation. *)
Variable k : nat.

Hypothesis Hmetric :
  forall n, dict_get (eval_model n) (early_stopping_metric a) = Ok (m n).
Hypothesis Hminimize : early_stopping_metric_minimize a = true.
Hypothesis Hstopping : use_early_stopping a = true.
Hypothesis Hepochs : early_stopping_consider_epochs a = true.
Hypothesis Hdelta : (early_stopping_delta a == 0)%Q.
Hypothesis Hpatience : 1 <= early_stopping_patience a.
Hypothesis Hk : (1 <= k)%nat.
Hypothesis Hdecreasing : forall i, (i < k)%nat -> (m (S i) < m i)%Q.
Hypothesis Hflat : forall i, (k <= i)%nat -> (m i == m k)%Q.
Hypothesis Hnonzero : forall i, (i <= k)%nat -> ~ (m i == 0)%Q.

Lemma early_stopping_check_patience st n :
  es_view st = (fst (fst (expected_view m k n)),
                snd (fst (expected_view m k n)), S n) ->
  early_stopping_counter st <= early_stopping_patience a ->
  flow_sat (patience_inv a m k) (patience_post a k)
    (early_stopping_check true a (m n) st).
Proof.
  unfold es_view, expected_view. simpl fst. simpl snd.
  intros Hv Hc. injection Hv as Hb Hcnt Hn.
  destruct (Qltb_self_zero_delta (m n) _ Hdelta) as [Hself _].
  destruct n as [|i].
  - (* the first evaluation *)
    unfold early_stopping_check.
    rewrite init_best_falsy by (rewrite Hb; reflexivity).
    unfold compare_with_best. rewrite take_as_best_best.
    assert (Ht : truthy (Some (m 0%nat)) = true)
      by (apply truthy_Some, Hnonzero; lia).
    rewrite Ht, Hminimize, Hself. simpl andb. cbv iota.
    unfold no_improvement. rewrite take_as_best_counter.
    assert (Hcnt0 : early_stopping_counter st = 0)
      by (rewrite Hcnt; simpl; lia).
    rewrite Hcnt0.
    destruct (Z.ltb_spec 0 (early_stopping_patience a)); [|lia].
    simpl. unfold patience_inv, es_view, expected_view. simpl.
    rewrite take_as_best_best. unfold take_as_best.
    destruct (save_best_model a); simpl; rewrite Hn; simpl;
      (split; [reflexivity | lia]).
  - (* a later evaluation *)
    assert (Ht : truthy (Some (m (Nat.min i k))) = true)
      by (apply truthy_Some, Hnonzero; lia).
    unfold early_stopping_check.
    rewrite init_best_truthy by (rewrite Hb; exact Ht).
    unfold compare_with_best. rewrite Hb, Ht, Hminimize. simpl andb.
    cbv iota.
    destruct (Nat.lt_ge_cases i k) as [Hik|Hik].
    + (* still decreasing *)
      rewrite Nat.min_l by lia.
      assert (Hlt : Qltb (m (S i) - m i) (early_stopping_delta a) = true).
      { apply Qltb_lt. rewrite Hdelta. apply Qminus_lt_0.
        apply Hdecreasing. exact Hik. }
      rewrite Hlt. simpl.
      unfold patience_inv, es_view, expected_view. simpl.
      rewrite take_as_best_best. unfold take_as_best.
      destruct (save_best_model a); cbn [evals_done early_stopping_counter set_early_stopping_counter set_best_eval_metric save_model set_saved]; rewrite Hn.
      all: rewrite (Nat.min_l (S i) k) by lia;
        change (S (S i) =? 1)%nat with false; cbv iota;
        (split; [f_equal; f_equal; lia | lia]).
    + (* flat *)
      rewrite Nat.min_r by lia.
      assert (Hnlt : Qltb (m (S i) - m k) (early_stopping_delta a) = false).
      { apply Qltb_nlt. rewrite Hdelta, (Hflat (S i)) by lia.
        unfold Qminus. rewrite Qplus_opp_r. apply Qlt_irrefl. }
      rewrite Hnlt. unfold no_improvement.
      assert (Hcnt' : early_stopping_counter st
                      = Z.of_nat (S i) - 1 - Z.of_nat k).
      { rewrite Hcnt. destruct (Nat.eqb_spec (S i) 1); lia. }
      destruct (Z.ltb_spec (early_stopping_counter st)
                  (early_stopping_patience a)) as [Hlt|Hge].
      * simpl. unfold patience_inv, es_view, expected_view.
        cbn [evals_done early_stopping_counter best_eval_metric
             set_early_stopping_counter].
        rewrite Hb, Hn. rewrite (Nat.min_r (S i) k), (Nat.min_r i k) by lia.
        change (S (S i) =? 1)%nat with false; cbv iota.
        split; [|lia]. f_equal. f_equal. lia.
      * apply return_mean_loss_sat. intros Hgs.
        unfold patience_post. rewrite Hn.
        repeat split; [lia|exact Hgs].
Qed.


Lemma evaluation_patience dir st :
  patience_inv a m k st ->
  flow_sat (patience_inv a m k) (patience_post a k)
    (evaluation eval_model true dir a st).
Proof.
  intros [Hv Hc]. unfold evaluation.
  match goal with |- context [record_progress _ ?s] => set (st1 := s) end.
  assert (H1 : es_view st1
               = (best_eval_metric st, early_stopping_counter st,
                  S (evals_done st)))
    by (subst st1; destruct (save_eval_checkpoints a); reflexivity).
  destruct (record_progress _ st1) as [st2|] eqn:E; [|exact I].
  apply es_view_record_progress in E. rewrite H1 in E.
  rewrite Hmetric.
  apply early_stopping_check_patience.
  - rewrite E. rewrite <- Hv. reflexivity.
  - injection E as _ -> _. exact Hc.
Qed.

Lemma optimizer_update_patience st :
  patience_inv a m k st ->
  flow_sat (patience_inv a m k) (patience_post a k)
    (optimizer_update eval_model a st).
Proof.
  intros HI. unfold optimizer_update.
  match goal with |- context [log_metrics a ?s] =>
    destruct (log_metrics_frame a s) as [l ->] end.
  match goal with |- context [save_checkpoint a ?s] =>
    destruct (save_checkpoint_frame a s) as [l' ->] end.
  rewrite Hstopping.
  destruct (_ && _); [apply evaluation_patience|]; exact HI.
Qed.

Lemma train_batch_patience current_epoch step st :
  patience_inv a m k st ->
  flow_sat (patience_inv a m k) (patience_post a k)
    (train_batch batch_loss eval_model a current_epoch step st).
Proof.
  intros HI. unfold train_batch.
  destruct (0 <? steps_trained_in_current_epoch st); [exact HI|].
  destruct (py_mod _ _) as [r|]; [|exact I].
  destruct (r =? 0); [apply optimizer_update_patience|]; exact HI.
Qed.

Lemma train_epoch_patience current_epoch st :
  patience_inv a m k st ->
  flow_sat (patience_inv a m k) (patience_post a k)
    (train_epoch batch_loss eval_model n_batches a current_epoch st).
Proof.
  intros HI. unfold train_epoch.
  destruct (0 <? epochs_trained st); [exact HI|].
  apply fbind_sat with (I := patience_inv a m k).
  - apply for_each_sat; [|exact HI].
    intros step st' _. apply train_batch_patience.
  - intros st' HI'. rewrite Hstopping, Hepochs. simpl andb.
    destruct (evaluate_during_training a).
    + apply evaluation_patience.
      destruct (save_model_every_epoch a); exact HI'.
    + destruct (save_model_every_epoch a); exact HI'.
Qed.

Lemma train_loop_patience st :
  patience_inv a m k st ->
  flow_sat (patience_inv a m k) (patience_post a k)
    (train_loop batch_loss eval_model n_batches a st).
Proof.
  intros HI. unfold train_loop. apply for_each_sat; [|exact HI].
  intros current_epoch st' _. apply train_epoch_patience.
Qed.

Lemma resume_es_view st st' :
  resume n_batches path_exists a st = Ok st' -> es_view st' = es_view st.
Proof.
  unfold resume. destruct (_ && _); [|intros [= <-]; reflexivity].
  destruct (py_int _) as [n|[]]; try discriminate;
    [|intros [= <-]; reflexivity].
  unfold rbind.
  destruct (py_floordiv n_batches _) as [q|]; [|discriminate].
  destruct (py_floordiv n q) as [e|]; [|discriminate].
  destruct (py_mod n q) as [s|]; [|discriminate].
  intros [= <-]. reflexivity.
Qed.

Lemma resume_patience st :
  resume n_batches path_exists a (initial_state kwargs a) = Ok st ->
  patience_inv a m k st.
Proof.
  intros H. apply resume_es_view in H.
  unfold patience_inv. injection H as Hb Hc He.
  unfold es_view, expected_view. rewrite Hb, Hc, He.
  cbn [initial_state best_eval_metric early_stopping_counter evals_done
       Nat.eqb].
  split; [f_equal; f_equal; lia | lia].
Qed.

End PatienceRun.

Section EarlyExit.

Variable batch_loss : Z -> Z -> Q.
Variable eval_model : nat -> list (string * Q).
Variable n_batches : Z.
Variable a : TrainArgs.

Lemma early_stopping_check_exit gate metric st :
  (gate = true -> use_early_stopping a = true) ->
  flow_sat (fun _ => True) (early_exit_post a)
    (early_stopping_check gate a metric st).
Proof.
  intros Hgate. unfold early_stopping_check, compare_with_best.
  destruct (best_eval_metric (init_best a metric st)); [|exact I].
  assert (Hn : flow_sat (fun _ => True) (early_exit_post a)
                 (no_improvement gate a (init_best a metric st))).
  { unfold no_improvement. destruct gate; [|exact I].
    destruct (Z.ltb_spec (early_stopping_counter (init_best a metric st))
                (early_stopping_patience a)); [exact I|].
    apply return_mean_loss_sat. intros Hgs.
    unfold early_exit_post. auto. }
  destruct (_ && _); destruct (Qltb _ _); try exact Hn; exact I.
Qed.

Lemma evaluation_exit gate dir st :
  (gate = true -> use_early_stopping a = true) ->
  flow_sat (fun _ => True) (early_exit_post a)
    (evaluation eval_model gate dir a st).
Proof.
  intros Hgate. unfold evaluation.
  destruct (record_progress _ _); [|exact I].
  destruct (dict_get _ _); [|exact I].
  apply early_stopping_check_exit, Hgate.
Qed.

Lemma train_batch_exit current_epoch step st :
  flow_sat (fun _ => True) (early_exit_post a)
    (train_batch batch_loss eval_model a current_epoch step st).
Proof.
  unfold train_batch.
  destruct (0 <? steps_trained_in_current_epoch st); [exact I|].
  destruct (py_mod _ _) as [r|]; [|exact I].
  destruct (r =? 0); [|exact I].
  unfold optimizer_update.
  destruct (_ && _); [|exact I].
  apply evaluation_exit. auto.
Qed.

Lemma train_epoch_exit current_epoch st :
  flow_sat (fun _ => True) (early_exit_post a)
    (train_epoch batch_loss eval_model n_batches a current_epoch st).
Proof.
  unfold train_epoch.
  destruct (0 <? epochs_trained st); [exact I|].
  apply fbind_sat with (I := fun _ => True).
  - apply for_each_sat; [|exact I].
    intros step st' _ _. apply train_batch_exit.
  - intros st' _. destruct (evaluate_during_training a); [|exact I].
    apply evaluation_exit. intros H. apply andb_true_iff in H. tauto.
Qed.

Lemma train_loop_exit st :
  flow_sat (fun _ => True) (early_exit_post a)
    (train_loop batch_loss eval_model n_batches a st).
Proof.
  unfold train_loop. apply for_each_sat; [|exact I].
  intros current_epoch st' _ _. apply train_epoch_exit.
Qed.

End EarlyExit.

(** C1 (as amended). The only [return] inside the loop is the
    early-stopping one: it needs early stopping enabled and a counter that
    has reached the patience, and it returns the global step and the
    accumulated loss divided by it. In minimize mode with a zero delta,
    early stopping enabled for step and epoch evaluations and patience
    [P >= 1], if the metric is never zero, strictly decreases up to
    evaluation [k >= 1] and is flat afterwards, then the loop can only
    return at evaluation [k + P + 1], the [(P + 1)]-th after the last
    improving one, and it never runs past that evaluation: when the
    epochs are exhausted at most [k + P + 1] evaluations were made. *)
Theorem early_stopping_after_patience
  batch_loss eval_model n_batches path_exists kwargs a :
  (forall st,
     flow_sat (fun _ => True) (early_exit_post a)
       (train_loop batch_loss eval_model n_batches a st))
  /\ (forall (m : nat -> Q) (k : nat) st,
        (forall n,
           dict_get (eval_model n) (early_stopping_metric a) = Ok (m n)) ->
        early_stopping_metric_minimize a = true ->
        use_early_stopping a = true ->
        early_stopping_consider_epochs a = true ->
        (early_stopping_delta a == 0)%Q ->
        1 <= early_stopping_patience a ->
        (1 <= k)%nat ->
        (forall i, (i < k)%nat -> (m (S i) < m i)%Q) ->
        (forall i, (k <= i)%nat -> (m i == m k)%Q) ->
        (forall i, (i <= k)%nat -> ~ (m i == 0)%Q) ->
        resume n_batches path_exists a (initial_state kwargs a) = Ok st ->
        flow_sat
          (fun st' =>
             Z.of_nat (evals_done st')
             <= Z.of_nat k + early_stopping_patience a + 1)
          (patience_post a k)
          (train_loop batch_loss eval_model n_batches a st)).
Proof.
  split; [intros st; apply train_loop_exit|].
  intros m k st Hm Hmin Hstop Hep Hd HP Hk Hdec Hflat Hnz Hres.
  eapply flow_sat_weaken;
    [| |eapply (train_loop_patience batch_loss eval_model n_batches a m k);
        eauto using resume_patience].
  - intros st' [Hv Hc]. injection Hv as _ Hcnt.
    rewrite Hcnt in Hc. destruct (Nat.eqb_spec (evals_done st') 1); lia.
  - auto.
Qed.

Lemma early_stopping_after_patience_witness :
  flow_sat
    (fun st' =>
       Z.of_nat (evals_done st')
       <= Z.of_nat 2 + early_stopping_patience (example_args true 0 2 true) + 1)
    (patience_post (example_args true 0 2 true) 2)
    (train_loop (fun _ _ => 1%Q) example_eval_model 4
       (example_args true 0 2 true)
       (initial_state [] (example_args true 0 2 true))).
Proof.
  apply (proj2 (early_stopping_after_patience (fun _ _ => 1%Q)
                  example_eval_model 4 (fun _ => false) []
                  (example_args true 0 2 true))
           example_metrics 2%nat
           (initial_state [] (example_args true 0 2 true))).
  - intros n. reflexivity.
  - reflexivity.
  - reflexivity.
  - reflexivity.
  - reflexivity.
  - simpl. lia.
  - lia.
  - intros [|[|i]] Hi; [reflexivity | reflexivity | lia].
  - intros [|[|i]] Hi; [lia | lia | reflexivity].
  - intros [|[|[|i]]] Hi; try discriminate; lia.
  - reflexivity.
Defined.

(** C1, counterexample. Minimizing with delta 0 and patience 2 on the
    metrics 5, 4, 3, 3, 3, 3, ...: evaluation 2 (counted from 0) is the
    last improving one. Two evaluations later, at the end of the first
    epoch of four batches, the loop goes on with the counter at 2; it
    returns at the third evaluation after the last improving one, with
    global step 5. *)
Lemma patience_allows_one_more_evaluation :
  (exists st,
     train_epoch (fun _ _ => 1%Q) example_eval_model 4
       (example_args true 0 2 true) 0
       (initial_state [] (example_args true 0 2 true)) = Next st
     /\ evals_done st = 5%nat
     /\ best_eval_metric st = Some (example_metrics 2)
     /\ early_stopping_counter st = 2)
  /\ (exists st,
        train_loop (fun _ _ => 1%Q) example_eval_model 4
          (example_args true 0 2 true)
          (initial_state [] (example_args true 0 2 true))
        = Return st (5, 5 # 5)
        /\ evals_done st = 6%nat).
Proof.
  split.
  - eexists. split; [vm_compute; reflexivity|]. vm_compute. repeat split.
  - eexists. split; [vm_compute; reflexivity|]. vm_compute. reflexivity.
Qed.

(** ** The division at [return] *)

(** C10, at the failing input. Without epochs to run, and without a
    checkpoint to resume from, the loop body never runs, the global step
    is still 0 at the final [return], and the division raises. *)
Theorem mean_loss_divides_by_zero_step
  batch_loss eval_model n_batches path_exists kwargs a :
  num_train_epochs a <= 0 ->
  path_exists (model_name a) = false ->
  train_result batch_loss eval_model n_batches path_exists kwargs a
  = Raise ZeroDivisionError.
Proof.
  intros Hn Hp. unfold train_result, train_run, resume.
  rewrite Hp, andb_false_r. unfold train_loop, py_range.
  replace (Z.to_nat (num_train_epochs a)) with 0%nat by lia.
  reflexivity.
Qed.

Lemma mean_loss_divides_by_zero_step_witness :
  num_train_epochs (with_num_train_epochs 0 (example_args true 0 2 true)) <= 0
  /\ train_result (fun _ _ => 1%Q) example_eval_model 4 (fun _ => false) []
       (with_num_train_epochs 0 (example_args true 0 2 true))
     = Raise ZeroDivisionError.
Proof.
  split; [simpl; lia|].
  apply (mean_loss_divides_by_zero_step (fun _ _ => 1%Q) example_eval_model 4
           (fun _ => false) []
           (with_num_train_epochs 0 (example_args true 0 2 true)));
    [simpl; lia | reflexivity].
Defined.

(** C10, second failing input: with 8 accumulation steps and 4 batches an
    epoch no optimizer step is ever made, and the final [return] divides
    by a global step of 0. *)
Lemma no_optimizer_step_divides_by_zero :
  train_result (fun _ _ => 1%Q) (fun _ => []) 4 (fun _ => false) []
    (example_accumulating_args 8)
  = Raise ZeroDivisionError.
Proof. vm_compute. reflexivity. Qed.

(** ** Checkpoint names *)

Lemma split_nonempty sep s : split sep s <> [].
Proof.
  destruct s as [|c s]; simpl; [discriminate|].
  destruct (Ascii.eqb c sep); [discriminate|].
  destruct (split sep s); discriminate.
Qed.

Lemma append_empty_l (t : string) : "" +:+ t = t.
Proof. reflexivity. Qed.

Lemma append_String c (s t : string) : String c s +:+ t = String c (s +:+ t).
Proof. reflexivity. Qed.

Lemma split_app sep a b :
  split sep (a +:+ String sep b) = split sep a ++ split sep b.
Proof.
  induction a as [|c a IH];
    [rewrite append_empty_l | rewrite append_String]; simpl.
  - rewrite Ascii.eqb_refl. reflexivity.
  - destruct (Ascii.eqb c sep).
    + simpl. f_equal. exact IH.
    + rewrite IH. pose proof (split_nonempty sep a) as Hne.
      destruct (split sep a) as [|w ws]; [contradiction|]. reflexivity.
Qed.

Lemma split_without_separator sep s :
  contains sep s = false -> split sep s = [s].
Proof.
  induction s as [|c s IH]; simpl; [reflexivity|].
  intros H. apply orb_false_iff in H. destruct H as [Hc Hs].
  rewrite Hc, (IH Hs). reflexivity.
Qed.

Lemma last_part_app (l1 l2 : list string) :
  l2 <> [] -> last_part (l1 ++ l2) = last_part l2.
Proof.
  intros Hne. unfold last_part. induction l1 as [|x l1 IH]; [reflexivity|].
  simpl. destruct (l1 ++ l2) eqn:E; [|exact IH].
  apply app_eq_nil in E. destruct E as [_ E]. contradiction.
Qed.

Lemma string_app_empty_r (s : string) : s +:+ "" = s.
Proof.
  induction s as [|c s IH]; [reflexivity|].
  rewrite append_String, IH. reflexivity.
Qed.

(** *** Decimal numerals *)

Lemma numeral_has_no_dash d :
  contains "-"%char (NilEmpty.string_of_uint d) = false.
Proof. induction d; simpl; auto. Qed.

Lemma lstrip_numeral d :
  lstrip (NilEmpty.string_of_uint d) = NilEmpty.string_of_uint d.
Proof. destruct d; reflexivity. Qed.

Lemma rstrip_numeral d :
  rstrip (NilEmpty.string_of_uint d) = NilEmpty.string_of_uint d.
Proof.
  induction d; simpl; [reflexivity|..]; rewrite IHd;
    destruct (NilEmpty.string_of_uint d); reflexivity.
Qed.

Lemma digits_value_numeral d acc :
  digits_value AfterDigit acc (NilEmpty.string_of_uint d)
  = Some (uint_acc d acc).
Proof.
  revert acc. induction d; intros acc; simpl; [reflexivity|..];
    exact (IHd _).
Qed.

Lemma uint_acc_pos d p :
  uint_acc d (Z.pos p) = Z.pos (Pos.of_uint_acc d p).
Proof.
  revert p. induction d; intros p; simpl; [reflexivity|..];
    rewrite <- IHd; f_equal; lia.
Qed.

Lemma uint_acc_zero d : uint_acc d 0 = Z.of_N (Pos.of_uint d).
Proof.
  induction d; simpl; [reflexivity | exact IHd |..];
    rewrite <- uint_acc_pos; reflexivity.
Qed.

Lemma py_int_decimal n : py_int (decimal n) = Ok (Z.of_N n).
Proof.
  unfold py_int, decimal, strip.
  rewrite lstrip_numeral, rstrip_numeral.
  rewrite <- (DecimalN.Unsigned.of_to n) at 2.
  unfold N.of_uint. rewrite <- uint_acc_zero.
  assert (Hnil : N.to_uint n <> Decimal.Nil).
  { destruct n as [|p]; [discriminate|].
    apply DecimalPos.Unsigned.to_uint_nonnil. }
  destruct (N.to_uint n) as [|d|d|d|d|d|d|d|d|d|d]; [contradiction|..];
    simpl; rewrite digits_value_numeral, Z.mul_1_l; reflexivity.
Qed.


(** *** Strings of digits *)






(** *** Characters that [int] refuses *)






(** *** The field that holds the step *)

Lemma last_component name final :
  contains "/"%char final = false ->
  name = final \/ (exists dir, name = dir +:+ "/" +:+ final) ->
  last_part (split "/"%char name) = final.
Proof.
  intros Hslash [-> | [dir ->]].
  - rewrite (split_without_separator _ _ Hslash). reflexivity.
  - change (dir +:+ "/" +:+ final) with (dir +:+ String "/"%char final).
    rewrite split_app, last_part_app by apply split_nonempty.
    rewrite (split_without_separator _ _ Hslash). reflexivity.
Qed.

Lemma checkpoint_suffix_of_field name stem field rest :
  contains "/"%char (stem +:+ "-" +:+ field +:+ rest) = false ->
  name = stem +:+ "-" +:+ field +:+ rest
  \/ (exists dir, name = dir +:+ "/" +:+ stem +:+ "-" +:+ field +:+ rest) ->
  contains "-"%char stem = false ->
  contains "-"%char field = false ->
  rest = "" \/ (exists more, rest = String "-"%char more) ->
  checkpoint_suffix name = field.
Proof.
  intros Hslash Hname Hdash Hfield Hrest. unfold checkpoint_suffix.
  rewrite (last_component name _ Hslash Hname).
  change (stem +:+ "-" +:+ field +:+ rest)
    with (stem +:+ String "-"%char (field +:+ rest)).
  rewrite split_app, (split_without_separator _ _ Hdash).
  destruct Hrest as [-> | [more ->]].
  - rewrite string_app_empty_r.
    rewrite (split_without_separator "-"%char field Hfield).
    reflexivity.
  - rewrite split_app.
    rewrite (split_without_separator "-"%char field Hfield).
    pose proof (split_nonempty "-"%char more) as Hne.
    destruct (split "-"%char more); [contradiction|]. reflexivity.
Qed.

Lemma checkpoint_suffix_of_name dir stem n rest :
  contains "/"%char (stem +:+ "-" +:+ decimal n +:+ rest) = false ->
  contains "-"%char stem = false ->
  rest = "" \/ (exists more, rest = String "-"%char more) ->
  checkpoint_suffix (dir +:+ "/" +:+ stem +:+ "-" +:+ decimal n +:+ rest)
  = decimal n.
Proof.
  intros Hslash Hdash Hrest.
  apply (checkpoint_suffix_of_field _ stem (decimal n) rest Hslash);
    [right; exists dir; reflexivity | exact Hdash | | exact Hrest].
  apply numeral_has_no_dash.
Qed.





(** ** Batches of [predict] *)

Lemma lookup_map {A B} (f : A -> B) (l : list A) (i : nat) :
  map f l !! i = f <$> (l !! i).
Proof.
  revert i. induction l as [|x l IH]; intros [|i]; simpl; auto.
Qed.

Lemma concat_chunks {A} (b : nat) (xs : list A) :
  forall nb j,
    concat (map (fun k => take b (drop (k * b) xs)) (seq j nb))
    = take (nb * b) (drop (j * b) xs).
Proof.
  induction nb as [|nb IH]; intros j; [reflexivity|].
  simpl seq. simpl map. simpl concat. rewrite IH.
  replace (S j * b)%nat with (j * b + b)%nat by lia.
  rewrite <- drop_drop, take_take_drop. reflexivity.
Qed.

Lemma lookup_concat_uniform {A} (b : nat) :
  forall (ls : list (list A)) (q r : nat) (l : list A),
    (forall k lk, (k < q)%nat -> ls !! k = Some lk -> length lk = b) ->
    ls !! q = Some l ->
    (r < length l)%nat ->
    concat ls !! (q * b + r)%nat = l !! r.
Proof.
  induction ls as [|x ls IH]; intros q r l Hlen Hq Hr; [discriminate|].
  destruct q as [|q]; simpl in *.
  - injection Hq as ->. apply lookup_app_l. exact Hr.
  - assert (Hx : length x = b) by (apply (Hlen 0%nat); [lia|reflexivity]).
    rewrite lookup_app_r by lia.
    replace (b + q * b + r - length x)%nat with (q * b + r)%nat by lia.
    apply IH; [|exact Hq|exact Hr].
    intros k lk Hk Hlk. apply (Hlen (S k)); [lia|exact Hlk].
Qed.

Lemma length_concat_map {A B} (g : list A -> list B) (ls : list (list A)) :
  (forall l, length (g l) = length l) ->
  length (concat (map g ls)) = length (concat ls).
Proof.
  intros Hg. induction ls as [|l ls IH]; [reflexivity|].
  simpl. rewrite !length_app, Hg, IH. reflexivity.
Qed.

Lemma batch_count_covers (n : nat) (b : Z) :
  0 < b ->
  (n <= Z.to_nat ((Z.of_nat n + b - 1) / b) * Z.to_nat b)%nat.
Proof.
  intros Hb.
  pose proof (Z.div_mod (Z.of_nat n + b - 1) b ltac:(lia)) as H1.
  pose proof (Z.mod_pos_bound (Z.of_nat n + b - 1) b Hb) as H2.
  assert (0 <= (Z.of_nat n + b - 1) / b) by (apply Z.div_pos; lia).
  apply Nat2Z.inj_le. rewrite Nat2Z.inj_mul, !Z2Nat.id by lia. nia.
Qed.

Section PredictFacts.

Variable batch_encode_plus : list string -> Z -> list (list Z).
Variable generate : list (list Z) -> GenerateArgs -> list (list Z).
Variable decode : list Z -> bool -> bool -> string.
Variable decoder_pad_token_id : Z.

(** The tokenizer returns one row of ids per text, and generation one
    sequence per row. *)
Hypothesis encode_rows :
  forall batch n, length (batch_encode_plus batch n) = length batch.
Hypothesis generate_rows :
  forall ids p, length (generate ids p) = length ids.

Lemma batches_are_chunks pa to_predict :
  0 < eval_batch_size pa ->
  batches pa to_predict
  = Ok (map (fun k => take (Z.to_nat (eval_batch_size pa))
                        (drop (k * Z.to_nat (eval_batch_size pa))
                           to_predict))
          (seq 0 (Z.to_nat ((Z.of_nat (length to_predict)
                             + eval_batch_size pa - 1)
                            / eval_batch_size pa)))).
Proof.
  intros Hb. unfold batches, py_range_step, rbind.
  destruct (Z.eqb_spec (eval_batch_size pa) 0); [lia|].
  destruct (Z.ltb_spec (eval_batch_size pa) 0); [lia|].
  f_equal. rewrite map_map. apply map_ext. intros k. unfold slice.
  f_equal; [f_equal; lia|]. f_equal.
  rewrite Z2Nat.inj_mul, Nat2Z.id by lia. reflexivity.
Qed.


Lemma generate_batch_rows pa batch :
  length (generate_batch batch_encode_plus generate decoder_pad_token_id
            pa batch)
  = length batch.
Proof. unfold generate_batch. rewrite generate_rows. apply encode_rows. Qed.

(** C5. With a positive [eval_batch_size], [predict] cuts the inputs
    into the consecutive slices of that size, in order, and returns one
    string per input: output [i] is the decoding, with
    [skip_special_tokens] and [clean_up_tokenization_spaces] set, of the
    row generated for input [i], that is the row at the position of input
    [i] in what [generate] returns for the encoding, at [max_seq_length],
    of the batch that holds input [i], called with the decoding
    parameters of [args] and, unless the model is [bart], with the pad
    token of the decoder as start token. *)
Theorem predict_preserves_order pa to_predict :
  0 < eval_batch_size pa ->
  exists bs outs,
    batches pa to_predict = Ok bs
    /\ concat bs = to_predict
    /\ (forall k batch,
          bs !! k = Some batch ->
          batch = take (Z.to_nat (eval_batch_size pa))
                    (drop (k * Z.to_nat (eval_batch_size pa)) to_predict))
    /\ predict batch_encode_plus generate decode decoder_pad_token_id
          pa to_predict = Ok outs
    /\ length outs = length to_predict
    /\ (forall i,
          (i < length to_predict)%nat ->
          batch_of pa to_predict i !! position_in_batch pa i
          = to_predict !! i
          /\ exists row,
               generate
                 (batch_encode_plus (batch_of pa to_predict i)
                    (max_seq_length pa))
                 {| decoder_start_token_id :=
                      if String.eqb (model_type pa) "bart" then None
                      else Some decoder_pad_token_id;
                    num_beams := num_beams (generation pa);
                    max_length := max_length (generation pa);
                    length_penalty := length_penalty (generation pa);
                    early_stopping := early_stopping (generation pa);
                    repetition_penalty := repetition_penalty (generation pa);
                    do_sample := do_sample (generation pa) |}
               !! position_in_batch pa i = Some row
               /\ outs !! i = Some (decode row true true)).
Proof.
  intros Hb.
  set (b := Z.to_nat (eval_batch_size pa)).
  set (nb := Z.to_nat ((Z.of_nat (length to_predict)
                        + eval_batch_size pa - 1) / eval_batch_size pa)).
  set (chunk := fun k : nat => take b (drop (k * b) to_predict)).
  set (g := generate_batch batch_encode_plus generate decoder_pad_token_id
              pa).
  assert (Hb' : (0 < b)%nat) by (subst b; lia).
  assert (Hcover : (length to_predict <= nb * b)%nat)
    by (apply batch_count_covers; exact Hb).
  assert (Hbs : batches pa to_predict = Ok (map chunk (seq 0 nb)))
    by (apply batches_are_chunks; exact Hb).
  assert (Hconcat : concat (map chunk (seq 0 nb)) = to_predict).
  { subst chunk. rewrite concat_chunks. simpl drop.
    apply take_ge. exact Hcover. }
  assert (Hchunk : forall k batch,
             map chunk (seq 0 nb) !! k = Some batch ->
             batch = chunk k /\ (k < nb)%nat).
  { intros k batch Hk. rewrite lookup_map in Hk.
    destruct (seq 0 nb !! k) as [k'|] eqn:E; [|discriminate].
    apply lookup_seq in E. destruct E as [-> E].
    injection Hk as <-. split; [reflexivity | exact E]. }
  exists (map chunk (seq 0 nb)),
    (map (fun output_id => decode output_id true true)
       (concat (map g (map chunk (seq 0 nb))))).
  split; [exact Hbs|]. split; [exact Hconcat|].
  split; [intros k batch Hk; apply Hchunk in Hk; tauto|].
  split; [unfold predict; rewrite Hbs; reflexivity|].
  split.
  { rewrite length_map, (length_concat_map g), Hconcat; [reflexivity|].
    apply generate_batch_rows. }
  intros i Hi. unfold batch_of, position_in_batch. fold b.
  set (q := (i / b)%nat). set (r := (i mod b)%nat).
  assert (Hqr : i = (q * b + r)%nat)
    by (subst q r; rewrite (Nat.div_mod_eq i b) at 1; lia).
  assert (Hr : (r < b)%nat) by (subst r; apply Nat.mod_upper_bound; lia).
  assert (Hq : (q < nb)%nat) by nia.
  fold (chunk q).
  assert (Hlen : (r < length (chunk q))%nat).
  { subst chunk. cbv beta. rewrite length_take, length_drop. lia. }
  split.
  { subst chunk. cbv beta. rewrite lookup_take_lt by exact Hr.
    rewrite lookup_drop. f_equal. lia. }
  assert (Hrow : is_Some (g (chunk q) !! r)).
  { apply lookup_lt_is_Some. subst g. rewrite generate_batch_rows.
    exact Hlen. }
  destruct Hrow as [row Hrow]. exists row. split; [exact Hrow|].
  rewrite lookup_map, Hqr.
  rewrite (lookup_concat_uniform b _ q r (g (chunk q))).
  - rewrite Hrow. reflexivity.
  - intros k lk Hk Hlk. rewrite lookup_map in Hlk.
    destruct (map chunk (seq 0 nb) !! k) as [batch|] eqn:E; [|discriminate].
    apply Hchunk in E. destruct E as [-> _]. injection Hlk as <-.
    subst g. rewrite generate_batch_rows. subst chunk. cbv beta.
    rewrite length_take, length_drop. nia.
  - rewrite !lookup_map, lookup_seq_lt by exact Hq. reflexivity.
  - subst g. rewrite generate_batch_rows. exact Hlen.
Qed.

End PredictFacts.

Lemma predict_preserves_order_witness :
  0 < eval_batch_size (example_predict_args 2)
  /\ exists outs,
       predict spell_encode reverse_generate spell_decode 0
         (example_predict_args 2) ["ab"; "cde"; "f"] = Ok outs
       /\ length outs = 3%nat
       /\ outs !! 0%nat = Some "ba"
       /\ outs !! 1%nat = Some "edc"
       /\ outs !! 2%nat = Some "f".
Proof.
  split; [reflexivity|].
  destruct (predict_preserves_order spell_encode reverse_generate
              spell_decode 0
              (fun batch n => length_map _ batch)
              (fun ids p => length_map _ ids)
              (example_predict_args 2) ["ab"; "cde"; "f"] eq_refl)
    as (bs & outs & _ & _ & _ & Hp & Hl & Hi).
  exists outs. split; [exact Hp|]. split; [exact Hl|].
  repeat apply conj.
  - destruct (Hi 0%nat ltac:(simpl; lia)) as (_ & row & Hrow & Hout).
    vm_compute in Hrow. injection Hrow as <-. exact Hout.
  - destruct (Hi 1%nat ltac:(simpl; lia)) as (_ & row & Hrow & Hout).
    vm_compute in Hrow. injection Hrow as <-. exact Hout.
  - destruct (Hi 2%nat ltac:(simpl; lia)) as (_ & row & Hrow & Hout).
    vm_compute in Hrow. injection Hrow as <-. exact Hout.
Defined.

(** ** The configuration built by [__init__] *)

Section InitFacts.

Variable global_args : gmap string value.
Variable cuda_available : bool.
Variable wandb_available : bool.

Lemma merge_args_layered p key :
  merge_args global_args p !! key
  = layered default_args global_args (args p) key.
Proof.
  unfold merge_args, layered, update.
  assert (Hbase : (global_args ∪ default_args) !! key
                  = match global_args !! key with
                    | Some v => Some v
                    | None => default_args !! key
                    end).
  { rewrite lookup_union. destruct (global_args !! key);
      destruct (default_args !! key); reflexivity. }
  destruct (args p) as [overrides|]; simpl; [|exact Hbase].
  destruct (decide (overrides = ∅)) as [->|_].
  - rewrite lookup_empty. exact Hbase.
  - rewrite lookup_union, Hbase.
    destruct (overrides !! key); [|destruct (global_args !! key)];
      try reflexivity.
    + destruct (global_args !! key); [reflexivity|].
      destruct (default_args !! key); reflexivity.
    + destruct (default_args !! key); reflexivity.
Qed.

(** C6 (as amended). When construction succeeds, the effective
    configuration agrees with the defaults overridden key by key by the
    global defaults and then by the caller's dict on every key except
    [model_name] and [model_type], which [__init__] always sets from its
    other arguments, [fp16] when CUDA is not used, and [wandb_project]
    when wandb is not installed. *)
Theorem init_args_layers p cfg key :
  init_args global_args cuda_available wandb_available p = Ok cfg ->
  key <> "model_name" ->
  key <> "model_type" ->
  (key = "fp16" -> use_cuda p = true) ->
  (key = "wandb_project" -> wandb_available = true) ->
  cfg !! key = layered default_args global_args (args p) key.
Proof.
  intros Hinit Hname Htype Hfp16 Hwandb.
  rewrite <- merge_args_layered.
  unfold init_args in Hinit.
  destruct (negb (config p) && negb _); [discriminate|].
  destruct (negb (config p) && negb _); [discriminate|].
  destruct (use_cuda p && negb cuda_available); [discriminate|].
  destruct (negb (bool_decide _)); [discriminate|].
  match type of Hinit with
  | context [?m !! "wandb_project"] => set (m1 := m) in Hinit
  end.
  assert (H1 : m1 !! key = merge_args global_args p !! key).
  { subst m1. destruct (use_cuda p) eqn:Hc; [reflexivity|].
    apply lookup_insert_ne. intros <-. specialize (Hfp16 eq_refl).
    discriminate. }
  destruct (m1 !! "wandb_project") as [project|]; [|discriminate].
  injection Hinit as <-.
  rewrite !lookup_insert_ne by congruence.
  destruct (value_truthy project && negb wandb_available) eqn:Hw;
    [|exact H1].
  rewrite lookup_insert_ne; [exact H1|].
  intros <-. rewrite (Hwandb eq_refl) in Hw.
  rewrite andb_false_r in Hw. discriminate.
Qed.

End InitFacts.

Lemma init_args_layers_witness :
  exists cfg,
    init_args example_global_args false false
      (example_init {["max_length" := VInt 50]}) = Ok cfg
    /\ cfg !! "max_length"
       = layered default_args example_global_args
           (Some {["max_length" := VInt 50]}) "max_length".
Proof.
  assert (Hok : is_Some (result_lookup
                           (init_args example_global_args false false
                              (example_init {["max_length" := VInt 50]}))
                           "max_length"))
    by (vm_compute; eauto).
  destruct (init_args example_global_args false false
              (example_init {["max_length" := VInt 50]}))
    as [cfg|e] eqn:E; [|destruct Hok; discriminate].
  exists cfg. split; [reflexivity|].
  apply (init_args_layers example_global_args false false
           (example_init {["max_length" := VInt 50]}) cfg "max_length" E);
    discriminate.
Defined.

(** C6, counterexample. A caller who passes [model_name] and [fp16] in
    [args] gets neither: [__init__] overwrites [model_name] with the name
    of the pretrained model and, without CUDA, [fp16] with [False]; and
    [model_type], which no override mentions, leaves its default. *)
Lemma init_overwrites_merged_entries :
  layered default_args example_global_args (Some example_overrides)
    "model_name" = Some (VStr "mine")
  /\ result_lookup
       (init_args example_global_args false false
          (example_init example_overrides)) "model_name"
     = Some (VStr "facebook/bart-large")
  /\ layered default_args example_global_args (Some example_overrides)
       "fp16" = Some (VBool true)
  /\ result_lookup
       (init_args example_global_args false false
          (example_init example_overrides)) "fp16"
     = Some (VBool false)
  /\ layered default_args example_global_args (Some example_overrides)
       "model_type" = Some VNone
  /\ result_lookup
       (init_args example_global_args false false
          (example_init example_overrides)) "model_type"
     = Some (VStr "bart").
Proof. repeat split; vm_compute; reflexivity. Qed.

(** ** What [train] writes into [args] *)

Lemma train_prologue_frame F n_batches (d : gmap string value) key :
  key <> "warmup_steps" ->
  (key = "num_train_epochs" ->
   forall max_steps,
     get_number d "max_steps" = Ok max_steps ->
     number_positive max_steps = false) ->
  fst (train_prologue F n_batches d) !! key = d !! key.
Proof.
  intros Hw He. unfold train_prologue.
  destruct (get_number d "max_steps") as [max_steps|] eqn:Hmax;
    [|reflexivity].
  match goal with
  | |- context [match ?x with (_, _) => _ end] => set (after := x)
  end.
  assert (Hafter : fst after !! key = d !! key).
  { subst after. destruct (number_positive max_steps) eqn:Hpos;
      [|reflexivity].
    destruct (rbind _ _); [|reflexivity].
    simpl. apply lookup_insert_ne. intros <-.
    specialize (He eq_refl max_steps eq_refl). congruence. }
  destruct after as [d1 [t_total|e]]; simpl in Hafter; [|exact Hafter].
  destruct (rbind _ _); [|exact Hafter].
  simpl. rewrite lookup_insert_ne by congruence. exact Hafter.
Qed.

Lemma train_prologue_keeps_warmup_steps F n_batches (d : gmap string value)
  old :
  d !! "warmup_steps" = Some old ->
  value_is_zero old = false ->
  fst (train_prologue F n_batches d) !! "warmup_steps" = Some old.
Proof.
  intros Hold Hnz. unfold train_prologue.
  destruct (get_number d "max_steps") as [max_steps|]; [|exact Hold].
  match goal with
  | |- context [match ?x with (_, _) => _ end] => set (after := x)
  end.
  assert (Hafter : fst after !! "warmup_steps" = Some old).
  { subst after. destruct (number_positive max_steps); [|exact Hold].
    destruct (rbind _ _); [|exact Hold].
    simpl. rewrite lookup_insert_ne by discriminate. exact Hold. }
  destruct after as [d1 [t_total|e]]; simpl in Hafter; [|exact Hafter].
  cbv [rbind get_item].
  destruct (d1 !! "weight_decay"); [|exact Hafter].
  destruct (d1 !! "warmup_ratio") as [ratio|]; [|exact Hafter].
  destruct (product_times F t_total ratio) as [x|]; [|exact Hafter].
  destruct (product_ceil x) as [w|]; [|exact Hafter].
  rewrite Hafter, Hnz. simpl. apply lookup_insert_eq.
Qed.

Lemma train_prologue_epochs F n_batches (d : gmap string value)
  max_steps gas per_epoch q :
  get_number d "max_steps" = Ok max_steps ->
  number_positive max_steps = true ->
  get_number d "gradient_accumulation_steps" = Ok gas ->
  number_floordiv F (NInt n_batches) gas = Ok per_epoch ->
  number_floordiv F max_steps per_epoch = Ok q ->
  fst (train_prologue F n_batches d) !! "num_train_epochs"
  = Some (number_value (number_succ F q)).
Proof.
  intros Hmax Hpos Hgas Hper Hq. unfold train_prologue.
  rewrite Hmax, Hpos, Hgas. cbn [rbind]. rewrite Hper. cbn [rbind].
  rewrite Hq. cbn [rbind].
  destruct (rbind _ _); cbn [fst].
  - rewrite lookup_insert_ne by discriminate. apply lookup_insert_eq.
  - apply lookup_insert_eq.
Qed.

Lemma train_prologue_warmup F n_batches (d d' : gmap string value) t_total :
  train_prologue F n_batches d = (d', Ok t_total) ->
  exists ratio x w old,
    d !! "warmup_ratio" = Some ratio
    /\ product_times F t_total ratio = Ok x
    /\ product_ceil x = Ok w
    /\ d !! "warmup_steps" = Some old
    /\ d' !! "warmup_steps"
       = Some (if value_is_zero old then VInt w else old).
Proof.
  unfold train_prologue.
  destruct (get_number d "max_steps") as [max_steps|]; [|discriminate].
  match goal with
  | |- context [match ?x with (_, _) => _ end] => set (after := x)
  end.
  assert (Hafter : fst after !! "warmup_ratio" = d !! "warmup_ratio"
                   /\ fst after !! "warmup_steps" = d !! "warmup_steps").
  { subst after. destruct (number_positive max_steps); [|split; reflexivity].
    destruct (rbind _ _); [|split; reflexivity].
    simpl. split; apply lookup_insert_ne; discriminate. }
  destruct after as [d1 [t|e]]; simpl in Hafter; [|discriminate].
  destruct Hafter as [Hratio Hsteps].
  cbv [rbind get_item]. rewrite Hratio, Hsteps.
  destruct (d1 !! "weight_decay"); [|discriminate].
  destruct (d !! "warmup_ratio") as [ratio|]; [|discriminate].
  destruct (product_times F t ratio) as [x|] eqn:Hx; [|discriminate].
  destruct (product_ceil x) as [w|] eqn:Hw; [|discriminate].
  destruct (d !! "warmup_steps") as [old|]; [|discriminate].
  intros [= <- <-].
  exists ratio, x, w, old. repeat split; try assumption.
  apply lookup_insert_eq.
Qed.

Section TrainFacts.

Variable F : FloatOps.
Variable n_batches : Z.
Variable train_from_optimizer : gmap string value -> result (Z * Q).

Lemma train_args_after d :
  fst (train F n_batches train_from_optimizer d) = d
  \/ fst (train F n_batches train_from_optimizer d)
     = fst (train_prologue F n_batches d).
Proof.
  unfold train. destruct (get_item d "tensorboard_dir"); [|left; reflexivity].
  destruct (n_batches <=? 0); [left; reflexivity|].
  destruct (get_item d "train_batch_size"); [|left; reflexivity].
  right. destruct (train_prologue F n_batches d) as [d' [t|e]]; reflexivity.
Qed.

Lemma train_reaches_prologue d :
  is_Some (d !! "tensorboard_dir") ->
  0 < n_batches ->
  is_Some (d !! "train_batch_size") ->
  fst (train F n_batches train_from_optimizer d)
  = fst (train_prologue F n_batches d).
Proof.
  intros [v1 H1] Hn [v2 H2]. unfold train, get_item. rewrite H1, H2.
  destruct (Z.leb_spec n_batches 0); [lia|].
  destruct (train_prologue F n_batches d) as [d' [t|e]]; reflexivity.
Qed.

(** C7 (as amended). A call of [train] leaves every entry of the
    configuration as it was, except [warmup_steps] and
    [num_train_epochs], which the prologue writes before the optimizer is
    built. [num_train_epochs] is left alone unless [max_steps] is a number
    above zero; then, once the data loader is there and the two floor
    divisions of line 297 have gone through, it holds
    [max_steps // (len(train_dataloader) // gradient_accumulation_steps)
    + 1]. [warmup_steps] keeps a value that is not zero; a zero is
    replaced, when the prologue gets to its end, by
    [math.ceil(t_total * warmup_ratio)]. *)
Theorem train_writes_two_entries d key :
  (key <> "warmup_steps" -> key <> "num_train_epochs" ->
   fst (train F n_batches train_from_optimizer d) !! key = d !! key)
  /\ ((forall max_steps,
         get_number d "max_steps" = Ok max_steps ->
         number_positive max_steps = false) ->
      fst (train F n_batches train_from_optimizer d) !! "num_train_epochs"
      = d !! "num_train_epochs")
  /\ (forall max_steps gas per_epoch q,
        is_Some (d !! "tensorboard_dir") ->
        0 < n_batches ->
        is_Some (d !! "train_batch_size") ->
        get_number d "max_steps" = Ok max_steps ->
        number_positive max_steps = true ->
        get_number d "gradient_accumulation_steps" = Ok gas ->
        number_floordiv F (NInt n_batches) gas = Ok per_epoch ->
        number_floordiv F max_steps per_epoch = Ok q ->
        fst (train F n_batches train_from_optimizer d) !! "num_train_epochs"
        = Some (number_value (number_succ F q)))
  /\ (forall old,
        d !! "warmup_steps" = Some old ->
        value_is_zero old = false ->
        fst (train F n_batches train_from_optimizer d) !! "warmup_steps"
        = Some old)
  /\ (forall old d' t_total,
        is_Some (d !! "tensorboard_dir") ->
        0 < n_batches ->
        is_Some (d !! "train_batch_size") ->
        train_prologue F n_batches d = (d', Ok t_total) ->
        d !! "warmup_steps" = Some old ->
        value_is_zero old = true ->
        exists ratio x w,
          d !! "warmup_ratio" = Some ratio
          /\ product_times F t_total ratio = Ok x
          /\ product_ceil x = Ok w
          /\ fst (train F n_batches train_from_optimizer d) !! "warmup_steps"
             = Some (VInt w)).
Proof.
  repeat apply conj.
  - intros Hw He. destruct (train_args_after d) as [-> | ->]; [reflexivity|].
    apply train_prologue_frame; [exact Hw|]. intros ->. contradiction.
  - intros Hmax. destruct (train_args_after d) as [-> | ->]; [reflexivity|].
    apply train_prologue_frame; [discriminate|]. intros _. exact Hmax.
  - intros max_steps gas per_epoch q H1 Hn H2 Hmax Hpos Hgas Hper Hq.
    rewrite (train_reaches_prologue d H1 Hn H2).
    exact (train_prologue_epochs F n_batches d max_steps gas per_epoch q
             Hmax Hpos Hgas Hper Hq).
  - intros old Hold Hnz.
    destruct (train_args_after d) as [-> | ->]; [exact Hold|].
    apply train_prologue_keeps_warmup_steps; assumption.
  - intros old d' t_total H1 Hn H2 Hpro Hold Hz.
    rewrite (train_reaches_prologue d H1 Hn H2), Hpro. simpl.
    destruct (train_prologue_warmup F n_batches d d' t_total Hpro)
      as (ratio & x & w & old' & Hr & Hx & Hw & Hold' & Hnew).
    rewrite Hold in Hold'. injection Hold' as <-. rewrite Hz in Hnew.
    exists ratio, x, w. repeat split; assumption.
Qed.

End TrainFacts.

Lemma train_writes_two_entries_witness :
  fst (train exact_floats 4 (example_train_from_optimizer 4)
         (example_train_dict (-1) 0)) !! "num_train_epochs"
  = Some (VInt 1)
  /\ fst (train exact_floats 4 (example_train_from_optimizer 4)
            (example_train_dict (-1) 0)) !! "logging_steps"
     = Some (VInt 50)
  /\ fst (train exact_floats 4 (example_train_from_optimizer 4)
            (example_train_dict (-1) 7)) !! "warmup_steps"
     = Some (VInt 7)
  /\ fst (train exact_floats 4 (example_train_from_optimizer 4)
            (<["max_steps" := VFloat 10]> (example_train_dict (-1) 0)))
     !! "num_train_epochs"
     = Some (VFloat 3).
Proof.
  repeat apply conj.
  - rewrite (proj1 (proj2 (train_writes_two_entries exact_floats 4
                             (example_train_from_optimizer 4)
                             (example_train_dict (-1) 0) "num_train_epochs")));
      [reflexivity|].
    intros max_steps H. vm_compute in H. injection H as <-. reflexivity.
  - rewrite (proj1 (train_writes_two_entries exact_floats 4
                      (example_train_from_optimizer 4)
                      (example_train_dict (-1) 0) "logging_steps"));
      [reflexivity | discriminate | discriminate].
  - apply (proj1 (proj2 (proj2 (proj2
             (train_writes_two_entries exact_floats 4
                (example_train_from_optimizer 4)
                (example_train_dict (-1) 7) "warmup_steps")))));
      reflexivity.
  - rewrite (proj1 (proj2 (proj2
               (train_writes_two_entries exact_floats 4
                  (example_train_from_optimizer 4)
                  (<["max_steps" := VFloat 10]> (example_train_dict (-1) 0))
                  "num_train_epochs")))
               (NFloat 10) (NInt 1) (NInt 4) (NFloat 2));
      try reflexivity; try (eexists; reflexivity).
Defined.

(** C7, counterexample. With [max_steps] 10, four batches an epoch and one
    accumulation step, [train] runs to its end and leaves
    [num_train_epochs] at 3 where the caller had 1, besides deriving
    [warmup_steps]; with [max_steps] the float 10.0 it leaves 3.0. *)
Lemma train_rewrites_num_train_epochs :
  example_train_dict 10 0 !! "num_train_epochs" = Some (VInt 1)
  /\ fst (train exact_floats 4 (example_train_from_optimizer 4)
            (example_train_dict 10 0)) !! "num_train_epochs"
     = Some (VInt 3)
  /\ fst (train exact_floats 4 (example_train_from_optimizer 4)
            (example_train_dict 10 0)) !! "warmup_steps"
     = Some (VInt 1)
  /\ snd (train exact_floats 4 (example_train_from_optimizer 4)
            (example_train_dict 10 0))
     = Ok (12, 12 # 12)
  /\ fst (train exact_floats 4 (example_train_from_optimizer 4)
            (<["max_steps" := VFloat 10]> (example_train_dict 10 0)))
     !! "num_train_epochs"
     = Some (VFloat 3).
Proof. repeat split; vm_compute; reflexivity. Qed.

(** ** The progress table *)

Lemma dict_set_fresh {V} (d : list (string * V)) key v :
  key ∉ map fst d -> dict_set d key v = d ++ [(key, v)].
Proof.
  induction d as [|[k w] d IH]; intros Hk; simpl; [reflexivity|].
  simpl in Hk. apply not_elem_of_cons in Hk. destruct Hk as [Hne Hk].
  destruct (String.eqb_spec k key); [congruence|].
  rewrite (IH Hk). reflexivity.
Qed.

Lemma fold_dict_set_fresh {V} (l d : list (string * V)) :
  NoDup (map fst d ++ map fst l) ->
  fold_left (fun d kv => dict_set d (fst kv) (snd kv)) l d = d ++ l.
Proof.
  revert d. induction l as [|[k v] l IH]; intros d Hnd; simpl.
  - rewrite app_nil_r. reflexivity.
  - simpl in Hnd. apply NoDup_app in Hnd. destruct Hnd as (Hd & Hdis & Hl).
    apply NoDup_cons in Hl. destruct Hl as [Hk Hl].
    rewrite dict_set_fresh by (intros Hin; apply (Hdis k Hin); left).
    rewrite IH.
    + rewrite <- app_assoc. reflexivity.
    + rewrite map_app. simpl. rewrite <- app_assoc. simpl.
      apply NoDup_app. split; [exact Hd|]. split.
      * intros x Hx. apply Hdis. exact Hx.
      * apply NoDup_cons. split; assumption.
Qed.

Lemma create_training_progress_scores_keys kwargs :
  NoDup (["global_step"; "eval_loss"; "train_loss"] ++ kwargs) ->
  _create_training_progress_scores kwargs
  = [("global_step", []); ("eval_loss", []); ("train_loss", [])]
      ++ map (fun key => (key, [])) kwargs.
Proof.
  intros Hnd. unfold _create_training_progress_scores.
  rewrite fold_dict_set_fresh; [reflexivity|].
  simpl. rewrite map_map. simpl. rewrite map_id. exact Hnd.
Qed.

Lemma DataFrame_Ok d report :
  DataFrame d = Ok report ->
  exists n,
    aligned n d
    /\ report = {| csv_header := map fst d;
                  csv_rows := map (row_of d) (seq 0 n) |}.
Proof.
  unfold DataFrame. destruct d as [|[k0 c0] d'].
  - intros [= <-]. exists 0%nat. split; [constructor | reflexivity].
  - destruct (forallb _ _) eqn:E; [|discriminate].
    intros [= <-]. exists (length c0). split; [|reflexivity].
    apply Forall_forall. intros kc Hin.
    rewrite forallb_forall in E. apply Nat.eqb_eq, E.
    apply list_elem_of_In. exact Hin.
Qed.

Lemma DataFrame_aligned n d :
  aligned n d ->
  d <> [] ->
  DataFrame d = Ok {| csv_header := map fst d;
                      csv_rows := map (row_of d) (seq 0 n) |}.
Proof.
  intros Ha Hne. unfold DataFrame. destruct d as [|[k0 c0] d']; [contradiction|].
  assert (Hc0 : length c0 = n) by (inversion Ha; assumption).
  assert (E : forallb (fun kc => Nat.eqb (length (snd kc)) (length c0))
                ((k0, c0) :: d') = true).
  { apply forallb_forall. intros kc Hin. apply Nat.eqb_eq.
    rewrite Hc0. unfold aligned in Ha. rewrite Forall_forall in Ha.
    apply Ha. apply list_elem_of_In. exact Hin. }
  rewrite E, Hc0. reflexivity.
Qed.

Lemma extends_refl d : extends d d.
Proof.
  induction d as [|kc d IH]; constructor; [|exact IH].
  split; [reflexivity|]. exists []. rewrite app_nil_r. reflexivity.
Qed.

Lemma extends_trans d1 d2 d3 : extends d1 d2 -> extends d2 d3 -> extends d1 d3.
Proof.
  intros H12. revert d3. induction H12 as [|x y l1 l2 [Hk [c Hc]] _ IH];
    intros d3 H23; inversion H23 as [|y' z l2' l3 [Hk' [c' Hc']] Ht]; subst;
    constructor.
  - split; [congruence|]. exists (c ++ c'). rewrite Hc', Hc, app_assoc.
    reflexivity.
  - apply IH. exact Ht.
Qed.

Lemma dict_append_spec (d : list (string * list cell)) key v d' :
  dict_append d key v = Ok d' ->
  extends d d'
  /\ (exists col, dict_get d key = Ok col /\ dict_get d' key = Ok (col ++ [v]))
  /\ (forall key', key' <> key -> dict_get d' key' = dict_get d key').
Proof.
  revert d'. induction d as [|[k col] d IH]; intros d' H; simpl in H;
    [discriminate|].
  destruct (String.eqb_spec k key) as [->|Hne].
  - injection H as <-. split; [|split].
    + constructor; [|apply extends_refl]. split; [reflexivity|]. eauto.
    + exists col. simpl. rewrite String.eqb_refl. auto.
    + intros key' Hk. simpl.
      destruct (String.eqb_spec key key'); [congruence | reflexivity].
  - destruct (dict_append d key v) as [d''|] eqn:E; [|discriminate].
    simpl in H. injection H as <-.
    destruct (IH d'' eq_refl) as (Hext & (c & Hc1 & Hc2) & Hother).
    split; [|split].
    + constructor; [|exact Hext]. split; [reflexivity|]. exists [].
      rewrite app_nil_r. reflexivity.
    + exists c. simpl. destruct (String.eqb_spec k key); [contradiction|].
      auto.
    + intros key' Hk. simpl. destruct (String.eqb k key'); [reflexivity|].
      apply Hother. exact Hk.
Qed.

Lemma append_results_spec d results d' :
  append_results d results = Ok d' ->
  extends d d'
  /\ (forall key', key' ∉ map fst results ->
                   dict_get d' key' = dict_get d key').
Proof.
  revert d d'. induction results as [|[k v] results IH]; intros d d' H;
    simpl in H.
  - injection H as <-. split; [apply extends_refl | reflexivity].
  - destruct (dict_append d k (CFloat v)) as [d1|] eqn:E; [|discriminate].
    simpl in H. apply dict_append_spec in E.
    destruct E as (Hext1 & _ & Hother1).
    destruct (IH d1 d' H) as (Hext2 & Hother2).
    split; [eapply extends_trans; eassumption|].
    intros key' Hk. simpl in Hk. apply not_elem_of_cons in Hk.
    destruct Hk as [Hne Hk]. rewrite (Hother2 key' Hk).
    apply Hother1. exact Hne.
Qed.

Lemma dict_get_elem_of {V} (d : list (string * V)) key v :
  dict_get d key = Ok v -> (key, v) ∈ d.
Proof.
  induction d as [|[k w] d IH]; simpl; [discriminate|].
  destruct (String.eqb_spec k key) as [->|Hne].
  - intros [= ->]. left.
  - intros H. right. apply IH. exact H.
Qed.

Lemma extends_rows n d d' :
  extends d d' ->
  aligned n d ->
  aligned (S n) d' ->
  map fst d' = map fst d
  /\ map (row_of d') (seq 0 (S n)) = map (row_of d) (seq 0 n) ++ [row_of d' n].
Proof.
  intros Hext Ha Ha'. split.
  - induction Hext as [|x y l1 l2 [Hk _] _ IH]; [reflexivity|].
    simpl. rewrite Hk. f_equal. apply IH.
    + inversion Ha; assumption.
    + inversion Ha'; assumption.
  - rewrite seq_S, map_app. simpl. f_equal.
    apply map_ext_in. intros i Hi. apply in_seq in Hi.
    unfold row_of. clear Ha'.
    induction Hext as [|x y l1 l2 [_ [c Hc]] _ IH]; [reflexivity|].
    inversion Ha as [|? ? Hx Ha1]; subst.
    simpl. f_equal; [|apply IH; exact Ha1].
    rewrite Hc. apply app_nth1. lia.
Qed.

Lemma dict_get_missing {V} (d : list (string * V)) key :
  key ∉ map fst d -> dict_get d key = Raise KeyError.
Proof.
  induction d as [|[k w] d IH]; intros H; simpl; [reflexivity|].
  simpl in H. apply not_elem_of_cons in H. destruct H as [Hne H].
  destruct (String.eqb_spec k key); [congruence|]. apply IH, H.
Qed.

Lemma dict_append_keys {V} (d : list (string * list V)) key v d' :
  dict_append d key v = Ok d' -> map fst d' = map fst d.
Proof.
  revert d'. induction d as [|[k col] d IH]; intros d' H; simpl in H;
    [discriminate|].
  destruct (String.eqb k key).
  - injection H as <-. reflexivity.
  - destruct (dict_append d key v) as [d''|]; [|discriminate].
    injection H as <-. simpl. f_equal. apply IH. reflexivity.
Qed.

Lemma dict_append_outcome {V} (d : list (string * list V)) key v :
  (key ∈ map fst d -> exists d', dict_append d key v = Ok d')
  /\ (key ∉ map fst d -> dict_append d key v = Raise KeyError).
Proof.
  induction d as [|[k col] d [IH1 IH2]]; simpl.
  - split; [intros H; inversion H | reflexivity].
  - destruct (String.eqb_spec k key) as [->|Hne].
    + split; [eauto|]. intros H. exfalso. apply H. left.
    + split.
      * intros H. apply elem_of_cons in H. destruct H as [->|H];
          [contradiction|].
        destruct (IH1 H) as [d' ->]. simpl. eauto.
      * intros H. rewrite IH2; [reflexivity|].
        intros Hin. apply H. right. exact Hin.
Qed.

Lemma dict_get_In {V} (d : list (string * V)) key v :
  NoDup (map fst d) -> (key, v) ∈ d -> dict_get d key = Ok v.
Proof.
  induction d as [|[k w] d IH]; intros Hnd Hin; [inversion Hin|].
  simpl in Hnd. apply NoDup_cons in Hnd. destruct Hnd as [Hk Hnd].
  apply elem_of_cons in Hin. simpl.
  destruct Hin as [[= -> ->]|Hin].
  - rewrite String.eqb_refl. reflexivity.
  - destruct (String.eqb_spec k key) as [->|Hne]; [|apply IH; assumption].
    exfalso. apply Hk. apply list_elem_of_fmap. exists (key, v). auto.
Qed.

(** The length of column [key] after the cell for [key'] was added. *)
Lemma dict_append_lengths (d : list (string * list cell)) key v d' :
  dict_append d key v = Ok d' ->
  forall key' col',
    dict_get d' key' = Ok col' ->
    exists col,
      dict_get d key' = Ok col
      /\ length col' = ((if String.eqb key' key then 1 else 0) + length col)%nat.
Proof.
  intros H key' col' Hget.
  destruct (dict_append_spec _ _ _ _ H) as (_ & (c & Hc1 & Hc2) & Hother).
  destruct (String.eqb_spec key' key) as [->|Hne].
  - rewrite Hc2 in Hget. injection Hget as <-. exists c.
    split; [exact Hc1|]. rewrite length_app. simpl. lia.
  - rewrite (Hother key' Hne) in Hget. exists col'. auto.
Qed.

Lemma append_results_keys d results d' :
  append_results d results = Ok d' -> map fst d' = map fst d.
Proof.
  revert d. induction results as [|[k v] results IH]; intros d H; simpl in H.
  - injection H as <-. reflexivity.
  - destruct (dict_append d k (CFloat v)) as [d1|] eqn:E; [|discriminate].
    simpl in H. rewrite (IH _ H). eapply dict_append_keys, E.
Qed.

Lemma append_results_outcome d results :
  ((forall key, key ∈ map fst results -> key ∈ map fst d) ->
   exists d', append_results d results = Ok d')
  /\ ((exists key, key ∈ map fst results /\ key ∉ map fst d) ->
      append_results d results = Raise KeyError).
Proof.
  revert d. induction results as [|[k v] results IH]; intros d; simpl.
  - split; [eauto|]. intros (key & H & _). inversion H.
  - destruct (dict_append_outcome d k (CFloat v)) as [Hin Hout].
    destruct (decide (k ∈ map fst d)) as [Hk|Hk].
    + destruct (Hin Hk) as [d1 E]. rewrite E. simpl.
      pose proof (dict_append_keys _ _ _ _ E) as Hkeys.
      destruct (IH d1) as [IH1 IH2]. rewrite Hkeys in IH1, IH2.
      split.
      * intros Hall. apply IH1. intros key H. apply Hall. right. exact H.
      * intros (key & H & Hno). apply IH2. exists key. split; [|exact Hno].
        apply elem_of_cons in H. destruct H as [->|H];
          [contradiction | exact H].
    + rewrite (Hout Hk). simpl. split; [|reflexivity].
      intros Hall. exfalso. apply Hk, Hall. left.
Qed.

Lemma append_results_lengths d results d' :
  NoDup (map fst results) ->
  append_results d results = Ok d' ->
  forall key' col',
    dict_get d' key' = Ok col' ->
    exists col,
      dict_get d key' = Ok col
      /\ length col'
         = ((if bool_decide (key' ∈ map fst results) then 1 else 0)
            + length col)%nat.
Proof.
  revert d. induction results as [|[k v] results IH]; intros d Hnd H key' col'
    Hget; simpl in H.
  - injection H as <-. exists col'. split; [exact Hget|].
    rewrite bool_decide_eq_false_2; [reflexivity|]. intros Hin. inversion Hin.
  - simpl in Hnd. apply NoDup_cons in Hnd. destruct Hnd as [Hk Hnd].
    destruct (dict_append d k (CFloat v)) as [d1|] eqn:E; [|discriminate].
    simpl in H.
    destruct (IH d1 Hnd H key' col' Hget) as (c1 & Hc1 & Hl1).
    destruct (dict_append_lengths _ _ _ _ E key' c1 Hc1) as (c & Hc & Hl).
    exists c. split; [exact Hc|]. rewrite Hl1, Hl. simpl map.
    destruct (String.eqb_spec key' k) as [->|Hne].
    + rewrite (bool_decide_eq_false_2 _ Hk).
      rewrite bool_decide_eq_true_2 by left. reflexivity.
    + destruct (decide (key' ∈ map fst results)) as [Hin|Hin].
      * rewrite (bool_decide_eq_true_2 _ Hin).
        rewrite bool_decide_eq_true_2 by (right; exact Hin). reflexivity.
      * rewrite (bool_decide_eq_false_2 _ Hin).
        rewrite bool_decide_eq_false_2; [reflexivity|].
        intros H'. apply elem_of_cons in H'. destruct H' as [->|H'];
          contradiction.
Qed.

Lemma DataFrame_misaligned d k1 c1 k2 c2 :
  (k1, c1) ∈ d -> (k2, c2) ∈ d -> length c1 <> length c2 ->
  DataFrame d = Raise ValueError.
Proof.
  intros H1 H2 Hne. unfold DataFrame.
  destruct d as [|[k0 c0] d']; [inversion H1|].
  destruct (forallb _ _) eqn:E; [|reflexivity].
  rewrite forallb_forall in E.
  pose proof (E _ (proj1 (list_elem_of_In _ _) H1)) as E1.
  pose proof (E _ (proj1 (list_elem_of_In _ _) H2)) as E2.
  simpl in E1, E2. apply Nat.eqb_eq in E1, E2. congruence.
Qed.

Lemma elem_of_keys_dict_get {V} (d : list (string * V)) key :
  key ∈ map fst d -> exists v, dict_get d key = Ok v.
Proof.
  induction d as [|[k w] d IH]; intros H; [inversion H|].
  simpl. destruct (String.eqb_spec k key) as [->|Hne]; [eauto|].
  apply elem_of_cons in H. destruct H as [->|H]; [contradiction|].
  apply IH, H.
Qed.

Lemma append_results_cells d results d' :
  NoDup (map fst results) ->
  append_results d results = Ok d' ->
  forall key col,
    dict_get d key = Ok col ->
    dict_get d' key
    = Ok (col ++ match dict_get results key with
                 | Ok v => [CFloat v]
                 | Raise _ => []
                 end).
Proof.
  revert d. induction results as [|[k v] results IH]; intros d Hnd H key col
    Hget; simpl in H.
  - injection H as <-. simpl. rewrite app_nil_r. exact Hget.
  - simpl in Hnd. apply NoDup_cons in Hnd. destruct Hnd as [Hk Hnd].
    destruct (dict_append d k (CFloat v)) as [d1|] eqn:E; [|discriminate].
    simpl in H. apply dict_append_spec in E.
    destruct E as (_ & (c & Hc1 & Hc2) & Hother). simpl dict_get.
    destruct (String.eqb_spec k key) as [->|Hne].
    + rewrite Hget in Hc1. injection Hc1 as <-.
      rewrite (IH d1 Hnd H key _ Hc2), (dict_get_missing results key Hk).
      rewrite app_nil_r. reflexivity.
    + apply (IH d1 Hnd H). rewrite Hother by congruence. exact Hget.
Qed.

Lemma Forall2_map_same {A B C} (P : B -> C -> Prop) (f : A -> B)
  (g : A -> C) (l : list A) :
  Forall (fun x => P (f x) (g x)) l -> Forall2 P (map f l) (map g l).
Proof. induction 1; simpl; constructor; assumption. Qed.

Lemma nth_last_cell (col : list cell) c n :
  length col = n -> nth n (col ++ [c]) (CInt 0) = c.
Proof.
  intros <-. rewrite app_nth2 by lia. rewrite Nat.sub_diag. reflexivity.
Qed.

Lemma record_progress_appends_row results st st' report :
  DataFrame (training_progress_scores st) = Ok report ->
  NoDup (csv_header report) ->
  NoDup (map fst results) ->
  "global_step" ∉ map fst results ->
  record_progress results st = Ok st' ->
  exists loss row,
    current_loss st = Some loss
    /\ Forall2
         (fun key c =>
            progress_cell (global_step st) loss results key = Some c)
         (csv_header report) row
    /\ progress_file st'
       = Some {| csv_header := csv_header report;
                 csv_rows := csv_rows report ++ [row] |}
    /\ DataFrame (training_progress_scores st')
       = Ok {| csv_header := csv_header report;
               csv_rows := csv_rows report ++ [row] |}.
Proof.
  intros Hreport Hcols Hres Hkeys. unfold record_progress, rbind.
  destruct (dict_append (training_progress_scores st) "global_step" _)
    as [d1|] eqn:E1; [|discriminate].
  destruct (current_loss st) as [loss|]; [|discriminate].
  destruct (dict_append d1 "train_loss" _) as [d2|] eqn:E2; [|discriminate].
  destruct (append_results d2 results) as [d3|] eqn:E3; [|discriminate].
  destruct (DataFrame d3) as [report'|] eqn:E4; [|discriminate].
  intros [= <-]. simpl.
  pose proof (dict_append_keys _ _ _ _ E1) as K1.
  pose proof (dict_append_keys _ _ _ _ E2) as K2.
  pose proof (append_results_keys _ _ _ E3) as K3.
  pose proof (append_results_cells _ _ _ Hres E3) as C3.
  apply dict_append_spec in E1. destruct E1 as (X1 & (col & G0 & G1) & O1).
  apply dict_append_spec in E2. destruct E2 as (X2 & (colt & T1 & T2) & O2).
  apply append_results_spec in E3. destruct E3 as (X3 & O3).
  assert (Hext : extends (training_progress_scores st) d3)
    by (eapply extends_trans; [eapply extends_trans|]; eassumption).
  assert (G3 : dict_get d3 "global_step"
               = Ok (col ++ [CInt (global_step st)])).
  { rewrite (O3 _ Hkeys), O2 by discriminate. exact G1. }
  apply DataFrame_Ok in Hreport. destruct Hreport as (n & Ha & ->).
  simpl in Hcols.
  pose proof E4 as E4'.
  apply DataFrame_Ok in E4. destruct E4 as (n' & Ha' & ->).
  assert (Hcol : length col = n).
  { apply dict_get_elem_of in G0.
    unfold aligned in Ha. rewrite Forall_forall in Ha.
    exact (Ha _ G0). }
  assert (Hn : n' = S n).
  { apply dict_get_elem_of in G3.
    unfold aligned in Ha'. rewrite Forall_forall in Ha'.
    specialize (Ha' _ G3). simpl in Ha'.
    rewrite length_app in Ha'. simpl in Ha'. lia. }
  subst n'. destruct (extends_rows _ _ _ Hext Ha Ha') as [Hh Hr].
  exists loss, (row_of d3 n). simpl.
  rewrite <- Hh, <- Hr. split; [reflexivity|].
  split; [|split; [reflexivity | exact E4']].
  unfold row_of. apply Forall2_map_same. apply Forall_forall.
  intros [key col3] Hin. simpl.
  assert (Hcols3 : NoDup (map fst d3)) by (rewrite Hh; exact Hcols).
  pose proof (dict_get_In d3 key col3 Hcols3 Hin) as Hget3.
  assert (Hlen3 : length col3 = S n).
  { unfold aligned in Ha'. rewrite Forall_forall in Ha'.
    exact (Ha' _ Hin). }
  unfold progress_cell.
  destruct (String.eqb_spec key "global_step") as [->|Hgs].
  { rewrite G3 in Hget3. injection Hget3 as <-.
    rewrite nth_last_cell by exact Hcol. reflexivity. }
  assert (Hkey : key ∈ map fst (training_progress_scores st)).
  { rewrite <- Hh. apply list_elem_of_fmap. exists (key, col3). auto. }
  destruct (elem_of_keys_dict_get _ _ Hkey) as [col0 Hget0].
  assert (Hlen0 : length col0 = n).
  { apply dict_get_elem_of in Hget0.
    unfold aligned in Ha. rewrite Forall_forall in Ha.
    exact (Ha _ Hget0). }
  assert (Hget1 : dict_get d1 key = Ok col0)
    by (rewrite O1 by exact Hgs; exact Hget0).
  destruct (String.eqb_spec key "train_loss") as [->|Htl].
  - rewrite Hget1 in T1. injection T1 as <-.
    rewrite (C3 _ _ T2) in Hget3. injection Hget3 as <-.
    destruct (dict_get results "train_loss") as [v|].
    + rewrite !length_app in Hlen3. simpl in Hlen3. lia.
    + rewrite app_nil_r. rewrite nth_last_cell by exact Hlen0. reflexivity.
  - assert (Hget2 : dict_get d2 key = Ok col0)
      by (rewrite O2 by exact Htl; exact Hget1).
    rewrite (C3 _ _ Hget2) in Hget3. injection Hget3 as <-.
    destruct (dict_get results key) as [v|].
    + rewrite nth_last_cell by exact Hlen0. reflexivity.
    + rewrite app_nil_r in Hlen3. lia.
Qed.

Lemma early_stopping_check_table gate a m st :
  flow_sat
    (fun st' =>
       training_progress_scores st' = training_progress_scores st
       /\ progress_file st' = progress_file st)
    (fun st' _ =>
       training_progress_scores st' = training_progress_scores st
       /\ progress_file st' = progress_file st)
    (early_stopping_check gate a m st).
Proof.
  unfold early_stopping_check, compare_with_best.
  assert (Hi : training_progress_scores (init_best a m st)
               = training_progress_scores st
               /\ progress_file (init_best a m st) = progress_file st).
  { unfold init_best, take_as_best.
    destruct (truthy _); [|destruct (save_best_model a)]; split; reflexivity. }
  destruct (best_eval_metric (init_best a m st)); [|exact I].
  assert (Hn : flow_sat
                 (fun st' =>
                    training_progress_scores st' = training_progress_scores st
                    /\ progress_file st' = progress_file st)
                 (fun st' _ =>
                    training_progress_scores st' = training_progress_scores st
                    /\ progress_file st' = progress_file st)
                 (no_improvement gate a (init_best a m st))).
  { unfold no_improvement. destruct gate; [|exact Hi].
    destruct (_ <? _); [exact Hi|].
    apply return_mean_loss_sat. intros _. exact Hi. }
  destruct (_ && _); destruct (Qltb _ _); try exact Hn;
    simpl; unfold take_as_best; destruct (save_best_model a); exact Hi.
Qed.

(** C8 (as amended). The table starts with the columns [global_step],
    [eval_loss], [train_loss] and then the names of the extra metrics, in
    this order and without rows; and every evaluation during training that
    gets through rewrites the file with the same header, the rows it had,
    and exactly one new row at the end. The new row holds, under
    [global_step], the global step of the evaluation, under [train_loss]
    the loss of the last batch, and under every other column the result
    that the evaluation returned under that name. (The keys of the table
    are distinct and so are those of the results, as in any dict; the
    results have no entry named [global_step].) *)
Theorem progress_file_grows_by_one_row eval_model kwargs :
  (NoDup (["global_step"; "eval_loss"; "train_loss"] ++ kwargs) ->
   DataFrame (_create_training_progress_scores kwargs)
   = Ok {| csv_header := ["global_step"; "eval_loss"; "train_loss"] ++ kwargs;
           csv_rows := [] |})
  /\ (forall gate dir a st st' report,
        DataFrame (training_progress_scores st) = Ok report ->
        NoDup (csv_header report) ->
        NoDup (map fst (eval_model (evals_done st))) ->
        "global_step" ∉ map fst (eval_model (evals_done st)) ->
        flow_state (evaluation eval_model gate dir a st) = Some st' ->
        exists loss row,
          current_loss st = Some loss
          /\ Forall2
               (fun key c =>
                  progress_cell (global_step st) loss
                    (eval_model (evals_done st)) key = Some c)
               (csv_header report) row
          /\ progress_file st'
             = Some {| csv_header := csv_header report;
                       csv_rows := csv_rows report ++ [row] |}
          /\ DataFrame (training_progress_scores st')
             = Ok {| csv_header := csv_header report;
                     csv_rows := csv_rows report ++ [row] |}).
Proof.
  split.
  - intros Hnd. rewrite (create_training_progress_scores_keys kwargs Hnd).
    rewrite (DataFrame_aligned 0).
    + simpl. rewrite map_map. simpl. rewrite map_id. reflexivity.
    + repeat constructor. apply Forall_forall. intros kc Hin.
      apply list_elem_of_In, in_map_iff in Hin. destruct Hin as (k & <- & _).
      reflexivity.
    + discriminate.
  - intros gate dir a st st' report Hreport Hcols Hres Hkeys.
    unfold evaluation.
    match goal with |- context [record_progress _ ?s] => set (st1 := s) end.
    assert (H1 : training_progress_scores st1 = training_progress_scores st
                 /\ global_step st1 = global_step st
                 /\ current_loss st1 = current_loss st)
      by (subst st1; destruct (save_eval_checkpoints a); repeat split).
    destruct H1 as (H1 & H2 & H3).
    destruct (record_progress _ st1) as [st2|] eqn:E; [|discriminate].
    rewrite <- H1 in Hreport.
    destruct (record_progress_appends_row _ _ _ _ Hreport Hcols Hres Hkeys E)
      as (loss & row & Hl & Hrow & Hf & Hd).
    rewrite H2 in Hrow. rewrite H3 in Hl.
    destruct (dict_get _ _) as [m|]; [|discriminate].
    pose proof (early_stopping_check_table gate a m st2) as Hc.
    destruct (early_stopping_check gate a m st2) as [s|s r|e]; simpl in *;
      [| |discriminate]; intros [= <-]; destruct Hc as [-> ->];
      exists loss, row; repeat split; assumption.
Qed.

Lemma progress_file_grows_by_one_row_witness :
  exists st',
    flow_state
      (evaluation example_eval_model_rouge true (CheckpointStep 4)
         (example_args true 0 2 true) example_first_evaluation)
    = Some st'
    /\ progress_file st'
       = Some {| csv_header :=
                   ["global_step"; "eval_loss"; "train_loss"; "rouge"];
                 csv_rows :=
                   [] ++ [[CInt 4; CFloat 5; CFloat 1; CFloat (1 # 2)]] |}.
Proof.
  destruct (flow_state
              (evaluation example_eval_model_rouge true (CheckpointStep 4)
                 (example_args true 0 2 true) example_first_evaluation))
    as [st'|] eqn:E; [|vm_compute in E; discriminate].
  destruct (proj2 (progress_file_grows_by_one_row example_eval_model_rouge
                     ["rouge"])
              true (CheckpointStep 4) (example_args true 0 2 true)
              example_first_evaluation st'
              {| csv_header :=
                   ["global_step"; "eval_loss"; "train_loss"; "rouge"];
                 csv_rows := [] |})
    as (loss & row & Hl & Hrow & Hf & _).
  - vm_compute. reflexivity.
  - simpl. repeat (apply NoDup_cons; split;
      [intros H; repeat (apply elem_of_cons in H; destruct H as [H|H];
         [discriminate|]); inversion H|]).
    apply NoDup_nil. exact Logic.I.
  - simpl. repeat (apply NoDup_cons; split;
      [intros H; repeat (apply elem_of_cons in H; destruct H as [H|H];
         [discriminate|]); inversion H|]).
    apply NoDup_nil. exact Logic.I.
  - vm_compute. intros H. repeat (apply elem_of_cons in H; destruct H as [H|H];
      [discriminate|]). inversion H.
  - exact E.
  - exists st'. split; [reflexivity|]. rewrite Hf. do 3 f_equal.
    injection Hl as <-. simpl in Hrow.
    repeat match goal with
           | H : Forall2 _ (_ :: _) _ |- _ =>
               apply Forall2_cons_inv_l in H;
               destruct H as (? & ? & ? & H & ->)
           | H : Forall2 _ [] _ |- _ => apply Forall2_nil_inv_l in H; subst
           end.
    repeat match goal with
           | H : progress_cell _ _ _ _ = Some _ |- _ =>
               vm_compute in H; injection H as <-
           end.
    reflexivity.
Defined.

(** C8, counterexample. With one extra metric [rouge] the header is
    [global_step, eval_loss, train_loss, rouge]: the evaluation loss comes
    before the training loss. The first row written after four steps of
    training loss 1, with evaluation loss 5, reads [4, 5, 1, 1/2]. *)
Lemma progress_columns_put_eval_loss_first :
  DataFrame (_create_training_progress_scores ["rouge"])
  = Ok {| csv_header := ["global_step"; "eval_loss"; "train_loss"; "rouge"];
          csv_rows := [] |}
  /\ flow_state
       (evaluation example_eval_model_rouge true (CheckpointStep 4)
          (example_args true 0 2 true) example_first_evaluation)
     ≫= progress_file
     = Some {| csv_header :=
                 ["global_step"; "eval_loss"; "train_loss"; "rouge"];
               csv_rows := [[CInt 4; CFloat 5; CFloat 1; CFloat (1 # 2)]] |}.
Proof. split; vm_compute; reflexivity. Qed.

(** * Further properties *)

(** ** What the pieces of the loop leave untouched *)

Lemma flow_sat_and (I1 I2 : TrainState -> Prop)
  (R1 R2 : TrainState -> Z * Q -> Prop) f :
  flow_sat I1 R1 f -> flow_sat I2 R2 f ->
  flow_sat (fun st => I1 st /\ I2 st) (fun st r => R1 st r /\ R2 st r) f.
Proof. destruct f; simpl; auto. Qed.

Lemma flow_next_sat (I J : TrainState -> Prop)
  (R : TrainState -> Z * Q -> Prop) f :
  flow_next J f -> flow_sat I R f -> flow_next (fun st => I st /\ J st) f.
Proof. destruct f; simpl; auto. Qed.

Lemma flow_next_weaken (I J : TrainState -> Prop) f :
  (forall st, I st -> J st) -> flow_next I f -> flow_next J f.
Proof. destruct f; simpl; auto. Qed.

Lemma fbind_next I J f k :
  flow_next I f ->
  (forall st, I st -> flow_next J (k st)) ->
  flow_next J (fbind f k).
Proof. destruct f; simpl; auto; contradiction. Qed.

Lemma for_each_next {A} I (body : A -> TrainState -> flow) l :
  (forall x st, In x l -> I st -> flow_next I (body x st)) ->
  forall st, I st -> flow_next I (for_each body l st).
Proof.
  induction l as [|x l IH]; intros Hbody st HI; simpl; [exact HI|].
  apply fbind_next with (I := I).
  - apply Hbody; [left; reflexivity | exact HI].
  - intros st' HI'. apply IH; [|exact HI'].
    intros y st'' Hy. apply Hbody. right. exact Hy.
Qed.

(** An early-stopping check writes the best value, the counter and the
    trace of saves, nothing else. *)
Lemma early_stopping_check_writes gate a m st :
  flow_sat
    (fun st' =>
       exists b c s,
         st' = set_saved s
                 (set_early_stopping_counter c (set_best_eval_metric b st)))
    (fun st' _ =>
       exists b c s,
         st' = set_saved s
                 (set_early_stopping_counter c (set_best_eval_metric b st)))
    (early_stopping_check gate a m st).
Proof.
  assert (Hshape : forall st1,
             (exists b c s,
                 st1 = set_saved s
                         (set_early_stopping_counter c
                            (set_best_eval_metric b st))) ->
             (exists b c s,
                 take_as_best a m st1
                 = set_saved s
                     (set_early_stopping_counter c
                        (set_best_eval_metric b st)))).
  { intros st1 (b & c & s & ->). unfold take_as_best, save_model.
    destruct (save_best_model a);
      [exists (Some m), c, (BestModelDir :: s) | exists (Some m), c, s];
      reflexivity. }
  assert (Hself : exists b c s,
             st = set_saved s
                    (set_early_stopping_counter c (set_best_eval_metric b st))).
  { exists (best_eval_metric st), (early_stopping_counter st), (saved st).
    destruct st; reflexivity. }
  assert (Hinit : exists b c s,
             init_best a m st
             = set_saved s
                 (set_early_stopping_counter c (set_best_eval_metric b st))).
  { unfold init_best. destruct (truthy _); [exact Hself | apply Hshape, Hself]. }
  unfold early_stopping_check, compare_with_best.
  destruct (best_eval_metric (init_best a m st)); [|exact I].
  assert (Hno : flow_sat
                  (fun st' =>
                     exists b c s,
                       st' = set_saved s
                               (set_early_stopping_counter c
                                  (set_best_eval_metric b st)))
                  (fun st' _ =>
                     exists b c s,
                       st' = set_saved s
                               (set_early_stopping_counter c
                                  (set_best_eval_metric b st)))
                  (no_improvement gate a (init_best a m st))).
  { unfold no_improvement. destruct gate; [|exact Hinit].
    destruct (_ <? _).
    - destruct Hinit as (b & c & s & ->). simpl.
      exists b, (c + 1), s. reflexivity.
    - apply return_mean_loss_sat. intros _. exact Hinit. }
  assert (Himp : exists b c s,
             set_early_stopping_counter 0
               (take_as_best a m (init_best a m st))
             = set_saved s
                 (set_early_stopping_counter c (set_best_eval_metric b st))).
  { destruct (Hshape _ Hinit) as (b & c & s & ->).
    exists b, 0, s. reflexivity. }
  destruct (_ && _); destruct (Qltb _ _); try exact Hno; exact Himp.
Qed.

Section Position.

Variable batch_loss : Z -> Z -> Q.
Variable eval_model : nat -> list (string * Q).
Variable n_batches : Z.

Lemma evaluation_position gate dir a st :
  flow_sat (fun st' => position st' = position st)
    (fun st' _ => position st' = position st)
    (evaluation eval_model gate dir a st).
Proof.
  unfold evaluation.
  match goal with |- context [record_progress _ ?s] => set (st1 := s) end.
  assert (H1 : position st1 = position st)
    by (subst st1; destruct (save_eval_checkpoints a); reflexivity).
  destruct (record_progress _ st1) as [st2|] eqn:E; [|exact I].
  apply record_progress_frame in E. destruct E as (d & f & ->).
  destruct (dict_get _ _) as [m|]; [|exact I].
  eapply flow_sat_weaken; [| |apply early_stopping_check_writes];
    simpl; intros st' **;
    match goal with
    | H : exists _ _ _, _ |- _ => destruct H as (b & c & s & ->)
    end; exact H1.
Qed.

Lemma optimizer_update_position a st :
  flow_sat
    (fun st' =>
       position st'
       = (global_step st + 1, steps_trained_in_current_epoch st,
          epochs_trained st))
    (fun _ _ => True)
    (optimizer_update eval_model a st).
Proof.
  unfold optimizer_update.
  match goal with |- context [log_metrics a ?s] =>
    destruct (log_metrics_frame a s) as [l ->] end.
  match goal with |- context [save_checkpoint a ?s] =>
    destruct (save_checkpoint_frame a s) as [l' ->] end.
  destruct (_ && _); [|reflexivity].
  eapply flow_sat_weaken; [| |apply evaluation_position]; simpl; auto.
Qed.

End Position.

(** ** How many optimizer steps a run makes *)

Lemma position_eq (g g' k k' e e' : Z) :
  g = g' -> k = k' -> e = e' -> (g, k, e) = (g', k', e').
Proof. intros -> -> ->. reflexivity. Qed.

Section StepCount.

Variable batch_loss : Z -> Z -> Q.
Variable eval_model : nat -> list (string * Q).
Variable n_batches : Z.
Variable a : TrainArgs.

Hypothesis gas_positive : 0 < gradient_accumulation_steps a.

Lemma train_batch_position current_epoch step st :
  flow_sat
    (fun st' =>
       position st'
       = if 0 <? steps_trained_in_current_epoch st
         then (global_step st, steps_trained_in_current_epoch st - 1,
               epochs_trained st)
         else (global_step st
               + (if (step + 1) mod gradient_accumulation_steps a =? 0
                  then 1 else 0),
               steps_trained_in_current_epoch st, epochs_trained st))
    (fun _ _ => True)
    (train_batch batch_loss eval_model a current_epoch step st).
Proof.
  unfold train_batch.
  destruct (0 <? steps_trained_in_current_epoch st); [reflexivity|].
  unfold py_mod.
  destruct (Z.eqb_spec (gradient_accumulation_steps a) 0); [lia|].
  destruct (_ mod _ =? 0).
  - eapply flow_sat_weaken; [| |apply optimizer_update_position];
      simpl; auto.
  - simpl. unfold position. simpl. apply position_eq; lia.
Qed.

(** Batches [s0 .. s0 + n - 1] of an epoch, entered with [k] batches to
    skip. *)
Lemma for_each_batches_position current_epoch :
  forall (n s0 : nat) st,
    0 <= steps_trained_in_current_epoch st ->
    flow_sat
      (fun st' =>
         position st'
         = (global_step st
            + (Z.of_nat (s0 + n) / gradient_accumulation_steps a
               - Z.min (Z.of_nat s0 + steps_trained_in_current_epoch st)
                   (Z.of_nat (s0 + n))
                 / gradient_accumulation_steps a),
            Z.max 0 (steps_trained_in_current_epoch st - Z.of_nat n),
            epochs_trained st))
      (fun _ _ => True)
      (for_each (train_batch batch_loss eval_model a current_epoch)
         (map Z.of_nat (seq s0 n)) st).
Proof.
  induction n as [|n IH]; intros s0 st Hk.
  - simpl. unfold position. rewrite Nat.add_0_r.
    rewrite Z.min_r by lia. apply position_eq; lia.
  - simpl. eapply fbind_sat; [apply train_batch_position|].
    intros st1 H1. cbv beta in H1.
    destruct (Z.ltb_spec 0 (steps_trained_in_current_epoch st)) as [Hpos|Hz];
      injection H1 as Hg Hs He.
    + eapply flow_sat_weaken; [| |apply (IH (S s0) st1); lia]; [|auto].
      intros st' H'. cbv beta in H'. rewrite H'. unfold position.
      rewrite Hg, Hs, He.
      replace (S s0 + n)%nat with (s0 + S n)%nat by lia.
      replace (Z.of_nat (S s0) + (steps_trained_in_current_epoch st - 1))
        with (Z.of_nat s0 + steps_trained_in_current_epoch st) by lia.
      apply position_eq; lia.
    + assert (Hk0 : steps_trained_in_current_epoch st = 0) by lia.
      eapply flow_sat_weaken; [| |apply (IH (S s0) st1); lia]; [|auto].
      intros st' H'. cbv beta in H'. rewrite H'. unfold position.
      rewrite Hg, Hs, He, Hk0.
      replace (S s0 + n)%nat with (s0 + S n)%nat by lia.
      rewrite !Z.add_0_r, !Z.min_l by lia.
      replace (Z.of_nat (S s0)) with (Z.of_nat s0 + 1) by lia.
      rewrite (div_succ_step (Z.of_nat s0) _ gas_positive).
      apply position_eq; lia.
Qed.

Hypothesis batches_nonnegative : 0 <= n_batches.

Lemma train_epoch_position current_epoch st :
  0 <= steps_trained_in_current_epoch st <= n_batches ->
  flow_sat
    (fun st' =>
       position st'
       = if 0 <? epochs_trained st
         then (global_step st, steps_trained_in_current_epoch st,
               epochs_trained st - 1)
         else (global_step st
               + (n_batches / gradient_accumulation_steps a
                  - steps_trained_in_current_epoch st
                    / gradient_accumulation_steps a),
               0, epochs_trained st))
    (fun _ _ => True)
    (train_epoch batch_loss eval_model n_batches a current_epoch st).
Proof.
  intros Hk. unfold train_epoch.
  destruct (0 <? epochs_trained st); [reflexivity|].
  eapply fbind_sat;
    [apply (for_each_batches_position current_epoch (Z.to_nat n_batches) 0 st);
     lia|].
  intros st1 H1. cbv beta in H1.
  assert (H1' : position st1
                = (global_step st
                   + (n_batches / gradient_accumulation_steps a
                      - steps_trained_in_current_epoch st
                        / gradient_accumulation_steps a),
                   0, epochs_trained st)).
  { rewrite H1. simpl Nat.add. rewrite Z2Nat.id by lia.
    simpl Z.of_nat. rewrite Z.add_0_l, Z.min_l by lia.
    apply position_eq; lia. }
  clear H1.
  match goal with
  | |- flow_sat _ _ (if _ then evaluation _ _ _ _ ?s else Next ?s) =>
      assert (H2 : position s = position st1)
        by (destruct (save_model_every_epoch a); reflexivity)
  end.
  destruct (evaluate_during_training a).
  - eapply flow_sat_weaken; [| |apply evaluation_position].
    + intros st' H. cbv beta in H. rewrite H, H2. exact H1'.
    + auto.
  - unfold flow_sat. rewrite H2. exact H1'.
Qed.

(** A loop over [m] epochs entered with [e] epochs and [k] batches to
    skip. *)
Lemma for_each_epochs_position :
  forall (l : list Z) st,
    0 <= steps_trained_in_current_epoch st <= n_batches ->
    0 <= epochs_trained st ->
    flow_sat
      (fun st' =>
         position st'
         = if Z.of_nat (length l) <=? epochs_trained st
           then (global_step st, steps_trained_in_current_epoch st,
                 epochs_trained st - Z.of_nat (length l))
           else (global_step st
                 + (n_batches / gradient_accumulation_steps a
                    - steps_trained_in_current_epoch st
                      / gradient_accumulation_steps a)
                 + (Z.of_nat (length l) - epochs_trained st - 1)
                   * (n_batches / gradient_accumulation_steps a),
                 0, 0))
      (fun _ _ => True)
      (for_each (train_epoch batch_loss eval_model n_batches a) l st).
Proof.
  induction l as [|x l IH]; intros st Hk He.
  - simpl for_each. simpl length. change (Z.of_nat 0) with 0.
    destruct (Z.leb_spec 0 (epochs_trained st)); [|lia].
    unfold flow_sat, position. apply position_eq; lia.
  - simpl for_each. eapply fbind_sat; [apply train_epoch_position; exact Hk|].
    intros st1 H1. cbv beta in H1.
    set (p := n_batches / gradient_accumulation_steps a) in *.
    destruct (Z.ltb_spec 0 (epochs_trained st)) as [Hpos|Hz];
      injection H1 as Hg Hs He1.
    + eapply flow_sat_weaken; [| |apply (IH st1); lia]; [|auto].
      intros st' H'. cbv beta in H'. rewrite H'. rewrite Hg, Hs, He1.
      fold p. simpl length. rewrite Nat2Z.inj_succ.
      destruct (Z.leb_spec (Z.of_nat (length l)) (epochs_trained st - 1));
        destruct (Z.leb_spec (Z.succ (Z.of_nat (length l)))
                    (epochs_trained st)); try lia;
        apply position_eq; lia.
    + assert (He0 : epochs_trained st = 0) by lia.
      assert (Hp : 0 / gradient_accumulation_steps a = 0)
        by (apply Z.div_0_l; lia).
      eapply flow_sat_weaken; [| |apply (IH st1); lia]; [|auto].
      intros st' H'. cbv beta in H'. rewrite H'. rewrite Hg, Hs, He1, He0.
      fold p. rewrite Hp. simpl length. rewrite Nat2Z.inj_succ.
      destruct (Z.leb_spec (Z.of_nat (length l)) 0) as [Hle|Hgt];
        destruct (Z.leb_spec (Z.succ (Z.of_nat (length l))) 0); try lia.
      * assert (Hm : Z.of_nat (length l) = 0) by lia. rewrite Hm.
        apply position_eq; lia.
      * apply position_eq; lia.
Qed.

End StepCount.

(** ** The step read off a checkpoint name *)

Lemma split_parts_without_separator sep s w :
  In w (split sep s) -> contains sep w = false.
Proof.
  revert w. induction s as [|c s IH]; intros w Hw; simpl in Hw.
  - destruct Hw as [<-|[]]. reflexivity.
  - destruct (Ascii.eqb c sep) eqn:Hc.
    + destruct Hw as [<-|Hw]; [reflexivity | apply IH, Hw].
    + destruct (split sep s) as [|w0 ws] eqn:Es.
      * destruct Hw as [<-|[]]. simpl. rewrite Hc. reflexivity.
      * destruct Hw as [<-|Hw].
        -- simpl. rewrite Hc. apply IH. left. reflexivity.
        -- apply IH. right. exact Hw.
Qed.

Lemma last_part_In_or_empty (l : list string) :
  In (last_part l) l \/ last_part l = EmptyString.
Proof.
  unfold last_part. induction l as [|x l IH]; [right; reflexivity|].
  destruct l as [|y l]; [left; left; reflexivity|].
  destruct IH as [IH|IH]; [left; right; exact IH | right; exact IH].
Qed.

Lemma checkpoint_suffix_has_no_dash name :
  contains "-"%char (checkpoint_suffix name) = false.
Proof.
  unfold checkpoint_suffix.
  set (parts := split "-"%char (last_part (split "/"%char name))).
  assert (Hparts : forall w, In w parts -> contains "-"%char w = false)
    by (intros w; apply split_parts_without_separator).
  destruct (2 <? length parts)%nat.
  - destruct (nth_in_or_default 1 parts EmptyString) as [H| ->];
      [apply Hparts, H | reflexivity].
  - destruct (last_part_In_or_empty parts) as [H| ->];
      [apply Hparts, H | reflexivity].
Qed.

Lemma lstrip_contains c s :
  contains c s = false -> contains c (lstrip s) = false.
Proof.
  induction s as [|c' s IH]; simpl; [reflexivity|].
  intros H. destruct (is_space c'); [|exact H].
  apply orb_false_iff in H. apply IH. tauto.
Qed.

Lemma rstrip_contains c s :
  contains c s = false -> contains c (rstrip s) = false.
Proof.
  induction s as [|c' s IH]; simpl; [reflexivity|].
  intros H. apply orb_false_iff in H. destruct H as [Hc Hs].
  specialize (IH Hs). destruct (rstrip s) as [|c'' r].
  - destruct (is_space c'); simpl; [reflexivity|]. rewrite Hc. reflexivity.
  - simpl in *. rewrite Hc. exact IH.
Qed.

Lemma digit_of_nonneg c d : digit_of c = Some d -> 0 <= d.
Proof.
  unfold digit_of. destruct (Nat.leb 48 (nat_of_ascii c)) eqn:E; simpl;
    [|discriminate].
  destruct (Nat.leb (nat_of_ascii c) 57); [|discriminate].
  intros [= <-]. apply Nat.leb_le in E. lia.
Qed.

Lemma digits_value_nonneg s :
  forall prev acc v,
    0 <= acc -> digits_value prev acc s = Some v -> 0 <= v.
Proof.
  induction s as [|c s IH]; intros prev acc v Hacc H; simpl in H.
  - destruct prev; try discriminate. injection H as <-. exact Hacc.
  - destruct (digit_of c) as [d|] eqn:Hd.
    + eapply IH; [|exact H]. pose proof (digit_of_nonneg c d Hd). lia.
    + destruct (Ascii.eqb c "_"); [|discriminate].
      destruct prev; try discriminate. eapply IH; [|exact H]. exact Hacc.
Qed.

Lemma py_int_without_dash_nonneg s n :
  contains "-"%char s = false -> py_int s = Ok n -> 0 <= n.
Proof.
  intros Hs. unfold py_int, strip.
  pose proof (rstrip_contains _ _ (lstrip_contains _ _ Hs)) as Hstrip.
  destruct (rstrip (lstrip s)) as [|c s'].
  - simpl. discriminate.
  - simpl in Hstrip. apply orb_false_iff in Hstrip. destruct Hstrip as [Hc _].
    destruct (Ascii.eqb c "+").
    + simpl. destruct (digits_value AtStart 0 s') as [v|] eqn:E;
        [|discriminate].
      intros [= <-]. pose proof (digits_value_nonneg _ _ _ _ (Z.le_refl 0) E).
      lia.
    + rewrite Hc. simpl fst. simpl snd.
      destruct (digits_value AtStart 0 (String c s')) as [v|] eqn:E;
        [|discriminate].
      intros [= <-]. pose proof (digits_value_nonneg _ _ _ _ (Z.le_refl 0) E).
      lia.
Qed.

Lemma resume_position n_batches path_exists a st st' :
  resume n_batches path_exists a st = Ok st' ->
  st' = st
  \/ exists n,
       0 <= n
       /\ py_int (checkpoint_suffix (model_name a)) = Ok n
       /\ n_batches / gradient_accumulation_steps a <> 0
       /\ position st'
          = (n, n mod (n_batches / gradient_accumulation_steps a),
             n / (n_batches / gradient_accumulation_steps a)).
Proof.
  unfold resume. destruct (_ && _); [|intros [= <-]; left; reflexivity].
  destruct (py_int _) as [n|e] eqn:E.
  - unfold rbind, py_floordiv, py_mod.
    destruct (gradient_accumulation_steps a =? 0); [discriminate|].
    destruct (Z.eqb_spec (n_batches / gradient_accumulation_steps a) 0);
      [discriminate|].
    intros [= <-]. right. exists n.
    split; [|split; [reflexivity | split; [assumption | reflexivity]]].
    apply (py_int_without_dash_nonneg _ _ (checkpoint_suffix_has_no_dash _) E).
  - destruct e; try discriminate. intros [= <-]. left. reflexivity.
Qed.

(** X1. The step that [train] resumes from is never negative: the part of
    the name that is read holds no dash, so [int] cannot read a sign. *)
Theorem resumed_step_is_not_negative n_batches path_exists kwargs a st :
  resume n_batches path_exists a (initial_state kwargs a) = Ok st ->
  0 <= global_step st
  /\ (0 < n_batches / gradient_accumulation_steps a ->
      0 <= epochs_trained st
      /\ 0 <= steps_trained_in_current_epoch st
         < n_batches / gradient_accumulation_steps a
      /\ global_step st
         = epochs_trained st * (n_batches / gradient_accumulation_steps a)
           + steps_trained_in_current_epoch st).
Proof.
  intros H. apply resume_position in H.
  destruct H as [->|(n & Hn & _ & Hp & Hpos)].
  - simpl. split; [lia|]. intros Hp. repeat split; lia.
  - injection Hpos as -> -> ->. split; [exact Hn|]. intros Hp'.
    pose proof (Z.mod_pos_bound n _ Hp').
    pose proof (Z.div_mod n _ Hp).
    split; [apply Z.div_pos; lia|]. split; [lia|]. lia.
Qed.

Lemma resumed_step_is_not_negative_witness :
  0 <= global_step
         (set_steps_trained_in_current_epoch 0
            (set_epochs_trained 20
               (set_global_step 2000
                  (initial_state []
                     (example_resume_args
                        "outputs/checkpoint-2000-epoch-1" 1))))).
Proof.
  apply (resumed_step_is_not_negative 100 (fun _ => true) []
           (example_resume_args "outputs/checkpoint-2000-epoch-1" 1)).
  vm_compute. reflexivity.
Defined.

Section ResumedRun.

Variable batch_loss : Z -> Z -> Q.
Variable eval_model : nat -> list (string * Q).
Variable n_batches : Z.
Variable path_exists : string -> bool.
Variable kwargs : list string.
Variable a : TrainArgs.

(** X2. Where a run ends that is not stopped early. Write [epochs] for
    the number of epochs that the loop runs, [int(num_train_epochs)] cut
    at zero, and [p] for the optimizer steps an epoch. A run resumed after
    [e] whole epochs and [k] further steps trains nothing when [epochs] is
    no more than [e], and otherwise ends at
    [epochs * p + (k - k // accumulation_steps)]: it skips [k] batches,
    not [k] steps' worth of batches. A cold start ([e = k = 0]) ends at
    [epochs * p], and so does every resumed run with one accumulation
    step. *)
Theorem resumed_run_step_count st :
  0 < gradient_accumulation_steps a ->
  0 < n_batches ->
  resume n_batches path_exists a (initial_state kwargs a) = Ok st ->
  flow_sat
    (fun st' =>
       global_step st'
       = if Z.max 0 (num_train_epochs a) <=? epochs_trained st
         then global_step st
         else Z.max 0 (num_train_epochs a)
              * (n_batches / gradient_accumulation_steps a)
              + (steps_trained_in_current_epoch st
                 - steps_trained_in_current_epoch st
                   / gradient_accumulation_steps a))
    (fun _ _ => True)
    (train_loop batch_loss eval_model n_batches a st)
  /\ (gradient_accumulation_steps a = 1 ->
      epochs_trained st < num_train_epochs a ->
      flow_sat
        (fun st' => global_step st' = num_train_epochs a * n_batches)
        (fun _ _ => True)
        (train_loop batch_loss eval_model n_batches a st)).
Proof.
  intros Hg Hn' Hres.
  assert (Hn : 0 <= n_batches) by lia.
  set (p := n_batches / gradient_accumulation_steps a).
  assert (Hp : 0 <= p <= n_batches).
  { subst p. pose proof (Z.div_mod n_batches (gradient_accumulation_steps a)
                  ltac:(lia)) as H1.
    pose proof (Z.mod_pos_bound n_batches _ Hg) as H2. split; [|nia].
    apply Z.div_pos; lia. }
  assert (Hst : 0 <= epochs_trained st
                /\ 0 <= steps_trained_in_current_epoch st <= n_batches
                /\ global_step st
                   = epochs_trained st * p
                     + steps_trained_in_current_epoch st).
  { apply resume_position in Hres.
    destruct Hres as [->|(n & Hn0 & _ & Hp0 & Hpos)]; [simpl; lia|].
    fold p in Hp0, Hpos. injection Hpos as -> -> ->.
    pose proof (Z.mod_pos_bound n p ltac:(lia)).
    pose proof (Z.div_mod n p Hp0).
    split; [apply Z.div_pos; lia|]. lia. }
  destruct Hst as (He & Hk & Hgs).
  assert (Hmain :
    flow_sat
      (fun st' =>
         global_step st'
         = if Z.max 0 (num_train_epochs a) <=? epochs_trained st
           then global_step st
           else Z.max 0 (num_train_epochs a) * p
                + (steps_trained_in_current_epoch st
                   - steps_trained_in_current_epoch st
                     / gradient_accumulation_steps a))
      (fun _ _ => True)
      (train_loop batch_loss eval_model n_batches a st)).
  { unfold train_loop.
    eapply flow_sat_weaken;
      [| |apply (for_each_epochs_position batch_loss eval_model n_batches a
                   Hg Hn (py_range (num_train_epochs a)) st Hk He)];
      [|auto].
    intros st' H'. cbv beta in H'. fold p in H'.
    assert (Hlen : Z.of_nat (length (py_range (num_train_epochs a)))
                   = Z.max 0 (num_train_epochs a)).
    { unfold py_range. rewrite length_map, length_seq. lia. }
    rewrite Hlen in H'.
    destruct (Z.max 0 (num_train_epochs a) <=? epochs_trained st);
      injection H' as -> _ _; [reflexivity|]. rewrite Hgs. lia. }
  split; [exact Hmain|].
  intros Hg1 Hlt. eapply flow_sat_weaken; [| |exact Hmain]; [|auto].
  intros st' ->.
  destruct (Z.leb_spec (Z.max 0 (num_train_epochs a)) (epochs_trained st));
    [lia|].
  subst p. rewrite Hg1, !Z.div_1_r. lia.
Qed.

End ResumedRun.

Lemma resumed_run_step_count_witness :
  flow_sat
    (fun st' => global_step st' = 30 * 100)
    (fun _ _ => True)
    (train_loop (fun _ _ => 1%Q) (fun _ => []) 100
       (example_resume_args "outputs/checkpoint-2000-epoch-1" 1)
       (set_steps_trained_in_current_epoch 0
          (set_epochs_trained 20
             (set_global_step 2000
                (initial_state []
                   (example_resume_args
                      "outputs/checkpoint-2000-epoch-1" 1)))))).
Proof.
  apply (proj2 (resumed_run_step_count (fun _ _ => 1%Q) (fun _ => []) 100
                  (fun _ => true) []
                  (example_resume_args "outputs/checkpoint-2000-epoch-1" 1)
                  _ ltac:(reflexivity) ltac:(lia)
                  ltac:(vm_compute; reflexivity))).
  - reflexivity.
  - simpl. lia.
Defined.

(** ** Runs without evaluation *)

Section WithoutEvaluation.

Variable batch_loss : Z -> Z -> Q.
Variable eval_model : nat -> list (string * Q).
Variable n_batches : Z.
Variable path_exists : string -> bool.
Variable kwargs : list string.
Variable a : TrainArgs.

Hypothesis no_evaluation : evaluate_during_training a = false.
Hypothesis gas_not_zero : gradient_accumulation_steps a <> 0.

Lemma train_batch_quiet v current_epoch step st :
  evaluation_view st = v ->
  flow_next (fun st' => evaluation_view st' = v)
    (train_batch batch_loss eval_model a current_epoch step st).
Proof.
  intros Hv. unfold train_batch.
  destruct (0 <? steps_trained_in_current_epoch st); [exact Hv|].
  unfold py_mod.
  destruct (Z.eqb_spec (gradient_accumulation_steps a) 0); [contradiction|].
  destruct (_ mod _ =? 0); [|exact Hv].
  unfold optimizer_update. rewrite no_evaluation. simpl andb. cbv iota.
  match goal with |- context [log_metrics a ?s] =>
    destruct (log_metrics_frame a s) as [l ->] end.
  match goal with |- context [save_checkpoint a ?s] =>
    destruct (save_checkpoint_frame a s) as [l' ->] end.
  exact Hv.
Qed.

Lemma train_epoch_quiet v current_epoch st :
  evaluation_view st = v ->
  flow_next (fun st' => evaluation_view st' = v)
    (train_epoch batch_loss eval_model n_batches a current_epoch st).
Proof.
  intros Hv. unfold train_epoch.
  destruct (0 <? epochs_trained st); [exact Hv|].
  apply fbind_next with (I := fun st' => evaluation_view st' = v).
  - apply for_each_next; [|exact Hv].
    intros step st' _. apply train_batch_quiet.
  - intros st' Hv'. rewrite no_evaluation.
    destruct (save_model_every_epoch a); exact Hv'.
Qed.

Lemma train_loop_quiet st :
  flow_next (fun st' => evaluation_view st' = evaluation_view st)
    (train_loop batch_loss eval_model n_batches a st).
Proof.
  unfold train_loop. apply for_each_next; [|reflexivity].
  intros current_epoch st' _. apply train_epoch_quiet.
Qed.

(** X3. With [evaluate_during_training] off and accumulation steps that
    are not zero, a run goes through all its epochs: it does not return
    early or raise inside the loop, calls no evaluation, and leaves the
    best value, the counter and the progress table alone. From a cold
    start with [p] optimizer steps an epoch it returns the global step
    [epochs * p], where [epochs] is [int(num_train_epochs)] cut at zero,
    or raises [ZeroDivisionError] when that is zero. *)
Theorem run_without_evaluation_completes :
  (forall st,
     exists st',
       train_loop batch_loss eval_model n_batches a st = Next st'
       /\ evaluation_view st' = evaluation_view st)
  /\ (0 < gradient_accumulation_steps a ->
      0 < n_batches ->
      path_exists (model_name a) = false ->
      let steps :=
        Z.max 0 (num_train_epochs a)
        * (n_batches / gradient_accumulation_steps a) in
      train_result batch_loss eval_model n_batches path_exists kwargs a
      = if steps =? 0 then Raise ZeroDivisionError
        else match
               train_loop batch_loss eval_model n_batches a
                 (initial_state kwargs a)
             with
             | Next st' => Ok (steps, (tr_loss st' / inject_Z steps)%Q)
             | _ => Raise TypeError
             end).
Proof.
  assert (Hloop : forall st,
             exists st',
               train_loop batch_loss eval_model n_batches a st = Next st'
               /\ evaluation_view st' = evaluation_view st).
  { intros st. pose proof (train_loop_quiet st) as H.
    destruct (train_loop _ _ _ _ st) as [st'| |]; simpl in H;
      [|contradiction..]. eauto. }
  split; [exact Hloop|].
  intros Hg Hn' Hcold steps.
  assert (Hn : 0 <= n_batches) by lia.
  unfold train_result, train_run, resume. rewrite Hcold, andb_false_r.
  pose proof (for_each_epochs_position batch_loss eval_model n_batches a
                Hg Hn (py_range (num_train_epochs a))
                (initial_state kwargs a)) as Hpos.
  fold (train_loop batch_loss eval_model n_batches a (initial_state kwargs a))
    in Hpos.
  destruct (Hloop (initial_state kwargs a)) as (st' & E & _).
  rewrite E in Hpos |- *. simpl in Hpos.
  specialize (Hpos ltac:(lia) ltac:(lia)).
  assert (Hgs : global_step st' = steps).
  { assert (Hlen : Z.of_nat (length (py_range (num_train_epochs a)))
                   = Z.max 0 (num_train_epochs a)).
    { unfold py_range. rewrite length_map, length_seq. lia. }
    rewrite Hlen in Hpos. rewrite Z.div_0_l in Hpos by lia.
    subst steps.
    destruct (Z.leb_spec (Z.max 0 (num_train_epochs a)) 0);
      injection Hpos as -> _ _; nia. }
  simpl fbind. unfold return_mean_loss. rewrite Hgs.
  destruct (steps =? 0); reflexivity.
Qed.

End WithoutEvaluation.

Lemma run_without_evaluation_completes_witness :
  train_result (fun _ _ => 1%Q) (fun _ => []) 5 (fun _ => false) []
    (example_accumulating_args 2)
  = Ok (2, 80 # 64).
Proof.
  rewrite (proj2 (run_without_evaluation_completes (fun _ _ => 1%Q)
                    (fun _ => []) 5 (fun _ => false) []
                    (example_accumulating_args 2) eq_refl
                    ltac:(discriminate))
             ltac:(reflexivity) ltac:(lia) eq_refl).
  vm_compute. reflexivity.
Defined.

(** ** Scheduled and actual optimizer steps *)

Lemma get_number_lookup (d : gmap string value) key n :
  get_number d key = Ok n <-> exists v, d !! key = Some v /\ as_number v = Ok n.
Proof.
  unfold get_number, get_item, rbind. destruct (d !! key) as [v|].
  - split; [eauto|]. intros (v' & [= <-] & H). exact H.
  - split; [discriminate|]. intros (v' & H & _). discriminate.
Qed.

(** What a prologue that gets to its end has computed. *)
Lemma train_prologue_Ok F n_batches (d d' : gmap string value) t_total :
  train_prologue F n_batches d = (d', Ok t_total) ->
  exists max_steps gas per_epoch,
    get_number d "max_steps" = Ok max_steps
    /\ get_number d "gradient_accumulation_steps" = Ok gas
    /\ number_floordiv F (NInt n_batches) gas = Ok per_epoch
    /\ if number_positive max_steps
       then exists q,
              number_floordiv F max_steps per_epoch = Ok q
              /\ t_total = PNumber max_steps
              /\ d' !! "num_train_epochs"
                 = Some (number_value (number_succ F q))
       else exists epochs,
              d !! "num_train_epochs" = Some epochs
              /\ number_times F per_epoch epochs = Ok t_total
              /\ d' !! "num_train_epochs" = Some epochs.
Proof.
  unfold train_prologue.
  destruct (get_number d "max_steps") as [max_steps|] eqn:Hmax;
    [|discriminate].
  destruct (get_number d "gradient_accumulation_steps") as [gas|] eqn:Hgas;
    [|destruct (number_positive max_steps); discriminate].
  cbn [rbind].
  destruct (number_floordiv F (NInt n_batches) gas) as [per_epoch|] eqn:Hper;
    [|destruct (number_positive max_steps); discriminate].
  cbn [rbind]. intros H.
  exists max_steps, gas, per_epoch.
  split; [reflexivity|]. split; [reflexivity|]. split; [exact Hper|].
  destruct (number_positive max_steps).
  - destruct (number_floordiv F max_steps per_epoch) as [q|] eqn:Hq;
      [|discriminate].
    cbn [rbind] in H. exists q. split; [reflexivity|].
    destruct (rbind _ _); [|discriminate]. injection H as <- <-.
    split; [reflexivity|].
    rewrite lookup_insert_ne by discriminate. apply lookup_insert_eq.
  - unfold get_item at 1 in H.
    destruct (d !! "num_train_epochs") as [epochs|] eqn:He; [|discriminate].
    cbn [rbind] in H.
    destruct (number_times F per_epoch epochs) as [t|] eqn:Ht;
      [|discriminate].
    destruct (rbind _ _); [|discriminate]. injection H as <- <-.
    exists epochs. split; [reflexivity|]. split; [exact Ht|].
    rewrite lookup_insert_ne by discriminate. exact He.
Qed.

Section ScheduledSteps.

Variable F : FloatOps.
Variable batch_loss : Z -> Z -> Q.
Variable eval_model : nat -> list (string * Q).
Variable n_batches : Z.
Variable path_exists : string -> bool.
Variable kwargs : list string.

Lemma train_result_steps a gs mean :
  0 <= n_batches ->
  path_exists (model_name a) = false ->
  use_early_stopping a = false ->
  0 < gradient_accumulation_steps a ->
  train_result batch_loss eval_model n_batches path_exists kwargs a
  = Ok (gs, mean) ->
  gs = Z.max 0 (num_train_epochs a)
       * (n_batches / gradient_accumulation_steps a).
Proof.
  intros batches_nonnegative Hcold Hstop Hg.
  unfold train_result, train_run, resume.
  rewrite Hcold, andb_false_r.
  pose proof (for_each_epochs_position batch_loss eval_model n_batches a
                Hg batches_nonnegative (py_range (num_train_epochs a))
                (initial_state kwargs a)) as Hpos.
  pose proof (train_loop_exit batch_loss eval_model n_batches a
                (initial_state kwargs a)) as Hexit.
  unfold train_loop in *.
  destruct (for_each _ _ _) as [st'|st' r|e]; simpl in *.
  - specialize (Hpos ltac:(lia) ltac:(lia)).
    assert (Hlen : Z.of_nat (length (py_range (num_train_epochs a)))
                   = Z.max 0 (num_train_epochs a)).
    { unfold py_range. rewrite length_map, length_seq. lia. }
    rewrite Hlen in Hpos. rewrite Z.div_0_l in Hpos by lia.
    unfold return_mean_loss. destruct (global_step st' =? 0); [discriminate|].
    intros [= <- _].
    destruct (Z.leb_spec (Z.max 0 (num_train_epochs a)) 0);
      injection Hpos as -> _ _; nia.
  - destruct Hexit as [Hs _]. congruence.
  - discriminate.
Qed.

(** X4. The steps the scheduler is built for and the steps a run makes.
    Take a prologue that gets to its end with total [t_total], an int
    above zero for [gradient_accumulation_steps], and a loop that reads
    that entry and, at line 345, [int(args["num_train_epochs"])]; let the
    loop start cold, without early stopping, and return
    [(global_step, loss)], and write [p] for the number of batches
    floor-divided by the accumulation steps. Then [global_step] is
    [int(num_train_epochs) * p] (no step for a negative number of
    epochs). When [max_steps] is not above zero the prologue leaves
    [num_train_epochs] alone; if that is an int that is not negative,
    [global_step] is [t_total]; if it is a float, [t_total] is the float
    product of [p] and [num_train_epochs], whereas the loop drops the
    fraction of an epoch. When [max_steps] is an int above zero,
    [t_total] is [max_steps], but the loop does not stop there and
    [global_step] is [(max_steps // p + 1) * p], which exceeds
    [max_steps]. *)
Theorem train_steps_against_schedule d d' t_total a gas epochs gs mean :
  0 < n_batches ->
  train_prologue F n_batches d = (d', Ok t_total) ->
  get_number d "gradient_accumulation_steps" = Ok (NInt gas) ->
  0 < gas ->
  get_number d' "num_train_epochs" = Ok epochs ->
  gradient_accumulation_steps a = gas ->
  num_train_epochs a = number_int epochs ->
  use_early_stopping a = false ->
  path_exists (model_name a) = false ->
  train_result batch_loss eval_model n_batches path_exists kwargs a
  = Ok (gs, mean) ->
  gs = Z.max 0 (number_int epochs) * (n_batches / gas)
  /\ (forall max_steps,
        get_number d "max_steps" = Ok max_steps ->
        number_positive max_steps = false ->
        d' !! "num_train_epochs" = d !! "num_train_epochs"
        /\ (forall e,
              epochs = NInt e -> 0 <= e -> t_total = PNumber (NInt gs))
        /\ (forall q,
              epochs = NFloat q ->
              t_total
              = PNumber
                  (NFloat
                     (float_mul F (float_of_int F (n_batches / gas)) q))))
  /\ (forall max_steps,
        get_number d "max_steps" = Ok (NInt max_steps) ->
        0 < max_steps ->
        t_total = PNumber (NInt max_steps)
        /\ gs = (max_steps / (n_batches / gas) + 1) * (n_batches / gas)
        /\ max_steps < gs).
Proof.
  intros Hn Hpro Hgas Hg Hepochs Hga Hnte Hstop Hcold Htrain.
  pose proof (train_result_steps a gs mean ltac:(lia) Hcold Hstop
                ltac:(rewrite Hga; exact Hg) Htrain) as Hsteps.
  rewrite Hga, Hnte in Hsteps.
  destruct (train_prologue_Ok F n_batches d d' t_total Hpro)
    as (ms & g & per_epoch & Hms & Hg' & Hper & Hcase).
  rewrite Hgas in Hg'. injection Hg' as <-.
  set (p := n_batches / gas) in *.
  assert (Hp : 0 <= p) by (apply Z.div_pos; lia).
  assert (Hper' : per_epoch = NInt p).
  { unfold number_floordiv, py_floordiv, rbind in Hper.
    destruct (Z.eqb_spec gas 0); [lia|]. injection Hper as <-. reflexivity. }
  subst per_epoch.
  apply get_number_lookup in Hepochs. destruct Hepochs as (v & Hv & Hnum).
  split; [exact Hsteps|]. split.
  - intros max_steps Hmax Hpos. rewrite Hms in Hmax. injection Hmax as <-.
    rewrite Hpos in Hcase. destruct Hcase as (v' & Hd & Ht & Hd').
    rewrite Hd' in Hv. injection Hv as ->.
    split; [congruence|]. split.
    + intros e -> He. destruct v; try discriminate;
        injection Hnum as Hnum; cbn in Ht; injection Ht as <-;
        rewrite Hsteps; cbn [number_int number_mul]; rewrite <- Hnum;
        do 2 f_equal; lia.
    + intros q ->. destruct v; try discriminate.
      injection Hnum as ->. cbn in Ht. injection Ht as <-. reflexivity.
  - intros max_steps Hmax Hpos. rewrite Hms in Hmax. injection Hmax as ->.
    assert (Hpos' : number_positive (NInt max_steps) = true)
      by (apply Z.ltb_lt; exact Hpos).
    rewrite Hpos' in Hcase. destruct Hcase as (q & Hq & -> & Hd').
    split; [reflexivity|].
    unfold number_floordiv, py_floordiv, rbind in Hq.
    destruct (Z.eqb_spec p 0) as [Hp0|Hp0]; [discriminate|].
    injection Hq as <-. rewrite Hd' in Hv. injection Hv as <-.
    cbn in Hnum. injection Hnum as <-. cbn [number_int] in Hsteps.
    pose proof (Z.div_mod max_steps p Hp0) as Hdm.
    pose proof (Z.mod_pos_bound max_steps p ltac:(lia)) as Hmod.
    assert (0 <= max_steps / p) by (apply Z.div_pos; lia).
    rewrite Hsteps. split; nia.
Qed.

End ScheduledSteps.

Lemma train_steps_against_schedule_witness :
  (exists d',
     train_prologue exact_floats 4 (example_train_dict 10 0)
     = (d', Ok (PNumber (NInt 10)))
     /\ d' !! "num_train_epochs" = Some (VInt 3)
     /\ train_result (fun _ _ => 1%Q) (fun _ => []) 4 (fun _ => false) []
          (with_num_train_epochs 3 (example_accumulating_args 1))
        = Ok (12, 12 # 12)
     /\ 12 = (10 / (4 / 1) + 1) * (4 / 1)
     /\ 10 < 12)
  /\ (exists d',
        train_prologue exact_floats 4
          (<["num_train_epochs" := VFloat (3 # 2)]>
             (example_train_dict (-1) 0))
        = (d', Ok (PNumber (NFloat (12 # 2))))
        /\ train_result (fun _ _ => 1%Q) (fun _ => []) 4 (fun _ => false) []
             (with_num_train_epochs 1 (example_accumulating_args 1))
           = Ok (4, 4 # 4)
        /\ 4 = Z.max 0 (number_int (NFloat (3 # 2))) * (4 / 1)).
Proof.
  split.
  - destruct (train_prologue exact_floats 4 (example_train_dict 10 0))
      as [d' r] eqn:E.
    assert (Hr : r = Ok (PNumber (NInt 10)))
      by (change r with (snd (d', r)); rewrite <- E; vm_compute; reflexivity).
    assert (Hd : d' !! "num_train_epochs" = Some (VInt 3))
      by (change d' with (fst (d', r)); rewrite <- E; vm_compute;
          reflexivity).
    subst r. exists d'. split; [reflexivity|]. split; [exact Hd|].
    assert (Hrun : train_result (fun _ _ => 1%Q) (fun _ => []) 4
                     (fun _ => false) []
                     (with_num_train_epochs 3 (example_accumulating_args 1))
                   = Ok (12, 12 # 12)) by (vm_compute; reflexivity).
    split; [exact Hrun|].
    assert (Hep : get_number d' "num_train_epochs" = Ok (NInt 3))
      by (unfold get_number, get_item; rewrite Hd; reflexivity).
    destruct (train_steps_against_schedule exact_floats (fun _ _ => 1%Q)
                (fun _ => []) 4 (fun _ => false) []
                (example_train_dict 10 0) d' (PNumber (NInt 10))
                (with_num_train_epochs 3 (example_accumulating_args 1))
                1 (NInt 3) 12 (12 # 12)
                ltac:(lia) E ltac:(vm_compute; reflexivity) ltac:(lia) Hep
                eq_refl eq_refl eq_refl eq_refl Hrun)
      as (_ & _ & H).
    destruct (H 10 ltac:(vm_compute; reflexivity) ltac:(lia))
      as (_ & H1 & H2).
    split; assumption.
  - destruct (train_prologue exact_floats 4
                (<["num_train_epochs" := VFloat (3 # 2)]>
                   (example_train_dict (-1) 0)))
      as [d' r] eqn:E.
    assert (Hr : r = Ok (PNumber (NFloat (12 # 2))))
      by (change r with (snd (d', r)); rewrite <- E; vm_compute; reflexivity).
    assert (Hd : d' !! "num_train_epochs" = Some (VFloat (3 # 2)))
      by (change d' with (fst (d', r)); rewrite <- E; vm_compute;
          reflexivity).
    subst r. exists d'. split; [reflexivity|].
    assert (Hrun : train_result (fun _ _ => 1%Q) (fun _ => []) 4
                     (fun _ => false) []
                     (with_num_train_epochs 1 (example_accumulating_args 1))
                   = Ok (4, 4 # 4)) by (vm_compute; reflexivity).
    split; [exact Hrun|].
    assert (Hep : get_number d' "num_train_epochs" = Ok (NFloat (3 # 2)))
      by (unfold get_number, get_item; rewrite Hd; reflexivity).
    destruct (train_steps_against_schedule exact_floats (fun _ _ => 1%Q)
                (fun _ => []) 4 (fun _ => false) []
                (<["num_train_epochs" := VFloat (3 # 2)]>
                   (example_train_dict (-1) 0))
                d' (PNumber (NFloat (12 # 2)))
                (with_num_train_epochs 1 (example_accumulating_args 1))
                1 (NFloat (3 # 2)) 4 (4 # 4)
                ltac:(lia) E ltac:(vm_compute; reflexivity) ltac:(lia) Hep
                eq_refl eq_refl eq_refl eq_refl Hrun)
      as (H & _).
    exact H.
Defined.

(** ** A rule for invariants of the loop *)

Section LoopInvariant.

Variable batch_loss : Z -> Z -> Q.
Variable eval_model : nat -> list (string * Q).
Variable n_batches : Z.
Variable a : TrainArgs.
Variable Inv : TrainState -> Prop.
Variable R : TrainState -> Z * Q -> Prop.

Hypothesis Inv_global_step : forall v st, Inv st -> Inv (set_global_step v st).
Hypothesis Inv_tr_loss : forall v st, Inv st -> Inv (set_tr_loss v st).
Hypothesis Inv_logging_loss : forall v st, Inv st -> Inv (set_logging_loss v st).
Hypothesis Inv_current_loss : forall v st, Inv st -> Inv (set_current_loss v st).
Hypothesis Inv_epoch_number : forall v st, Inv st -> Inv (set_epoch_number v st).
Hypothesis Inv_steps_trained :
  forall v st, Inv st -> Inv (set_steps_trained_in_current_epoch v st).
Hypothesis Inv_epochs_trained :
  forall v st, Inv st -> Inv (set_epochs_trained v st).
Hypothesis Inv_save_checkpoint : forall st, Inv st -> Inv (save_checkpoint a st).
Hypothesis Inv_save_epoch :
  forall st,
    save_model_every_epoch a = true -> Inv st ->
    Inv (save_model (CheckpointEpoch (global_step st) (epoch_number st)) st).
Hypothesis Inv_step_evaluation :
  forall st,
    evaluate_during_training a = true ->
    0 < evaluate_during_training_steps a ->
    global_step st mod evaluate_during_training_steps a = 0 ->
    Inv st ->
    flow_sat Inv R
      (evaluation eval_model (use_early_stopping a)
         (CheckpointStep (global_step st)) a st).
Hypothesis Inv_epoch_evaluation :
  forall st,
    evaluate_during_training a = true ->
    Inv st ->
    flow_sat Inv R
      (evaluation eval_model
         (use_early_stopping a && early_stopping_consider_epochs a)
         (CheckpointEpoch (global_step st) (epoch_number st)) a st).

Lemma optimizer_update_invariant st :
  Inv st -> flow_sat Inv R (optimizer_update eval_model a st).
Proof.
  intros HI. unfold optimizer_update.
  set (st1 := save_checkpoint a _).
  assert (H1 : Inv st1).
  { subst st1. apply Inv_save_checkpoint.
    destruct (log_metrics_frame a
                (set_global_step (global_step st + 1) st)) as [l ->].
    apply Inv_logging_loss, Inv_global_step, HI. }
  destruct (evaluate_during_training a) eqn:He; [|exact H1].
  destruct (Z.ltb_spec 0 (evaluate_during_training_steps a)); [|exact H1].
  destruct (Z.eqb_spec (global_step st1 mod evaluate_during_training_steps a)
              0); [|exact H1].
  simpl. apply Inv_step_evaluation; auto.
Qed.

Lemma train_batch_invariant current_epoch step st :
  Inv st ->
  flow_sat Inv R (train_batch batch_loss eval_model a current_epoch step st).
Proof.
  intros HI. unfold train_batch.
  destruct (0 <? steps_trained_in_current_epoch st);
    [apply Inv_steps_trained, HI|].
  destruct (py_mod _ _) as [r|]; [|exact Logic.I].
  assert (H1 : forall l l',
             Inv (set_tr_loss l (set_current_loss l' st)))
    by (intros; apply Inv_tr_loss, Inv_current_loss, HI).
  destruct (r =? 0); [|apply H1].
  apply optimizer_update_invariant, H1.
Qed.

Lemma train_epoch_invariant current_epoch st :
  Inv st ->
  flow_sat Inv R
    (train_epoch batch_loss eval_model n_batches a current_epoch st).
Proof.
  intros HI. unfold train_epoch.
  destruct (0 <? epochs_trained st); [apply Inv_epochs_trained, HI|].
  apply fbind_sat with (I := Inv).
  - apply for_each_sat; [|exact HI].
    intros step st' _. apply train_batch_invariant.
  - intros st' HI'.
    set (st1 := set_epoch_number _ st').
    assert (H1 : Inv st1) by (apply Inv_epoch_number, HI').
    set (st2 := if save_model_every_epoch a then _ else _).
    assert (H2 : Inv st2).
    { subst st2. destruct (save_model_every_epoch a) eqn:Hs; [|exact H1].
      apply Inv_save_epoch; auto. }
    destruct (evaluate_during_training a) eqn:He; [|exact H2].
    assert (E : CheckpointEpoch (global_step st1) (epoch_number st1)
                = CheckpointEpoch (global_step st2) (epoch_number st2)).
    { subst st2. destruct (save_model_every_epoch a); reflexivity. }
    rewrite E. apply Inv_epoch_evaluation; auto.
Qed.

Lemma train_loop_invariant st :
  Inv st -> flow_sat Inv R (train_loop batch_loss eval_model n_batches a st).
Proof.
  unfold train_loop. apply for_each_sat.
  intros current_epoch st' _. apply train_epoch_invariant.
Qed.

End LoopInvariant.

(** ** The counter of evaluations without improvement *)

Section CounterRange.

Variable batch_loss : Z -> Z -> Q.
Variable eval_model : nat -> list (string * Q).
Variable n_batches : Z.
Variable a : TrainArgs.

Lemma init_best_counter m st :
  early_stopping_counter (init_best a m st) = early_stopping_counter st.
Proof.
  unfold init_best. destruct (truthy _); [reflexivity|].
  apply take_as_best_counter.
Qed.

Lemma early_stopping_check_counter gate m st :
  counter_in_range a st ->
  flow_sat (counter_in_range a)
    (fun st' _ =>
       early_stopping_counter st'
       = Z.max 0 (early_stopping_patience a))
    (early_stopping_check gate a m st).
Proof.
  intros HI. unfold early_stopping_check, compare_with_best.
  assert (H1 : counter_in_range a (init_best a m st))
    by (unfold counter_in_range; rewrite init_best_counter; exact HI).
  destruct (best_eval_metric (init_best a m st)); [|exact I].
  assert (Hn : flow_sat (counter_in_range a)
                 (fun st' _ =>
                    early_stopping_counter st'
                    = Z.max 0 (early_stopping_patience a))
                 (no_improvement gate a (init_best a m st))).
  { unfold no_improvement. destruct gate; [|exact H1].
    unfold counter_in_range in H1.
    destruct (Z.ltb_spec (early_stopping_counter (init_best a m st))
                (early_stopping_patience a)).
    - unfold flow_sat, counter_in_range. simpl. lia.
    - apply return_mean_loss_sat. intros _. lia. }
  destruct (_ && _); destruct (Qltb _ _); try exact Hn;
    unfold flow_sat, counter_in_range; simpl; lia.
Qed.

Lemma evaluation_counter gate dir st :
  counter_in_range a st ->
  flow_sat (counter_in_range a)
    (fun st' _ =>
       early_stopping_counter st'
       = Z.max 0 (early_stopping_patience a))
    (evaluation eval_model gate dir a st).
Proof.
  intros HI. unfold evaluation.
  set (st1 := if save_eval_checkpoints a then _ else _).
  assert (H1 : counter_in_range a st1)
    by (subst st1; destruct (save_eval_checkpoints a); exact HI).
  destruct (record_progress _ st1) as [st2|] eqn:E; [|exact I].
  apply record_progress_frame in E. destruct E as (d & f & ->).
  destruct (dict_get _ _) as [m|]; [|exact I].
  apply early_stopping_check_counter. exact H1.
Qed.

(** X5. The counter of evaluations without improvement stays between zero
    and the patience throughout the loop, a negative patience counting as
    zero; when [train] returns from inside the loop the counter is
    exactly at that bound. *)
Theorem early_stopping_counter_bounded st :
  counter_in_range a st ->
  flow_sat (counter_in_range a)
    (fun st' _ =>
       early_stopping_counter st' = Z.max 0 (early_stopping_patience a))
    (train_loop batch_loss eval_model n_batches a st).
Proof.
  apply train_loop_invariant; try (intros; assumption).
  - intros st' HI. unfold save_checkpoint.
    destruct (_ && _); exact HI.
  - intros st' _ _ _. apply evaluation_counter.
  - intros st' _. apply evaluation_counter.
Qed.

End CounterRange.

Lemma early_stopping_counter_bounded_witness :
  counter_in_range (example_stopping_args 1)
    (initial_state [] (example_stopping_args 1))
  /\ flow_sat (counter_in_range (example_stopping_args 1))
       (fun st' _ => early_stopping_counter st' = Z.max 0 1)
       (train_loop (fun _ _ => 1%Q) (fun _ => [("eval_loss", 1%Q)]) 4
          (example_stopping_args 1)
          (initial_state [] (example_stopping_args 1))).
Proof.
  assert (H : counter_in_range (example_stopping_args 1)
                (initial_state [] (example_stopping_args 1)))
    by (unfold counter_in_range; simpl; lia).
  split; [exact H|].
  exact (early_stopping_counter_bounded (fun _ _ => 1%Q)
           (fun _ => [("eval_loss", 1%Q)]) 4 (example_stopping_args 1)
           (initial_state [] (example_stopping_args 1)) H).
Defined.

(** ** The trace of saves *)

Section SavedTrace.

Variable batch_loss : Z -> Z -> Q.
Variable eval_model : nat -> list (string * Q).
Variable n_batches : Z.
Variable path_exists : string -> bool.
Variable kwargs : list string.
Variable a : TrainArgs.

Hypothesis evaluating : evaluate_during_training a = true.

Lemma take_as_best_saves m st :
  saves_allowed a st -> saves_allowed a (take_as_best a m st).
Proof.
  unfold saves_allowed, take_as_best, save_model. intros HI.
  destruct (save_best_model a) eqn:Hb; [|exact HI].
  simpl. constructor; [|exact HI]. simpl. rewrite evaluating, Hb.
  reflexivity.
Qed.

Lemma early_stopping_check_saves gate m st :
  saves_allowed a st ->
  flow_sat (saves_allowed a) (fun st' _ => saves_allowed a st')
    (early_stopping_check gate a m st).
Proof.
  intros HI. unfold early_stopping_check, compare_with_best.
  assert (H1 : saves_allowed a (init_best a m st)).
  { unfold init_best. destruct (truthy _); [exact HI|].
    apply take_as_best_saves, HI. }
  destruct (best_eval_metric (init_best a m st)); [|exact I].
  assert (Hn : flow_sat (saves_allowed a) (fun st' _ => saves_allowed a st')
                 (no_improvement gate a (init_best a m st))).
  { unfold no_improvement. destruct gate; [|exact H1].
    destruct (_ <? _); [exact H1|].
    apply return_mean_loss_sat. intros _. exact H1. }
  assert (Ht : saves_allowed a
                 (set_early_stopping_counter 0
                    (take_as_best a m (init_best a m st))))
    by (apply (take_as_best_saves m) in H1; exact H1).
  destruct (_ && _); destruct (Qltb _ _); try exact Hn; exact Ht.
Qed.

Lemma evaluation_saves gate dir st :
  (save_eval_checkpoints a = true -> save_allowed a dir = true) ->
  saves_allowed a st ->
  flow_sat (saves_allowed a) (fun st' _ => saves_allowed a st')
    (evaluation eval_model gate dir a st).
Proof.
  intros Hdir HI. unfold evaluation.
  set (st1 := if save_eval_checkpoints a then _ else _).
  assert (H1 : saves_allowed a st1).
  { subst st1. destruct (save_eval_checkpoints a); [|exact HI].
    unfold saves_allowed, save_model. simpl. constructor; auto. }
  destruct (record_progress _ st1) as [st2|] eqn:E; [|exact I].
  apply record_progress_frame in E. destruct E as (d & f & ->).
  destruct (dict_get _ _) as [m|]; [|exact I].
  apply early_stopping_check_saves. exact H1.
Qed.

End SavedTrace.

Section SavedTraceRun.

Variable batch_loss : Z -> Z -> Q.
Variable eval_model : nat -> list (string * Q).
Variable n_batches : Z.
Variable path_exists : string -> bool.
Variable kwargs : list string.
Variable a : TrainArgs.

Lemma train_loop_saves st :
  saves_allowed a st ->
  flow_sat (saves_allowed a) (fun st' _ => saves_allowed a st')
    (train_loop batch_loss eval_model n_batches a st).
Proof.
  apply train_loop_invariant; try (intros; assumption).
  - intros st' HI. unfold save_checkpoint, save_model.
    destruct (_ && _) eqn:Hc; [|exact HI].
    unfold saves_allowed. simpl. constructor; [|exact HI].
    simpl. rewrite Hc. reflexivity.
  - intros st' Hs HI. unfold saves_allowed, save_model. simpl.
    constructor; [|exact HI]. simpl. rewrite Hs. reflexivity.
  - intros st' He Hpos Hmod. apply evaluation_saves; [exact He|].
    intros Hs. simpl. rewrite He, Hs, Hmod.
    destruct (Z.ltb_spec 0 (evaluate_during_training_steps a)); [|lia].
    simpl. apply orb_true_r.
  - intros st' He. apply evaluation_saves; [exact He|].
    intros Hs. simpl. rewrite He, Hs. apply orb_true_r.
Qed.

Lemma resume_saved st st' :
  resume n_batches path_exists a st = Ok st' -> saved st' = saved st.
Proof.
  unfold resume. destruct (_ && _); [|intros [= <-]; reflexivity].
  destruct (py_int _) as [n|[]]; try discriminate;
    [|intros [= <-]; reflexivity].
  unfold rbind.
  destruct (py_floordiv n_batches _) as [p|]; [|discriminate].
  destruct (py_floordiv n p); [|discriminate].
  destruct (py_mod n p); [|discriminate].
  intros [= <-]. reflexivity.
Qed.

(** X6. [train] saves only where a switch of the configuration asks for
    it. In the state in which [train] returns, the checkpoint of a step
    is in the trace of [_save_model] calls only if the step is a multiple
    of a positive [save_steps], or of a positive
    [evaluate_during_training_steps] with [save_eval_checkpoints]; the
    checkpoint of an epoch only with [save_model_every_epoch] or
    [save_eval_checkpoints]; the best model only with [save_best_model];
    and the last two switches count only with
    [evaluate_during_training]. With all switches off nothing is
    saved. *)
Theorem train_saves_only_where_configured :
  flow_sat (saves_allowed a) (fun st _ => saves_allowed a st)
    (train_run batch_loss eval_model n_batches path_exists kwargs a)
  /\ (save_steps a <= 0 ->
      save_model_every_epoch a = false ->
      evaluate_during_training a = false
      \/ (save_eval_checkpoints a = false /\ save_best_model a = false) ->
      flow_sat (fun st => saved st = []) (fun st _ => saved st = [])
        (train_run batch_loss eval_model n_batches path_exists kwargs a)).
Proof.
  assert (Hrun : flow_sat (saves_allowed a) (fun st _ => saves_allowed a st)
                   (train_run batch_loss eval_model n_batches path_exists
                      kwargs a)).
  { unfold train_run.
    destruct (resume _ _ _ _) as [st|] eqn:E; [|exact I].
    apply resume_saved in E.
    apply fbind_sat with (I := saves_allowed a).
    - apply train_loop_saves. unfold saves_allowed. rewrite E. constructor.
    - intros st' HI. apply return_mean_loss_sat. intros _. exact HI. }
  split; [exact Hrun|].
  intros Hsteps Hepoch Heval.
  assert (Hnone : forall dir, save_allowed a dir = false).
  { intros [step|step epoch|]; simpl; rewrite ?Hepoch.
    - destruct (Z.ltb_spec 0 (save_steps a)); [lia|].
      destruct Heval as [->|[-> _]]; simpl; rewrite ?andb_false_r;
        reflexivity.
    - destruct Heval as [->|[-> _]]; simpl; rewrite ?andb_false_r;
        reflexivity.
    - destruct Heval as [->|[_ ->]]; simpl; rewrite ?andb_false_r;
        reflexivity. }
  assert (Hempty : forall st, saves_allowed a st -> saved st = []).
  { intros st. unfold saves_allowed. destruct (saved st) as [|dir l];
      [reflexivity|].
    intros H. inversion H as [|? ? Hd _]. rewrite Hnone in Hd.
    discriminate. }
  eapply flow_sat_weaken; [| |exact Hrun]; simpl; auto.
Qed.

End SavedTraceRun.

Lemma train_saves_only_where_configured_witness :
  flow_sat (fun st => saved st = []) (fun st _ => saved st = [])
    (train_run (fun _ _ => 1%Q) (fun _ => []) 5 (fun _ => false) []
       (example_accumulating_args 2)).
Proof.
  apply (train_saves_only_where_configured (fun _ _ => 1%Q) (fun _ => []) 5
           (fun _ => false) [] (example_accumulating_args 2));
    simpl; try lia; auto.
Defined.

(** ** When the scores of an evaluation can be recorded *)

(** The table after the cells for [global_step] and [train_loss] are
    added, and the length of every column once the results are added
    too. *)
Lemma record_progress_columns results st n loss :
  NoDup (map fst (training_progress_scores st)) ->
  aligned n (training_progress_scores st) ->
  "global_step" ∈ map fst (training_progress_scores st) ->
  "train_loss" ∈ map fst (training_progress_scores st) ->
  current_loss st = Some loss ->
  NoDup (touched results) ->
  exists d2,
    map fst d2 = map fst (training_progress_scores st)
    /\ record_progress results st
       = rbind (append_results d2 results) (fun d3 =>
         rbind (DataFrame d3) (fun report =>
         Ok (set_progress_file (Some report)
               (set_training_progress_scores d3 st))))
    /\ forall d3,
         append_results d2 results = Ok d3 ->
         map fst d3 = map fst (training_progress_scores st)
         /\ forall key col,
              (key, col) ∈ d3 ->
              key ∈ map fst (training_progress_scores st)
              /\ length col
                 = ((if bool_decide (key ∈ touched results) then 1 else 0)
                    + n)%nat.
Proof.
  intros Hnd Hal Hgs Htl Hloss Htouched.
  set (d := training_progress_scores st) in *.
  unfold touched in Htouched.
  apply NoDup_cons in Htouched. destruct Htouched as [Hgs_new Htouched].
  apply NoDup_cons in Htouched. destruct Htouched as [Htl_new Hres].
  apply not_elem_of_cons in Hgs_new. destruct Hgs_new as [Hgt Hgs_new].
  unfold record_progress. fold d.
  destruct (proj1 (dict_append_outcome d "global_step"
                     (CInt (global_step st))) Hgs) as [d1 E1].
  rewrite E1, Hloss. simpl rbind.
  pose proof (dict_append_keys _ _ _ _ E1) as K1.
  destruct (proj1 (dict_append_outcome d1 "train_loss" (CFloat loss))
              ltac:(rewrite K1; exact Htl)) as [d2 E2].
  rewrite E2. simpl rbind.
  pose proof (dict_append_keys _ _ _ _ E2) as K2.
  exists d2. split; [congruence|]. split; [reflexivity|].
  intros d3 E3.
  pose proof (append_results_keys _ _ _ E3) as K3. rewrite K2, K1 in K3.
  split; [exact K3|]. intros key col Hin.
  assert (Hkey : key ∈ map fst d).
  { rewrite <- K3. apply list_elem_of_fmap. exists (key, col). auto. }
  split; [exact Hkey|].
  assert (Hget : dict_get d3 key = Ok col)
    by (apply dict_get_In; [rewrite K3; exact Hnd | exact Hin]).
  destruct (append_results_lengths _ _ _ Hres E3 _ _ Hget)
    as (c2 & Hc2 & L2).
  destruct (dict_append_lengths _ _ _ _ E2 _ _ Hc2) as (c1 & Hc1 & L1).
  destruct (dict_append_lengths _ _ _ _ E1 _ _ Hc1) as (c0 & Hc0 & L0).
  assert (length c0 = n).
  { apply dict_get_elem_of in Hc0. unfold aligned in Hal.
    rewrite Forall_forall in Hal. apply (Hal _ Hc0). }
  rewrite L2, L1, L0, H. clear L2 L1 L0. unfold touched.
  destruct (String.eqb_spec key "global_step") as [->|Ng].
  - rewrite (bool_decide_eq_false_2 _ Hgs_new).
    rewrite (bool_decide_eq_true_2 (_ ∈ _ :: _ :: _)) by left.
    simpl. lia.
  - destruct (String.eqb_spec key "train_loss") as [->|Nt].
    + rewrite (bool_decide_eq_false_2 _ Htl_new).
      rewrite (bool_decide_eq_true_2 (_ ∈ _ :: _ :: _))
        by (right; left).
      simpl. lia.
    + destruct (decide (key ∈ map fst results)) as [Hr|Hr].
      * rewrite (bool_decide_eq_true_2 _ Hr).
        rewrite (bool_decide_eq_true_2 (_ ∈ _ :: _ :: _))
          by (right; right; exact Hr).
        simpl. lia.
      * rewrite (bool_decide_eq_false_2 _ Hr).
        rewrite (bool_decide_eq_false_2 (_ ∈ _ :: _ :: _));
          [simpl; lia|].
        intros H'. apply elem_of_cons in H'. destruct H' as [->|H'];
          [contradiction|].
        apply elem_of_cons in H'. destruct H' as [->|H']; contradiction.
Qed.

(** The recording goes through when the keys of the results are the
    columns besides [global_step] and [train_loss]. *)
Lemma record_progress_succeeds results st n loss :
  NoDup (map fst (training_progress_scores st)) ->
  aligned n (training_progress_scores st) ->
  "global_step" ∈ map fst (training_progress_scores st) ->
  "train_loss" ∈ map fst (training_progress_scores st) ->
  current_loss st = Some loss ->
  NoDup (touched results) ->
  (forall key,
     key ∈ map fst (training_progress_scores st)
     <-> key ∈ touched results) ->
  exists st',
    record_progress results st = Ok st'
    /\ aligned (S n) (training_progress_scores st')
    /\ map fst (training_progress_scores st')
       = map fst (training_progress_scores st).
Proof.
  intros Hnd Hal Hgs Htl Hloss Htouched Hsame.
  destruct (record_progress_columns results st n loss Hnd Hal Hgs Htl Hloss
              Htouched) as (d2 & K & -> & Hlen).
  destruct (append_results_outcome d2 results) as [Hok _].
  rewrite K in Hok.
  destruct (Hok ltac:(intros key H; apply Hsame; right; right; exact H))
    as [d3 E3].
  rewrite E3. simpl rbind. destruct (Hlen d3 E3) as [K3 L3].
  assert (Hal3 : aligned (S n) d3).
  { apply Forall_forall. intros [key col] Hin. simpl.
    destruct (L3 _ _ Hin) as [Hkey ->].
    rewrite bool_decide_eq_true_2 by (apply Hsame; exact Hkey).
    reflexivity. }
  rewrite (DataFrame_aligned (S n) d3 Hal3).
  - simpl. eexists. split; [reflexivity|]. simpl. auto.
  - intros ->. simpl in K3. rewrite <- K3 in Hgs. inversion Hgs.
Qed.

(** X7. When the scores of an evaluation during training can be recorded.
    The table has one column per key; an evaluation adds a cell to
    [global_step], to [train_loss] and to the column of every key of the
    results. A key of the results without a column raises [KeyError]; a
    column other than [global_step] and [train_loss] that the results do
    not mention stays short and makes [pd.DataFrame] raise [ValueError];
    when the keys of the results are exactly the other columns, the
    recording goes through and every column has one cell more. *)
Theorem record_progress_needs_matching_keys results st n loss :
  NoDup (map fst (training_progress_scores st)) ->
  aligned n (training_progress_scores st) ->
  "global_step" ∈ map fst (training_progress_scores st) ->
  "train_loss" ∈ map fst (training_progress_scores st) ->
  current_loss st = Some loss ->
  NoDup (touched results) ->
  ((exists key,
       key ∈ map fst results
       /\ key ∉ map fst (training_progress_scores st)) ->
   record_progress results st = Raise KeyError)
  /\ ((forall key,
         key ∈ map fst results ->
         key ∈ map fst (training_progress_scores st)) ->
      (exists key,
          key ∈ map fst (training_progress_scores st)
          /\ key ∉ touched results) ->
      record_progress results st = Raise ValueError)
  /\ ((forall key,
         key ∈ map fst (training_progress_scores st)
         <-> key ∈ touched results) ->
      exists st',
        record_progress results st = Ok st'
        /\ aligned (S n) (training_progress_scores st')
        /\ map fst (training_progress_scores st')
           = map fst (training_progress_scores st)).
Proof.
  intros Hnd Hal Hgs Htl Hloss Htouched.
  destruct (record_progress_columns results st n loss Hnd Hal Hgs Htl Hloss
              Htouched) as (d2 & K & Hrec & Hlen).
  destruct (append_results_outcome d2 results) as [Hok Hko].
  rewrite K in Hok, Hko.
  split; [|split].
  - intros Hmissing. rewrite Hrec, (Hko Hmissing). reflexivity.
  - intros Hall (key & Hkey & Hshort). rewrite Hrec.
    destruct (Hok Hall) as [d3 E3]. rewrite E3. simpl rbind.
    destruct (Hlen d3 E3) as [K3 L3].
    assert (Hcol : forall k, k ∈ map fst d3 -> exists c, (k, c) ∈ d3).
    { intros k Hk. destruct (elem_of_keys_dict_get _ _ Hk) as [c Hc].
      exists c. apply dict_get_elem_of, Hc. }
    destruct (Hcol key ltac:(rewrite K3; exact Hkey)) as [c Hc].
    destruct (Hcol "global_step" ltac:(rewrite K3; exact Hgs)) as [g Hg].
    rewrite (DataFrame_misaligned d3 key c "global_step" g Hc Hg);
      [reflexivity|].
    rewrite (proj2 (L3 _ _ Hc)), (proj2 (L3 _ _ Hg)).
    rewrite (bool_decide_eq_false_2 _ Hshort).
    rewrite bool_decide_eq_true_2 by left. lia.
  - apply (record_progress_succeeds results st n loss); assumption.
Qed.

Lemma record_progress_needs_matching_keys_witness :
  record_progress [("eval_loss", 5%Q)] example_first_evaluation
  = Raise ValueError.
Proof.
  apply (proj1 (proj2 (record_progress_needs_matching_keys
                         [("eval_loss", 5%Q)] example_first_evaluation 0 1%Q
                         ltac:(vm_compute; repeat constructor;
                               intros H; repeat
                                 (apply elem_of_cons in H;
                                  destruct H as [H|H]; [discriminate|]);
                               inversion H)
                         ltac:(vm_compute; repeat constructor)
                         ltac:(vm_compute; left)
                         ltac:(vm_compute; right; right; left)
                         eq_refl
                         ltac:(vm_compute; repeat constructor;
                               intros H; repeat
                                 (apply elem_of_cons in H;
                                  destruct H as [H|H]; [discriminate|]);
                               inversion H)))).
  - intros key H. vm_compute in H. apply elem_of_cons in H.
    destruct H as [->|H]; [|inversion H]. vm_compute. right. left.
  - exists "rouge". split.
    + vm_compute. right. right. right. left.
    + vm_compute. intros H. repeat (apply elem_of_cons in H;
        destruct H as [H|H]; [discriminate|]). inversion H.
Defined.

(** ** Evaluation *)

Lemma dict_get_set {V} (d : list (string * V)) k v key :
  dict_get (dict_set d k v) key
  = if String.eqb k key then Ok v else dict_get d key.
Proof.
  induction d as [|[k' w] d IH]; simpl; [reflexivity|].
  destruct (String.eqb_spec k' k) as [->|Hne]; simpl.
  - destruct (String.eqb k key); reflexivity.
  - destruct (String.eqb_spec k' key) as [->|Hne'].
    + destruct (String.eqb_spec k key); [congruence | reflexivity].
    + exact IH.
Qed.

Lemma dict_get_update {V} (d other : list (string * V)) key :
  NoDup (map fst other) ->
  dict_get (dict_update d other) key
  = match dict_get other key with
    | Ok v => Ok v
    | Raise _ => dict_get d key
    end.
Proof.
  unfold dict_update. revert d.
  induction other as [|[k v] other IH]; intros d Hnd; simpl; [reflexivity|].
  simpl in Hnd. apply NoDup_cons in Hnd. destruct Hnd as [Hk Hnd].
  rewrite (IH _ Hnd), dict_get_set.
  destruct (String.eqb_spec k key) as [->|Hne]; [|reflexivity].
  rewrite (dict_get_missing other key Hk). reflexivity.
Qed.

Lemma fold_left_map_dict_set {A V} (g : A -> V) (l : list (string * A)) d :
  fold_left (fun results mf => dict_set results (fst mf) (g (snd mf))) l d
  = fold_left (fun d kv => dict_set d (fst kv) (snd kv))
      (map (fun mf => (fst mf, g (snd mf))) l) d.
Proof.
  revert d. induction l as [|x l IH]; intros d; simpl; [reflexivity|].
  apply IH.
Qed.

Lemma compute_metrics_values kwargs labels preds :
  NoDup (map fst kwargs) ->
  length labels = length preds ->
  Evaluator.compute_metrics kwargs labels preds
  = Returns (map (fun mf => (fst mf, snd mf labels preds)) kwargs).
Proof.
  intros Hnd Hlen. unfold Evaluator.compute_metrics.
  rewrite Hlen, Nat.eqb_refl. f_equal.
  rewrite (fold_left_map_dict_set (fun f : metric => f labels preds)).
  rewrite fold_dict_set_fresh; [reflexivity|].
  simpl. rewrite map_map. simpl. exact Hnd.
Qed.

Lemma evaluate_count losses :
  forall s c,
    snd (fold_left (fun acc loss => ((fst acc + loss)%Q, snd acc + 1)) losses
           (s, c))
    = c + Z.of_nat (length losses).
Proof.
  induction losses as [|l losses IH]; intros s c;
    cbn [fold_left length fst snd]; [lia|].
  rewrite IH. lia.
Qed.

Lemma evaluate_sum losses :
  forall s c,
    fst (fold_left (fun acc loss => ((fst acc + loss)%Q, snd acc + 1)) losses
           (s, c))
    = fold_left Qplus losses s.
Proof.
  induction losses as [|l losses IH]; intros s c;
    cbn [fold_left fst snd]; [reflexivity|].
  apply IH.
Qed.

Lemma evaluate_returns_mean_loss_aux losses :
  (losses <> [] ->
   exists mean,
     Evaluator.evaluate losses = Ok [("eval_loss", mean)]
     /\ mean
        = (fold_left Qplus losses 0 / inject_Z (Z.of_nat (length losses)))%Q).
Proof.
  intros Hne. unfold Evaluator.evaluate.
  pose proof (evaluate_count losses 0%Q 0) as Hc.
  pose proof (evaluate_sum losses 0%Q 0) as Hs.
  destruct (fold_left _ losses (0%Q, 0)) as [eval_loss nb_eval_steps].
  cbn [fst snd] in Hc, Hs. subst eval_loss nb_eval_steps.
  rewrite Z.add_0_l.
  destruct (Z.eqb_spec (Z.of_nat (length losses)) 0) as [Hz|Hz].
  - exfalso. destruct losses; [congruence|]. simpl in Hz. lia.
  - eexists. split; reflexivity.
Qed.

(** X8. [evaluate] needs a batch. With at least one batch in the
    evaluation data loader it returns exactly one entry, named
    [eval_loss]; without a batch the division by the number of batches
    raises [ZeroDivisionError], and [eval_model] passes the error on with
    [self.results] as it was. *)
Theorem evaluate_needs_a_batch losses :
  (losses <> [] ->
   exists eval_loss,
     Evaluator.evaluate losses = Ok [("eval_loss", eval_loss)])
  /\ Evaluator.evaluate [] = Raise ZeroDivisionError
  /\ forall batch_encode_plus generate decode decoder_pad_token_id pa
            evaluate_generated_text kwargs eval_data self_results,
       Evaluator.eval_model batch_encode_plus generate decode
         decoder_pad_token_id pa evaluate_generated_text kwargs []
         eval_data self_results
       = (self_results, Raises ZeroDivisionError).
Proof.
  split; [|split; reflexivity].
  intros Hne. destruct (evaluate_returns_mean_loss_aux losses Hne)
    as (mean & Hm & _).
  exists mean. exact Hm.
Qed.

Lemma evaluate_needs_a_batch_witness :
  (exists eval_loss,
     Evaluator.evaluate [1%Q; 2%Q; 6%Q] = Ok [("eval_loss", eval_loss)])
  /\ Evaluator.eval_model example_encode example_generate example_decode 0
       (example_predict_args 2) true [("exact", example_metric)] []
       example_eval_data [("rouge", 1 # 3)]
     = ([("rouge", 1 # 3)], Raises ZeroDivisionError).
Proof.
  split.
  - apply (proj1 (evaluate_needs_a_batch [1%Q; 2%Q; 6%Q])). discriminate.
  - apply (proj2 (proj2 (evaluate_needs_a_batch []))).
Defined.

Section EvalModelFacts.

Variable batch_encode_plus : list string -> Z -> list (list Z).
Variable generate : list (list Z) -> GenerateArgs -> list (list Z).
Variable decode : list Z -> bool -> bool -> string.
Variable decoder_pad_token_id : Z.

(** The tokenizer returns one row of ids per text, and generation one
    sequence per row. *)
Hypothesis encode_rows :
  forall batch n, length (batch_encode_plus batch n) = length batch.
Hypothesis generate_rows :
  forall ids p, length (generate ids p) = length ids.

Lemma predict_one_per_input pa to_predict :
  0 < eval_batch_size pa ->
  exists preds,
    predict batch_encode_plus generate decode decoder_pad_token_id pa
      to_predict = Ok preds
    /\ length preds = length to_predict.
Proof.
  intros Hb. unfold predict.
  rewrite (batches_are_chunks pa to_predict Hb). simpl rbind.
  eexists. split; [reflexivity|].
  rewrite length_map, length_concat_map
    by (apply generate_batch_rows; assumption).
  rewrite concat_chunks. simpl drop.
  rewrite take_ge by (apply batch_count_covers; exact Hb). reflexivity.
Qed.

(** X9. What [eval_model] returns. With at least one batch of evaluation
    data and a positive [eval_batch_size], the call returns
    [self.results] itself, after two updates: [eval_loss] is the mean loss
    of [evaluate]; with [evaluate_generated_text] every metric passed as a
    keyword argument is applied to the target texts and to the predictions
    for the input texts, one prediction per row, so that the assertion of
    [compute_metrics] holds; and every other key keeps the value an
    earlier call left in [self.results]. *)
Theorem eval_model_collects_results pa evaluate_generated_text kwargs losses
  eval_data self_results :
  losses <> [] ->
  0 < eval_batch_size pa ->
  NoDup (map fst kwargs) ->
  exists mean preds results,
    Evaluator.evaluate losses = Ok [("eval_loss", mean)]
    /\ predict batch_encode_plus generate decode decoder_pad_token_id pa
         (map input_text eval_data) = Ok preds
    /\ length preds = length eval_data
    /\ Evaluator.eval_model batch_encode_plus generate decode
         decoder_pad_token_id pa evaluate_generated_text kwargs losses
         eval_data self_results
       = (results, Returns results)
    /\ (forall name f,
          evaluate_generated_text = true ->
          (name, f) ∈ kwargs ->
          dict_get results name
          = Ok (f (map target_text eval_data) preds))
    /\ ((evaluate_generated_text = true -> "eval_loss" ∉ map fst kwargs) ->
        dict_get results "eval_loss" = Ok mean)
    /\ (forall key,
          key <> "eval_loss" ->
          (evaluate_generated_text = true -> key ∉ map fst kwargs) ->
          dict_get results key = dict_get self_results key).
Proof.
  intros Hne Hb Hnd.
  destruct (evaluate_returns_mean_loss_aux losses Hne) as (mean & Hm & _).
  destruct (predict_one_per_input pa (map input_text eval_data) Hb)
    as (preds & Hp & Hlen).
  rewrite length_map in Hlen.
  set (scores := map (fun mf : string * metric =>
                        (fst mf, snd mf (map target_text eval_data) preds))
                   kwargs).
  assert (Hscores : map fst scores = map fst kwargs)
    by (subst scores; rewrite map_map; reflexivity).
  exists mean, preds,
    (if evaluate_generated_text
     then dict_update (dict_set self_results "eval_loss" mean) scores
     else dict_set self_results "eval_loss" mean).
  split; [exact Hm|]. split; [exact Hp|]. split; [exact Hlen|].
  split.
  { unfold Evaluator.eval_model. rewrite Hm.
    destruct evaluate_generated_text; [|reflexivity].
    rewrite Hp, compute_metrics_values;
      [reflexivity | exact Hnd | rewrite length_map; auto]. }
  destruct evaluate_generated_text.
  - split; [|split].
    + intros name f _ Hin.
      rewrite dict_get_update by (rewrite Hscores; exact Hnd).
      rewrite (dict_get_In scores name
                 (f (map target_text eval_data) preds));
        [reflexivity | rewrite Hscores; exact Hnd |].
      subst scores. apply list_elem_of_fmap. exists (name, f). auto.
    + intros Hfree.
      rewrite dict_get_update by (rewrite Hscores; exact Hnd).
      rewrite dict_get_missing by (rewrite Hscores; auto).
      rewrite dict_get_set. reflexivity.
    + intros key Hkey Hfree.
      rewrite dict_get_update by (rewrite Hscores; exact Hnd).
      rewrite dict_get_missing by (rewrite Hscores; auto).
      rewrite dict_get_set.
      destruct (String.eqb_spec "eval_loss" key); [congruence | reflexivity].
  - split; [intros name f H; discriminate|]. split.
    + intros _. rewrite dict_get_set. reflexivity.
    + intros key Hkey _. rewrite dict_get_set.
      destruct (String.eqb_spec "eval_loss" key); [congruence | reflexivity].
Qed.

End EvalModelFacts.

Lemma eval_model_collects_results_witness :
  exists results,
    Evaluator.eval_model example_encode example_generate example_decode 0
      (example_predict_args 2) true [("exact", example_metric)]
      [1%Q; 3%Q] example_eval_data [("rouge", 1 # 3)]
    = (results, Returns results)
    /\ dict_get results "exact" = Ok 2%Q
    /\ dict_get results "eval_loss" = Ok (4 # 2)
    /\ dict_get results "rouge" = Ok (1 # 3).
Proof.
  destruct (eval_model_collects_results example_encode example_generate
              example_decode 0
              ltac:(intros; apply length_map)
              ltac:(intros; apply length_map)
              (example_predict_args 2) true [("exact", example_metric)]
              [1%Q; 3%Q] example_eval_data [("rouge", 1 # 3)]
              ltac:(discriminate) ltac:(simpl; lia)
              ltac:(repeat constructor; intros H; inversion H))
    as (mean & preds & results & Hm & Hp & _ & Hr & Hmetric & Hloss & Hold).
  exists results. split; [exact Hr|].
  vm_compute in Hm. injection Hm as <-.
  vm_compute in Hp. injection Hp as <-.
  split; [|split].
  - rewrite (Hmetric "exact" example_metric eq_refl ltac:(left)).
    vm_compute. reflexivity.
  - apply Hloss. intros _ H. apply list_elem_of_singleton in H.
    discriminate.
  - rewrite Hold; [reflexivity | discriminate |].
    intros _ H. apply list_elem_of_singleton in H. discriminate.
Defined.

(** ** The last metrics *)

Lemma get_last_metrics_stuck (o : outcome (list (string * cell))) d :
  (forall acc, o <> Returns acc) ->
  fold_left
    (fun acc mv =>
       match acc with
       | Returns d =>
           match last (snd mv) with
           | Some v => Returns (dict_set d (fst mv) v)
           | None => IndexError
           end
       | _ => acc
       end) d o = o.
Proof.
  intros Ho. induction d as [|kc d IH]; simpl; [reflexivity|].
  destruct o; try exact IH. exfalso. eapply Ho. reflexivity.
Qed.

Lemma last_of_column {A} (col : list A) m x :
  length col = S m -> last col = Some (nth m col x).
Proof.
  intros Hlen. rewrite last_lookup, Hlen. simpl.
  destruct (col !! m) as [y|] eqn:E.
  - f_equal. symmetry. apply nth_lookup_Some with (d := x) in E. exact E.
  - apply lookup_ge_None in E. lia.
Qed.

Lemma get_last_metrics_fold m d :
  aligned (S m) d ->
  forall acc,
    NoDup (map fst acc ++ map fst d) ->
    fold_left
      (fun acc mv =>
         match acc with
         | Returns d =>
             match last (snd mv) with
             | Some v => Returns (dict_set d (fst mv) v)
             | None => IndexError
             end
         | _ => acc
         end) d (Returns acc)
    = Returns (acc ++ combine (map fst d) (row_of d m)).
Proof.
  induction 1 as [|[k col] d Hcol _ IH]; intros acc Hnd; simpl.
  - rewrite app_nil_r. reflexivity.
  - simpl in Hcol, Hnd. rewrite (last_of_column col m (CInt 0) Hcol).
    apply NoDup_app in Hnd. destruct Hnd as (Hacc & Hdis & Hd).
    apply NoDup_cons in Hd. destruct Hd as [Hk Hd].
    rewrite dict_set_fresh by (intros Hin; apply (Hdis k Hin); left).
    rewrite IH.
    + rewrite <- app_assoc. reflexivity.
    + rewrite map_app. simpl. rewrite <- app_assoc. simpl.
      apply NoDup_app. split; [exact Hacc|]. split.
      * intros x Hx. apply Hdis. exact Hx.
      * apply NoDup_cons. split; assumption.
Qed.

(** X10. [_get_last_metrics] reads the last row of the progress file. For
    a table that [pd.DataFrame] accepts, it pairs every column name with
    the cell of that column in the last row of the file written from the
    table; on a table that has columns but no row yet, as
    [_create_training_progress_scores] returns it, [values[-1]] raises
    [IndexError]. *)
Theorem last_metrics_are_the_last_row d report :
  NoDup (map fst d) ->
  DataFrame d = Ok report ->
  (d <> [] -> csv_rows report = [] -> _get_last_metrics d = IndexError)
  /\ (forall rows row,
        csv_rows report = rows ++ [row] ->
        _get_last_metrics d = Returns (combine (csv_header report) row)).
Proof.
  intros Hnd Hd. apply DataFrame_Ok in Hd. destruct Hd as (n & Hal & ->).
  simpl. split.
  - intros Hne Hrows. destruct n as [|n]; [|discriminate].
    destruct d as [|[k col] d]; [contradiction|].
    inversion Hal as [|? ? Hcol _]; subst. simpl in Hcol.
    destruct col; [|discriminate].
    unfold _get_last_metrics. simpl.
    apply get_last_metrics_stuck. discriminate.
  - intros rows row Hrows. destruct n as [|n].
    + simpl in Hrows. destruct rows; discriminate.
    + rewrite seq_S, map_app in Hrows. simpl in Hrows.
      apply app_inj_tail in Hrows. destruct Hrows as [_ <-].
      unfold _get_last_metrics.
      rewrite (get_last_metrics_fold n d Hal []); [reflexivity|].
      exact Hnd.
Qed.

Lemma last_metrics_are_the_last_row_witness :
  _get_last_metrics
    [("global_step", [CInt 4; CInt 8]); ("eval_loss", [CFloat 5; CFloat 4])]
  = Returns [("global_step", CInt 8); ("eval_loss", CFloat 4)].
Proof.
  apply (proj2 (last_metrics_are_the_last_row
                  [("global_step", [CInt 4; CInt 8]);
                   ("eval_loss", [CFloat 5; CFloat 4])]
                  {| csv_header := ["global_step"; "eval_loss"];
                     csv_rows := [[CInt 4; CFloat 5]; [CInt 8; CFloat 4]] |}
                  ltac:(repeat constructor; intros H;
                        repeat (apply elem_of_cons in H;
                                destruct H as [H|H]; [discriminate|]);
                        inversion H)
                  eq_refl)
           [[CInt 4; CFloat 5]] [CInt 8; CFloat 4] eq_refl).
Defined.

(** ** Batches of [predict] *)

Lemma batch_count_tight (n : nat) (b : Z) :
  0 < b ->
  let nb := Z.to_nat ((Z.of_nat n + b - 1) / b) in
  forall k,
    (k < nb)%nat ->
    (k * Z.to_nat b < n)%nat
    /\ ((S k < nb)%nat -> (S k * Z.to_nat b <= n)%nat).
Proof.
  intros Hb nb k Hk. subst nb.
  pose proof (Z.div_mod (Z.of_nat n + b - 1) b ltac:(lia)) as H1.
  pose proof (Z.mod_pos_bound (Z.of_nat n + b - 1) b Hb) as H2.
  assert (H3 : 0 <= (Z.of_nat n + b - 1) / b) by (apply Z.div_pos; lia).
  set (q := (Z.of_nat n + b - 1) / b) in *.
  assert (Hkq : Z.of_nat k < q) by lia.
  split.
  - apply Nat2Z.inj_lt. rewrite Nat2Z.inj_mul, Z2Nat.id by lia. nia.
  - intros Hk'. assert (Z.of_nat (S k) < q) by lia.
    apply Nat2Z.inj_le. rewrite Nat2Z.inj_mul, Z2Nat.id by lia. nia.
Qed.

(** X11. How [predict] cuts its inputs into batches. With a positive
    [eval_batch_size] [B] and [N] inputs there are [ceil(N / B)] batches,
    none of them empty and none longer than [B], and all but the last
    hold exactly [B] inputs. With [eval_batch_size] zero, [range] raises
    [ValueError], whatever the inputs; with a negative one there is no
    batch and [predict] returns the empty list, whatever the inputs. *)
Theorem predict_batches batch_encode_plus generate decode
  decoder_pad_token_id pa to_predict :
  (0 < eval_batch_size pa ->
   exists bs,
     batches pa to_predict = Ok bs
     /\ Z.of_nat (length bs)
        = (Z.of_nat (length to_predict) + eval_batch_size pa - 1)
          / eval_batch_size pa
     /\ forall k batch,
          bs !! k = Some batch ->
          (1 <= length batch)%nat
          /\ Z.of_nat (length batch) <= eval_batch_size pa
          /\ ((S k < length bs)%nat ->
              Z.of_nat (length batch) = eval_batch_size pa))
  /\ (eval_batch_size pa = 0 ->
      predict batch_encode_plus generate decode decoder_pad_token_id pa
        to_predict = Raise ValueError)
  /\ (eval_batch_size pa < 0 ->
      predict batch_encode_plus generate decode decoder_pad_token_id pa
        to_predict = Ok []).
Proof.
  split; [|split].
  - intros Hb. rewrite (batches_are_chunks pa to_predict Hb).
    eexists. split; [reflexivity|].
    rewrite length_map, length_seq.
    assert (H3 : 0 <= (Z.of_nat (length to_predict) + eval_batch_size pa - 1)
                      / eval_batch_size pa) by (apply Z.div_pos; lia).
    split; [lia|]. intros k batch Hk.
    rewrite lookup_map in Hk.
    destruct (seq 0 _ !! k) as [k'|] eqn:E; [|discriminate].
    apply lookup_seq in E. destruct E as [-> E]. injection Hk as <-.
    destruct (batch_count_tight (length to_predict) _ Hb k E) as [H1 H2].
    rewrite length_take, length_drop. simpl in H1, H2 |- *.
    split; [lia|]. split; [lia|]. intros Hk'. specialize (H2 Hk'). lia.
  - intros Hz. unfold predict, batches, py_range_step. rewrite Hz.
    reflexivity.
  - intros Hneg. unfold predict, batches, py_range_step.
    destruct (Z.eqb_spec (eval_batch_size pa) 0); [lia|].
    destruct (Z.ltb_spec (eval_batch_size pa) 0); [reflexivity | lia].
Qed.

Lemma predict_batches_witness :
  predict example_encode example_generate example_decode 0
    (example_predict_args (-2)) ["ab"; "abcd"; "a"]
  = Ok [].
Proof.
  apply (proj2 (proj2 (predict_batches example_encode example_generate
                         example_decode 0 (example_predict_args (-2))
                         ["ab"; "abcd"; "a"]))).
  simpl. lia.
Defined.

(** ** Inputs of the model *)

Lemma mask_padding_lookup pad labels i j :
  (mask_padding pad labels !! i) ≫= (fun row => row !! j)
  = (fun t => if t =? pad then -100 else t)
      <$> ((labels !! i) ≫= (fun row => row !! j)).
Proof.
  unfold mask_padding. rewrite lookup_map.
  destruct (labels !! i) as [row|]; [|reflexivity].
  simpl. apply lookup_map.
Qed.

Lemma mask_padding_never_pad pad labels :
  pad <> -100 ->
  Forall (Forall (fun t => t <> pad)) (mask_padding pad labels).
Proof.
  intros Hpad. unfold mask_padding.
  apply Forall_forall. intros row Hrow.
  apply list_elem_of_fmap in Hrow. destruct Hrow as (row' & -> & _).
  apply Forall_forall. intros t Ht.
  apply list_elem_of_fmap in Ht. destruct Ht as (t' & -> & _).
  destruct (Z.eqb_spec t' pad); congruence.
Qed.

(** X12. The labels that [_get_inputs_dict] hands to the model. For [bart]
    the decoder reads every target row without its last token and the
    label at a position is the token that follows in the target row; for
    the other model types the decoder reads the target rows as they are
    and the label at a position is the token at that position. In both
    cases a label that would be the pad token is [-100] instead, so that
    no label is the pad token unless the pad token is [-100] itself. *)
Theorem inputs_dict_labels model_type encoder_pad decoder_pad :
  (forall source_ids source_mask y,
     exists inputs,
       _get_inputs_dict "bart" encoder_pad decoder_pad
         (BatchDict source_ids source_mask y) = Returns inputs
       /\ input_ids inputs = source_ids
       /\ attention_mask inputs = Some source_mask
       /\ forall i j row t,
            y !! i = Some row ->
            row !! S j = Some t ->
            (decoder_input_ids inputs !! i) ≫= (fun r => r !! j) = row !! j
            /\ (lm_labels inputs !! i) ≫= (fun r => r !! j)
               = Some (if t =? encoder_pad then -100 else t))
  /\ (model_type <> "bart" ->
      forall batch_0 labels rest,
        exists inputs,
          _get_inputs_dict model_type encoder_pad decoder_pad
            (BatchTuple (batch_0 :: labels :: rest)) = Returns inputs
          /\ input_ids inputs = batch_0
          /\ attention_mask inputs = None
          /\ decoder_input_ids inputs = labels
          /\ forall i j row t,
               labels !! i = Some row ->
               row !! j = Some t ->
               (lm_labels inputs !! i) ≫= (fun r => r !! j)
               = Some (if t =? decoder_pad then -100 else t))
  /\ (forall batch inputs,
        _get_inputs_dict model_type encoder_pad decoder_pad batch
        = Returns inputs ->
        (if String.eqb model_type "bart" then encoder_pad else decoder_pad)
        <> -100 ->
        Forall
          (Forall
             (fun t =>
                t <> (if String.eqb model_type "bart" then encoder_pad
                      else decoder_pad)))
          (lm_labels inputs)).
Proof.
  split; [|split].
  - intros source_ids source_mask y. eexists. split; [reflexivity|].
    simpl. split; [reflexivity|]. split; [reflexivity|].
    intros i j row t Hrow Ht. split.
    + rewrite lookup_map, Hrow. simpl.
      apply lookup_take_lt. apply lookup_lt_Some in Ht. lia.
    + rewrite mask_padding_lookup, lookup_map, Hrow. simpl.
      rewrite lookup_drop. simpl. rewrite Ht. reflexivity.
  - intros Hmt batch_0 labels rest. unfold _get_inputs_dict.
    destruct (String.eqb_spec model_type "bart"); [contradiction|].
    eexists. split; [reflexivity|]. simpl.
    split; [reflexivity|]. split; [reflexivity|]. split; [reflexivity|].
    intros i j row t Hrow Ht.
    rewrite mask_padding_lookup, Hrow. simpl. rewrite Ht. reflexivity.
  - intros batch inputs. unfold _get_inputs_dict.
    destruct (String.eqb model_type "bart").
    + destruct batch as [source_ids source_mask y|fields]; [|discriminate].
      intros [= <-] Hpad. simpl. apply mask_padding_never_pad, Hpad.
    + destruct batch as [source_ids source_mask y|fields]; [discriminate|].
      destruct (fields !! 1%nat) as [labels|]; [|discriminate].
      destruct (fields !! 0%nat) as [batch_0|]; [|discriminate].
      intros [= <-] Hpad. simpl. apply mask_padding_never_pad, Hpad.
Qed.

Lemma inputs_dict_labels_witness :
  exists inputs,
    _get_inputs_dict "bart" 1 0
      (BatchDict [[5; 6; 1]] [[1; 1; 0]] [[0; 7; 8; 2; 1; 1]])
    = Returns inputs
    /\ decoder_input_ids inputs = [[0; 7; 8; 2; 1]]
    /\ lm_labels inputs = [[7; 8; 2; -100; -100]].
Proof.
  destruct (proj1 (inputs_dict_labels "bart" 1 0) [[5; 6; 1]] [[1; 1; 0]]
              [[0; 7; 8; 2; 1; 1]])
    as (inputs & H & _).
  exists inputs. split; [exact H|].
  vm_compute in H. injection H as <-. split; reflexivity.
Defined.

(** ** The warm-up steps *)

(** X13. The warm-up steps that the prologue of [train] derives. When
    [warmup_steps] is zero and the prologue gets to its end, it replaces
    the entry by [math.ceil(t_total * warmup_ratio)]: for two ints that
    is their product; for a float ratio it is the least int that is not
    below the float that the multiplication of the machine returns, so at
    least that float and less than one above it. The derivation happens
    once: when the derived value is not zero, a later call of [train] on
    the same model, whatever its data, leaves [warmup_steps] at the value
    of the first call. *)
Theorem warmup_steps_derived_once F n_batches (d d' : gmap string value)
  t_total old :
  train_prologue F n_batches d = (d', Ok t_total) ->
  d !! "warmup_steps" = Some old ->
  value_is_zero old = true ->
  exists ratio x w,
    d !! "warmup_ratio" = Some ratio
    /\ product_times F t_total ratio = Ok x
    /\ product_ceil x = Ok w
    /\ d' !! "warmup_steps" = Some (VInt w)
    /\ (forall t r,
          t_total = PNumber (NInt t) ->
          as_number ratio = Ok (NInt r) ->
          w = t * r)
    /\ (forall t q,
          t_total = PNumber t ->
          as_number ratio = Ok (NFloat q) ->
          (float_mul F (to_float F t) q <= inject_Z w)%Q
          /\ (inject_Z w < float_mul F (to_float F t) q + 1)%Q)
    /\ (w <> 0 ->
        forall F' n_batches',
          fst (train_prologue F' n_batches' d') !! "warmup_steps"
          = Some (VInt w)).
Proof.
  intros Hpro Hold Hzero.
  destruct (train_prologue_warmup F n_batches d d' t_total Hpro)
    as (ratio & x & w & old' & Hr & Hx & Hw & Hold' & Hnew).
  rewrite Hold in Hold'. injection Hold' as <-. rewrite Hzero in Hnew.
  exists ratio, x, w. do 4 (split; [assumption|]). repeat apply conj.
  - intros t r -> Hnum. destruct ratio; try discriminate;
      injection Hnum as Hnum; cbn in Hx; injection Hx as <-;
      cbn in Hw; injection Hw as <-; rewrite Hnum; reflexivity.
  - intros t q -> Hnum. destruct ratio; try discriminate.
    injection Hnum as ->.
    assert (Hx' : x = PNumber (NFloat (float_mul F (to_float F t) q)))
      by (destruct t; cbn in Hx; injection Hx as <-; reflexivity).
    subst x. cbn in Hw. injection Hw as <-.
    split; [apply Qle_ceiling|].
    pose proof (Qceiling_lt (float_mul F (to_float F t) q)) as Hlt.
    unfold Z.sub in Hlt. rewrite inject_Z_plus, inject_Z_opp in Hlt.
    change (inject_Z 1) with 1%Q in Hlt. lra.
  - intros Hnz F' n_batches'.
    apply train_prologue_keeps_warmup_steps; [exact Hnew|].
    simpl. apply Z.eqb_neq. exact Hnz.
Qed.

Lemma warmup_steps_derived_once_witness :
  exists d',
    train_prologue exact_floats 4 (example_train_dict 10 0)
    = (d', Ok (PNumber (NInt 10)))
    /\ d' !! "warmup_steps" = Some (VInt 1)
    /\ fst (train_prologue exact_floats 7 d') !! "warmup_steps"
       = Some (VInt 1).
Proof.
  destruct (train_prologue exact_floats 4 (example_train_dict 10 0))
    as [d' r] eqn:E.
  assert (Hr : r = Ok (PNumber (NInt 10))).
  { change r with (snd (d', r)). rewrite <- E. vm_compute. reflexivity. }
  subst r.
  destruct (warmup_steps_derived_once exact_floats 4
              (example_train_dict 10 0) d' (PNumber (NInt 10)) (VInt 0) E
              ltac:(vm_compute; reflexivity) eq_refl)
    as (ratio & x & w & Hratio & Hx & Hw & Hnew & _ & _ & Honce).
  vm_compute in Hratio. injection Hratio as <-.
  vm_compute in Hx. injection Hx as <-.
  vm_compute in Hw. injection Hw as <-.
  exists d'. split; [reflexivity|]. split; [exact Hnew|].
  apply Honce. discriminate.
Defined.

(** ** What construction derives *)

Section InitDerived.

Variable global_args : gmap string value.
Variable cuda_available : bool.
Variable wandb_available : bool.

Lemma str_truthy_Some s :
  str_truthy s = true -> exists t, s = Some t /\ t <> "" /\ or_empty s = t.
Proof.
  destruct s as [t|]; [|discriminate]. simpl.
  destruct (String.eqb_spec t ""); [discriminate|]. eauto.
Qed.

(** X14. What a successful construction has checked and derived. The model
    type is looked up in [MODEL_CLASSES] whether or not a [config] is
    given, so construction succeeds only with an [encoder_decoder_type]
    or else an [encoder_type] that is registered, and [model_type] is
    that type, with [-bert] appended to an encoder type: the fallback
    [encoder-decoder] is never stored. [model_name] is a string that is
    not empty; without CUDA [fp16] is off, and with [use_cuda] CUDA is
    there; without wandb [wandb_project] is falsy. *)
Theorem init_needs_registered_type p cfg :
  init_args global_args cuda_available wandb_available p = Ok cfg ->
  (exists ty,
      ty ∈ MODEL_CLASSES
      /\ ((encoder_decoder_type p = Some ty
           /\ cfg !! "model_type" = Some (VStr ty))
          \/ (str_truthy (encoder_decoder_type p) = false
              /\ encoder_type p = Some ty
              /\ cfg !! "model_type" = Some (VStr (ty +:+ "-bert")))))
  /\ (exists name, cfg !! "model_name" = Some (VStr name) /\ name <> "")
  /\ (if use_cuda p then cuda_available = true
      else cfg !! "fp16" = Some (VBool false))
  /\ (wandb_available = false ->
      exists v, cfg !! "wandb_project" = Some v /\ value_truthy v = false).
Proof.
  unfold init_args.
  destruct (negb (config p) && negb _); [discriminate|].
  destruct (negb (config p) && negb _); [discriminate|].
  destruct (use_cuda p && negb cuda_available) eqn:Hcuda; [discriminate|].
  destruct (bool_decide _) eqn:Hkey; [|discriminate].
  apply bool_decide_eq_true in Hkey. simpl negb. cbv iota.
  match goal with
  | |- context [?m !! "wandb_project"] => set (m1 := m)
  end.
  assert (Hfp : if use_cuda p then cuda_available = true
                else m1 !! "fp16" = Some (VBool false)).
  { subst m1. destruct (use_cuda p).
    - destruct cuda_available; [reflexivity | discriminate].
    - apply lookup_insert_eq. }
  destruct (m1 !! "wandb_project") as [project|] eqn:Hproject;
    [|discriminate].
  intros [= <-]. split; [|split; [|split]].
  - rewrite lookup_insert_eq.
    destruct (str_truthy (encoder_decoder_type p)) eqn:Hedt.
    + destruct (str_truthy_Some _ Hedt) as (ty & Hty & _ & Hor).
      exists ty. rewrite Hor in *. split; [exact Hkey|]. left. auto.
    + destruct (str_truthy (encoder_type p)) eqn:Het.
      * destruct (str_truthy_Some _ Het) as (ty & Hty & _ & Hor).
        exists ty. rewrite Hor in *. split; [exact Hkey|]. right. auto.
      * exfalso. destruct (encoder_type p) as [t|]; simpl in *.
        -- destruct (String.eqb_spec t ""); [subst t|discriminate].
           vm_compute in Hkey. repeat (apply elem_of_cons in Hkey;
             destruct Hkey as [Hkey|Hkey]; [discriminate|]).
           inversion Hkey.
        -- repeat (apply elem_of_cons in Hkey;
             destruct Hkey as [Hkey|Hkey]; [discriminate|]).
           inversion Hkey.
  - rewrite lookup_insert_ne by discriminate. rewrite lookup_insert_eq.
    eexists. split; [reflexivity|].
    destruct (str_truthy (encoder_decoder_name p)) eqn:Hn.
    + destruct (str_truthy_Some _ Hn) as (t & _ & Ht & ->). exact Ht.
    + destruct (str_truthy (encoder_name p) && str_truthy (decoder_name p))
        eqn:Hn'; [|discriminate].
      apply andb_true_iff in Hn'. destruct Hn' as [He _].
      destruct (str_truthy_Some _ He) as (t & _ & Ht & ->).
      destruct t; [contradiction | discriminate].
  - rewrite !lookup_insert_ne by discriminate.
    destruct (use_cuda p); [exact Hfp|].
    destruct (value_truthy project && negb wandb_available);
      [rewrite lookup_insert_ne by discriminate|]; exact Hfp.
  - intros ->. rewrite !lookup_insert_ne by discriminate.
    rewrite andb_true_r. destruct (value_truthy project) eqn:Hp.
    + rewrite lookup_insert_eq. eauto.
    + rewrite Hproject. eauto.
Qed.

End InitDerived.

Lemma init_needs_registered_type_witness :
  exists cfg,
    init_args example_global_args false false (example_init ∅) = Ok cfg
    /\ cfg !! "fp16" = Some (VBool false).
Proof.
  assert (Hok : is_Some (result_lookup
                           (init_args example_global_args false false
                              (example_init ∅)) "fp16"))
    by (vm_compute; eauto).
  destruct (init_args example_global_args false false (example_init ∅))
    as [cfg|e] eqn:E; [|destruct Hok; discriminate].
  exists cfg. split; [reflexivity|].
  exact (proj1 (proj2 (proj2 (init_needs_registered_type example_global_args
                                false false (example_init ∅) cfg E)))).
Defined.

(** ** [train_model] *)

Section TrainModelFacts.

Variable F : FloatOps.
Variable n_batches : Z.
Variable train_from_optimizer : gmap string value -> result (Z * Q).
Variable holds_files : string -> bool.

Lemma train_keeps_entry (d : gmap string value) key :
  key <> "warmup_steps" ->
  key <> "num_train_epochs" ->
  fst (train F n_batches train_from_optimizer d) !! key = d !! key.
Proof.
  intros Hw He.
  destruct (train_args_after F n_batches train_from_optimizer d)
    as [-> | ->]; [reflexivity|].
  apply train_prologue_frame; [exact Hw|]. intros ->. contradiction.
Qed.

(** X15. What [train_model] does around [train]. The entries of [args]
    are written into [self.args] before anything is checked, so they stay
    there even when the call is refused. The call raises [ValueError],
    without training, when [evaluate_during_training] is on and no
    evaluation data is given; and, once that check is passed, when the
    output directory (the [output_dir] argument if it is given and not
    empty, [self.args["output_dir"]] otherwise) holds files and
    [overwrite_output_dir] is off. When both checks are passed the call
    does what [train] does: it raises what [train] raises, and when
    [train] returns, the model is written twice, by [_save_model] into
    [self.args["output_dir"]] and by [save_pretrained] into the output
    directory, which are two places when the argument is given and
    differs. *)
Theorem train_model_checks_then_trains self_args output_dir args eval_data :
  let call :=
    train_model F n_batches train_from_optimizer holds_files self_args
      output_dir args eval_data in
  (forall overrides key v,
     args = Some overrides ->
     overrides !! key = Some v ->
     key <> "warmup_steps" ->
     key <> "num_train_epochs" ->
     fst call !! key = Some v)
  /\ (forall merged,
        merged = match args with
                 | Some overrides => update self_args overrides
                 | None => self_args
                 end ->
        (get_bool merged "evaluate_during_training" = Ok true ->
         eval_data = false ->
         call = (merged, Raise ValueError))
        /\ (forall evaluating dir,
              get_bool merged "evaluate_during_training" = Ok evaluating ->
              evaluating && negb eval_data = false ->
              (if str_truthy output_dir then Ok (or_empty output_dir)
               else get_path merged "output_dir") = Ok dir ->
              (holds_files dir = true ->
               get_bool merged "overwrite_output_dir" = Ok false ->
               call = (merged, Raise ValueError))
              /\ (holds_files dir = false
                  \/ get_bool merged "overwrite_output_dir" = Ok true ->
                  fst call = fst (train F n_batches train_from_optimizer
                                    merged)
                  /\ snd call
                     = rbind (snd (train F n_batches train_from_optimizer
                                     merged))
                         (fun _ =>
                            rbind (get_path merged "output_dir")
                              (fun saved_to => Ok [saved_to; dir]))))
        /\ (forall dirs,
              snd call = Ok dirs ->
              exists r saved_to dir,
                snd (train F n_batches train_from_optimizer merged) = Ok r
                /\ fst call
                   = fst (train F n_batches train_from_optimizer merged)
                /\ get_path merged "output_dir" = Ok saved_to
                /\ dir = (if str_truthy output_dir then or_empty output_dir
                          else saved_to)
                /\ dirs = [saved_to; dir])).
Proof.
  intros call.
  set (merged := match args with
                 | Some overrides => update self_args overrides
                 | None => self_args
                 end).
  assert (Hmerged : match args with
                    | Some overrides =>
                        if decide (overrides = ∅) then self_args
                        else update self_args overrides
                    | None => self_args
                    end = merged).
  { subst merged. destruct args as [overrides|]; [|reflexivity].
    destruct (decide (overrides = ∅)) as [->|]; [|reflexivity].
    unfold update. rewrite (left_id_L ∅ (∪)). reflexivity. }
  assert (Hfst : forall key,
             key <> "warmup_steps" -> key <> "num_train_epochs" ->
             fst call !! key = merged !! key).
  { intros key Hw He. subst call. unfold train_model.
    rewrite Hmerged. cbv zeta.
    pose proof (train_keeps_entry merged key Hw He) as Hk.
    destruct (get_bool merged "evaluate_during_training") as [ev|];
      [|reflexivity].
    destruct (ev && negb eval_data); [reflexivity|].
    destruct (if str_truthy output_dir then _ else _) as [dir|];
      [|reflexivity].
    destruct (if holds_files dir then _ else _) as [[|]|]; try reflexivity.
    destruct (train _ _ _ merged) as [d' [r|e]]; exact Hk. }
  assert (Hpath : forall d',
             d' = fst (train F n_batches train_from_optimizer merged) ->
             get_path d' "output_dir" = get_path merged "output_dir").
  { intros d' ->. unfold get_path.
    rewrite (train_keeps_entry merged "output_dir") by discriminate.
    reflexivity. }
  split.
  - intros overrides key v Hargs Hkey Hw He. rewrite (Hfst key Hw He).
    subst merged. rewrite Hargs. unfold update.
    apply lookup_union_Some_l. exact Hkey.
  - intros merged' ->. fold merged. subst call. unfold train_model.
    rewrite Hmerged. cbv zeta. split; [|split].
    + intros Hev ->. rewrite Hev. reflexivity.
    + intros evaluating dir Hev Hcheck Hdir. rewrite Hev, Hcheck, Hdir.
      split.
      * intros Hfiles Hover. rewrite Hfiles, Hover. reflexivity.
      * intros Hpass.
        assert (Hgo : (if holds_files dir
                       then rbind (get_bool merged "overwrite_output_dir")
                              (fun overwrite => Ok (negb overwrite))
                       else Ok false) = Ok false).
        { destruct Hpass as [-> | Hover]; [reflexivity|].
          rewrite Hover. destruct (holds_files dir); reflexivity. }
        rewrite Hgo.
        pose proof (Hpath _ eq_refl) as Hp.
        destruct (train _ _ _ merged) as [d' [r|e]]; simpl in Hp |- *;
          [rewrite Hp|]; split; reflexivity.
    + intros dirs.
      destruct (get_bool merged "evaluate_during_training") as [ev|];
        [|discriminate].
      destruct (ev && negb eval_data); [discriminate|].
      pose proof (Hpath _ eq_refl) as Hp.
      destruct (str_truthy output_dir) eqn:Hgiven.
      * destruct (if holds_files _ then _ else _) as [[|]|];
          try discriminate.
        destruct (train _ _ _ merged) as [d' [r|e]]; [|discriminate].
        simpl in Hp |- *. rewrite Hp.
        destruct (get_path merged "output_dir") as [saved_to|];
          [|discriminate].
        intros [= <-]. exists r, saved_to, (or_empty output_dir).
        repeat split; reflexivity.
      * destruct (get_path merged "output_dir") as [saved_to|] eqn:Hout;
          [|discriminate].
        destruct (if holds_files _ then _ else _) as [[|]|];
          try discriminate.
        destruct (train _ _ _ merged) as [d' [r|e]]; [|discriminate].
        simpl in Hp |- *. rewrite Hp.
        intros [= <-]. exists r, saved_to, saved_to.
        repeat split; reflexivity.
Qed.

End TrainModelFacts.

Lemma train_model_checks_then_trains_witness :
  train_model exact_floats 4 (example_train_from_optimizer 4)
    (fun dir => String.eqb dir "outputs/") example_self_args None None false
  = (example_self_args, Raise ValueError)
  /\ snd (train_model exact_floats 4 (example_train_from_optimizer 4)
            (fun dir => String.eqb dir "outputs/") example_self_args
            (Some "elsewhere/") None false)
     = Ok ["outputs/"; "elsewhere/"]
  /\ fst (train_model exact_floats 4 (example_train_from_optimizer 4)
            (fun dir => String.eqb dir "outputs/") example_self_args
            (Some "elsewhere/") None false) !! "warmup_steps"
     = Some (VInt 1).
Proof.
  pose proof (train_model_checks_then_trains exact_floats 4
                (example_train_from_optimizer 4)
                (fun dir => String.eqb dir "outputs/") example_self_args
                None None false) as H1.
  pose proof (train_model_checks_then_trains exact_floats 4
                (example_train_from_optimizer 4)
                (fun dir => String.eqb dir "outputs/") example_self_args
                (Some "elsewhere/") None false) as H2.
  cbv zeta in H1, H2.
  destruct H1 as (_ & H1). destruct (H1 _ eq_refl) as (_ & H1' & _).
  destruct H2 as (_ & H2). destruct (H2 _ eq_refl) as (_ & H2' & _).
  split; [|split].
  - apply (H1' false "outputs/"); reflexivity.
  - destruct (H2' false "elsewhere/" eq_refl eq_refl eq_refl) as (_ & Hgo).
    destruct (Hgo ltac:(left; reflexivity)) as (_ & ->).
    vm_compute. reflexivity.
  - destruct (H2' false "elsewhere/" eq_refl eq_refl eq_refl) as (_ & Hgo).
    destruct (Hgo ltac:(left; reflexivity)) as (-> & _).
    vm_compute. reflexivity.
Defined.

(** ** From the name of a checkpoint back to its step *)

Lemma string_app_assoc (a b c : string) : (a +:+ b) +:+ c = a +:+ (b +:+ c).
Proof.
  induction a as [|x a IH]; [reflexivity|].
  rewrite !append_String, IH. reflexivity.
Qed.

Lemma contains_app c (a b : string) :
  contains c (a +:+ b) = contains c a || contains c b.
Proof.
  induction a as [|x a IH]; [reflexivity|].
  rewrite append_String. simpl. rewrite IH, orb_assoc. reflexivity.
Qed.

Lemma ends_with_split c s :
  ends_with c s = true -> exists pre, s = pre +:+ String c "".
Proof.
  induction s as [|x s IH]; [discriminate|].
  destruct s as [|y s].
  - simpl. intros H. apply Ascii.eqb_eq in H. subst x. exists "".
    reflexivity.
  - intros H. destruct (IH H) as [pre Hpre]. exists (String x pre).
    rewrite append_String, <- Hpre. reflexivity.
Qed.

Lemma path_join_last out name :
  contains "/"%char name = false ->
  last_part (split "/"%char (path_join out name)) = name.
Proof.
  intros Hname. unfold path_join.
  destruct (String.eqb out "").
  - rewrite (split_without_separator _ _ Hname). reflexivity.
  - destruct (ends_with "/"%char out) eqn:Hend.
    + destruct (ends_with_split _ _ Hend) as [pre ->].
      rewrite string_app_assoc.
      change (String "/"%char "" +:+ name) with (String "/"%char name).
      rewrite split_app, last_part_app by apply split_nonempty.
      rewrite (split_without_separator _ _ Hname). reflexivity.
    + change ("/" +:+ name) with (String "/"%char name).
      rewrite split_app, last_part_app by apply split_nonempty.
      rewrite (split_without_separator _ _ Hname). reflexivity.
Qed.

Lemma path_join_not_empty out c name : path_join out (String c name) <> "".
Proof.
  unfold path_join. destruct out as [|x out]; [discriminate|].
  simpl String.eqb. cbv iota.
  destruct (ends_with _ _); rewrite append_String; discriminate.
Qed.

Lemma numeral_has_no_slash d :
  contains "/"%char (NilEmpty.string_of_uint d) = false.
Proof. induction d; simpl; auto. Qed.

Lemma str_of_int_has_no_slash z : contains "/"%char (str_of_int z) = false.
Proof.
  unfold str_of_int, decimal. destruct (z <? 0).
  - change ("-" +:+ ?s) with (String "-"%char s). simpl.
    apply numeral_has_no_slash.
  - apply numeral_has_no_slash.
Qed.

Lemma step_field_of_name stem n rest :
  contains "-"%char stem = false ->
  rest = "" \/ (exists more, rest = String "-"%char more) ->
  let fields := split "-"%char (stem +:+ "-" +:+ decimal n +:+ rest) in
  (if (2 <? length fields)%nat then nth 1 fields EmptyString
   else last_part fields) = decimal n.
Proof.
  intros Hdash Hrest.
  change (stem +:+ "-" +:+ decimal n +:+ rest)
    with (stem +:+ String "-"%char (decimal n +:+ rest)).
  rewrite split_app, (split_without_separator _ _ Hdash).
  destruct Hrest as [-> | [more ->]].
  - rewrite string_app_empty_r.
    rewrite (split_without_separator "-"%char (decimal n)
              (numeral_has_no_dash (N.to_uint n))).
    reflexivity.
  - rewrite split_app.
    rewrite (split_without_separator "-"%char (decimal n)
              (numeral_has_no_dash (N.to_uint n))).
    pose proof (split_nonempty "-"%char more) as Hne.
    destruct (split "-"%char more); [contradiction|]. reflexivity.
Qed.

(** X16. The names that [train] gives its checkpoints lead [train] back to
    their step. For a step that is not negative, the directory
    [checkpoint-<step>] or [checkpoint-<step>-epoch-<epoch>] under any
    output directory, loaded as [model_name] in a later run, resumes that
    run at global step [step], with [step // p] epochs and [step % p]
    batches to skip, [p] being the optimizer steps of an epoch. *)
Theorem checkpoint_names_round_trip n_batches path_exists a st output_dir
  best_model_dir dir step :
  dir = CheckpointStep step
  \/ (exists epoch, dir = CheckpointEpoch step epoch) ->
  0 <= step ->
  model_name a = checkpoint_dir output_dir best_model_dir dir ->
  path_exists (model_name a) = true ->
  gradient_accumulation_steps a <> 0 ->
  n_batches / gradient_accumulation_steps a <> 0 ->
  resume n_batches path_exists a st
  = Ok (set_steps_trained_in_current_epoch
          (step mod (n_batches / gradient_accumulation_steps a))
          (set_epochs_trained
             (step / (n_batches / gradient_accumulation_steps a))
             (set_global_step step st))).
Proof.
  intros Hdir Hstep Hname Hexists Hgas Hper.
  assert (Hstr : str_of_int step = decimal (Z.to_N step)).
  { unfold str_of_int. destruct (Z.ltb_spec step 0); [lia | reflexivity]. }
  assert (Hshape : exists rest,
             model_name a
             = path_join output_dir
                 ("checkpoint" +:+ "-" +:+ decimal (Z.to_N step) +:+ rest)
             /\ contains "/"%char rest = false
             /\ (rest = "" \/ exists more, rest = String "-"%char more)).
  { destruct Hdir as [->|[epoch ->]]; simpl in Hname; rewrite Hstr in Hname.
    - exists "". rewrite string_app_empty_r. auto.
    - exists ("-epoch-" +:+ str_of_int epoch).
      split; [exact Hname|]. split.
      + rewrite contains_app, str_of_int_has_no_slash. reflexivity.
      + right. eexists. reflexivity. }
  destruct Hshape as (rest & Hshape & Hslash & Hrest).
  assert (Hsuffix : checkpoint_suffix (model_name a)
                    = decimal (Z.to_N step)).
  { unfold checkpoint_suffix. rewrite Hshape, path_join_last.
    - apply step_field_of_name; [reflexivity | exact Hrest].
    - rewrite !contains_app, Hslash. unfold decimal.
      rewrite numeral_has_no_slash. reflexivity. }
  unfold resume. rewrite Hexists, Hsuffix, py_int_decimal.
  rewrite Z2N.id by exact Hstep.
  assert (Hne : String.eqb (model_name a) "" = false).
  { apply String.eqb_neq. rewrite Hshape.
    change ("checkpoint" +:+ ?s) with (String "c"%char ("heckpoint" +:+ s)).
    apply path_join_not_empty. }
  rewrite Hne. simpl negb. simpl andb. cbv iota.
  unfold py_floordiv, py_mod, rbind.
  destruct (Z.eqb_spec (gradient_accumulation_steps a) 0); [contradiction|].
  destruct (Z.eqb_spec (n_batches / gradient_accumulation_steps a) 0);
    [contradiction|].
  reflexivity.
Qed.

Lemma checkpoint_names_round_trip_witness :
  checkpoint_dir "outputs/" "outputs/best_model" (CheckpointEpoch 2000 1)
  = "outputs/checkpoint-2000-epoch-1"
  /\ exists st,
       resume 100 (fun _ => true)
         (example_resume_args "outputs/checkpoint-2000-epoch-1" 1)
         (initial_state []
            (example_resume_args "outputs/checkpoint-2000-epoch-1" 1))
       = Ok st
       /\ global_step st = 2000.
Proof.
  split; [vm_compute; reflexivity|].
  eexists. split.
  - apply (checkpoint_names_round_trip 100 (fun _ => true)
             (example_resume_args "outputs/checkpoint-2000-epoch-1" 1)
             (initial_state []
                (example_resume_args "outputs/checkpoint-2000-epoch-1" 1))
             "outputs/" "outputs/best_model" (CheckpointEpoch 2000 1) 2000).
    + right. eexists. reflexivity.
    + lia.
    + vm_compute. reflexivity.
    + reflexivity.
    + discriminate.
    + discriminate.
  - reflexivity.
Defined.

(** ** The loss of the last batch *)










Section LossAssigned.

Variable batch_loss : Z -> Z -> Q.
Variable eval_model : nat -> list (string * Q).
Variable n_batches : Z.
Variable a : TrainArgs.

Hypothesis batches_positive : 0 < n_batches.





End LossAssigned.



(** ** Where a run can stop early *)

Section EarlyStopPlace.

Variable batch_loss : Z -> Z -> Q.
Variable eval_model : nat -> list (string * Q).
Variable n_batches : Z.
Variable a : TrainArgs.

Lemma evaluation_without_gate dir st :
  flow_sat (fun _ => True) (fun _ _ => False)
    (evaluation eval_model false dir a st).
Proof.
  unfold evaluation.
  destruct (record_progress _ _); [|exact I].
  destruct (dict_get _ _); [|exact I].
  unfold early_stopping_check, compare_with_best.
  destruct (best_eval_metric _); [|exact I].
  unfold no_improvement.
  destruct (_ && _); destruct (Qltb _ _); exact I.
Qed.

(** X19. Where a run can stop early. With
    [early_stopping_consider_epochs] off, the evaluation at the end of an
    epoch never ends the run: when [train] returns from inside the loop,
    its global step is a multiple of a positive
    [evaluate_during_training_steps], early stopping and evaluation
    during training are on, and the pair returned is that global step
    with the running loss divided by it. *)
Theorem early_stop_only_at_evaluation_steps st :
  early_stopping_consider_epochs a = false ->
  flow_sat (fun _ => True)
    (fun st' r =>
       use_early_stopping a = true
       /\ evaluate_during_training a = true
       /\ 0 < evaluate_during_training_steps a
       /\ global_step st' mod evaluate_during_training_steps a = 0
       /\ returned_from st' r)
    (train_loop batch_loss eval_model n_batches a st).
Proof.
  intros Hepochs. apply train_loop_invariant; auto.
  - intros st1 Heval Hpos Hmod _.
    pose proof (evaluation_global_step eval_model (use_early_stopping a)
                  (CheckpointStep (global_step st1)) a st1) as Hg.
    pose proof (evaluation_exit eval_model a (use_early_stopping a)
                  (CheckpointStep (global_step st1)) st1 (fun H => H))
      as Hx.
    destruct (evaluation _ _ _ _ _) as [st'|st' r|e]; simpl in *; auto.
    destruct Hx as (Hs & _ & Hnz & Hr). rewrite Hg.
    repeat split; assumption.
  - intros st1 _ _. rewrite Hepochs, andb_false_r.
    eapply flow_sat_weaken; [| |apply evaluation_without_gate];
      simpl; auto; contradiction.
Qed.

End EarlyStopPlace.

Lemma early_stop_only_at_evaluation_steps_witness :
  exists st' r,
    train_loop example_batch_loss example_eval_model 4
      (example_evaluating_args 2)
      (initial_state [] (example_evaluating_args 2))
    = Return st' r
    /\ global_step st' mod 1 = 0
    /\ r = (4, 1536 # 1024).
Proof.
  destruct (train_loop example_batch_loss example_eval_model 4
              (example_evaluating_args 2)
              (initial_state [] (example_evaluating_args 2)))
    as [st'|st' r|e] eqn:E;
    [vm_compute in E; discriminate | | vm_compute in E; discriminate].
  pose proof (early_stop_only_at_evaluation_steps example_batch_loss
                example_eval_model 4 (example_evaluating_args 2)
                (initial_state [] (example_evaluating_args 2)) eq_refl)
    as H.
  rewrite E in H. simpl in H. destruct H as (_ & _ & _ & Hmod & _).
  exists st', r. split; [reflexivity|]. split; [exact Hmod|].
  assert (Hr : flow_sat (fun _ => True) (fun _ r => r = (4, 1536 # 1024))
                 (train_loop example_batch_loss example_eval_model 4
                    (example_evaluating_args 2)
                    (initial_state [] (example_evaluating_args 2))))
    by (vm_compute; reflexivity).
  rewrite E in Hr. exact Hr.
Defined.

(** ** Divisions of the prologue *)

Lemma train_at_prologue F n_batches train_from_optimizer
  (d : gmap string value) :
  is_Some (d !! "tensorboard_dir") ->
  0 < n_batches ->
  is_Some (d !! "train_batch_size") ->
  train F n_batches train_from_optimizer d
  = match train_prologue F n_batches d with
    | (d', Raise e) => (d', Raise e)
    | (d', Ok _) => (d', train_from_optimizer d')
    end.
Proof.
  intros [v1 H1] Hn [v2 H2]. unfold train, get_item. rewrite H1, H2.
  destruct (Z.leb_spec n_batches 0); [lia|]. reflexivity.
Qed.

Lemma train_prologue_division F n_batches (d : gmap string value)
  max_steps gas :
  get_number d "max_steps" = Ok max_steps ->
  get_number d "gradient_accumulation_steps" = Ok gas ->
  number_floordiv F (NInt n_batches) gas = Raise ZeroDivisionError
  \/ (exists per_epoch,
        number_floordiv F (NInt n_batches) gas = Ok per_epoch
        /\ number_positive max_steps = true
        /\ number_floordiv F max_steps per_epoch = Raise ZeroDivisionError) ->
  train_prologue F n_batches d = (d, Raise ZeroDivisionError).
Proof.
  intros Hmax Hgas Hzero. unfold train_prologue. rewrite Hmax, Hgas.
  cbn [rbind].
  destruct Hzero as [-> | (per_epoch & -> & -> & Hq)].
  - cbn [rbind]. destruct (number_positive max_steps); reflexivity.
  - cbn [rbind]. rewrite Hq. reflexivity.
Qed.

Lemma number_floordiv_by_zero F a b :
  number_is_zero b = true ->
  number_floordiv F a b = Raise ZeroDivisionError.
Proof.
  intros Hb. unfold number_floordiv, py_floordiv.
  destruct a as [x|x], b as [y|y]; cbn [number_is_zero] in Hb |- *;
    rewrite Hb; reflexivity.
Qed.

(** X20. The divisions by zero of the prologue of [train]. With a data
    loader that is not empty: when [gradient_accumulation_steps] is zero,
    and when [max_steps] is above zero and the number of batches
    floor-divided by the accumulation steps is zero (as it is with fewer
    batches than accumulation steps), [train] raises
    [ZeroDivisionError] before the optimizer is built, and [args] is left
    as it was. With [max_steps] not above zero, fewer batches than
    accumulation steps and an int for [num_train_epochs], the prologue
    goes on with a total of zero steps. *)
Theorem prologue_divides_by_steps_per_epoch F n_batches train_from_optimizer
  (d : gmap string value) max_steps gas :
  is_Some (d !! "tensorboard_dir") ->
  0 < n_batches ->
  is_Some (d !! "train_batch_size") ->
  get_number d "max_steps" = Ok max_steps ->
  get_number d "gradient_accumulation_steps" = Ok gas ->
  (number_is_zero gas = true ->
   train F n_batches train_from_optimizer d = (d, Raise ZeroDivisionError))
  /\ (forall per_epoch,
        number_positive max_steps = true ->
        number_floordiv F (NInt n_batches) gas = Ok per_epoch ->
        number_is_zero per_epoch = true ->
        train F n_batches train_from_optimizer d
        = (d, Raise ZeroDivisionError))
  /\ (forall g,
        number_positive max_steps = true ->
        gas = NInt g ->
        n_batches < g ->
        train F n_batches train_from_optimizer d
        = (d, Raise ZeroDivisionError))
  /\ (forall g e d' t_total,
        number_positive max_steps = false ->
        gas = NInt g ->
        n_batches < g ->
        get_number d "num_train_epochs" = Ok (NInt e) ->
        train_prologue F n_batches d = (d', Ok t_total) ->
        t_total = PNumber (NInt 0)).
Proof.
  intros H1 Hn H2 Hmax Hgas.
  assert (Hsmall : forall g,
             n_batches < g ->
             number_floordiv F (NInt n_batches) (NInt g) = Ok (NInt 0)).
  { intros g Hlt. unfold number_floordiv, py_floordiv, rbind.
    destruct (Z.eqb_spec g 0); [lia|].
    rewrite Z.div_small by lia. reflexivity. }
  repeat apply conj.
  - intros Hz. rewrite (train_at_prologue F _ _ d H1 Hn H2).
    rewrite (train_prologue_division F n_batches d max_steps gas Hmax Hgas);
      [reflexivity|].
    left. apply number_floordiv_by_zero. exact Hz.
  - intros per_epoch Hpos Hper Hz.
    rewrite (train_at_prologue F _ _ d H1 Hn H2).
    rewrite (train_prologue_division F n_batches d max_steps gas Hmax Hgas);
      [reflexivity|].
    right. exists per_epoch. split; [exact Hper|]. split; [exact Hpos|].
    apply number_floordiv_by_zero. exact Hz.
  - intros g Hpos -> Hlt.
    rewrite (train_at_prologue F _ _ d H1 Hn H2).
    rewrite (train_prologue_division F n_batches d max_steps (NInt g)
               Hmax Hgas); [reflexivity|].
    right. exists (NInt 0). split; [apply Hsmall; exact Hlt|].
    split; [exact Hpos|]. apply number_floordiv_by_zero. reflexivity.
  - intros g e d' t_total Hpos -> Hlt He Hpro.
    destruct (train_prologue_Ok F n_batches d d' t_total Hpro)
      as (ms & g' & per_epoch & Hms & Hg' & Hper & Hcase).
    rewrite Hmax in Hms. injection Hms as <-.
    rewrite Hgas in Hg'. injection Hg' as <-.
    rewrite (Hsmall g Hlt) in Hper. injection Hper as <-.
    rewrite Hpos in Hcase. destruct Hcase as (v & Hv & Ht & _).
    apply get_number_lookup in He. destruct He as (v' & Hv' & Hnum).
    rewrite Hv in Hv'. injection Hv' as <-.
    destruct v; try discriminate; cbn in Ht; injection Ht as <-;
      reflexivity.
Qed.

Lemma prologue_divides_by_steps_per_epoch_witness :
  train exact_floats 4 (example_train_from_optimizer 4)
    (<["gradient_accumulation_steps" := VInt 8]> (example_train_dict 10 0))
  = (<["gradient_accumulation_steps" := VInt 8]> (example_train_dict 10 0),
     Raise ZeroDivisionError).
Proof.
  apply (proj1 (proj2 (proj2
           (prologue_divides_by_steps_per_epoch exact_floats 4
              (example_train_from_optimizer 4)
              (<["gradient_accumulation_steps" := VInt 8]>
                 (example_train_dict 10 0))
              (NInt 10) (NInt 8)
              ltac:(eexists; vm_compute; reflexivity) ltac:(lia)
              ltac:(eexists; vm_compute; reflexivity)
              ltac:(vm_compute; reflexivity)
              ltac:(vm_compute; reflexivity)))) 8);
    [reflexivity | reflexivity | lia].
Defined.

(** ** Metrics during training *)

Section MetricsDuringTraining.

Variable batch_encode_plus : list string -> Z -> list (list Z).
Variable generate : list (list Z) -> GenerateArgs -> list (list Z).
Variable decode : list Z -> bool -> bool -> string.
Variable decoder_pad_token_id : Z.

Hypothesis encode_rows :
  forall batch n, length (batch_encode_plus batch n) = length batch.
Hypothesis generate_rows :
  forall ids p, length (generate ids p) = length ids.

(** X21. Metrics passed to [train_model] need [evaluate_generated_text].
    The progress table gets a column for every metric passed as a keyword
    argument, but the first evaluation of a fresh model returns a score
    for a metric only with [evaluate_generated_text]: with it the scores
    are recorded, without it and with at least one metric the column of
    the metric stays empty and [pd.DataFrame] raises [ValueError] at the
    first evaluation during training. *)
Theorem metrics_need_generated_text pa evaluate_generated_text kwargs losses
  eval_data st loss :
  losses <> [] ->
  0 < eval_batch_size pa ->
  NoDup (["global_step"; "eval_loss"; "train_loss"] ++ map fst kwargs) ->
  training_progress_scores st
  = _create_training_progress_scores (map fst kwargs) ->
  current_loss st = Some loss ->
  exists results,
    Evaluator.eval_model batch_encode_plus generate decode
      decoder_pad_token_id pa evaluate_generated_text kwargs losses
      eval_data []
    = (results, Returns results)
    /\ (evaluate_generated_text = true ->
        exists st', record_progress results st = Ok st')
    /\ (evaluate_generated_text = false ->
        kwargs <> [] ->
        record_progress results st = Raise ValueError).
Proof.
  intros Hne Hb Hnd Htable Hloss.
  destruct (evaluate_returns_mean_loss_aux losses Hne) as (mean & Hm & _).
  destruct (predict_one_per_input batch_encode_plus generate decode
              decoder_pad_token_id encode_rows generate_rows pa
              (map input_text eval_data) Hb) as (preds & Hp & Hlen).
  rewrite length_map in Hlen.
  assert (Hcols : training_progress_scores st
                  = [("global_step", []); ("eval_loss", []);
                     ("train_loss", [])]
                      ++ map (fun key => (key, [])) (map fst kwargs))
    by (rewrite Htable; apply create_training_progress_scores_keys, Hnd).
  simpl in Hnd.
  apply NoDup_cons in Hnd. destruct Hnd as [Hgs Hnd].
  apply NoDup_cons in Hnd. destruct Hnd as [Hel Hnd].
  apply NoDup_cons in Hnd. destruct Hnd as [Htl Hnames].
  apply not_elem_of_cons in Hgs. destruct Hgs as [_ Hgs].
  apply not_elem_of_cons in Hgs. destruct Hgs as [_ Hgs].
  apply not_elem_of_cons in Hel. destruct Hel as [_ Hel].
  unfold Evaluator.eval_model. rewrite Hm. cbv zeta.
  destruct evaluate_generated_text.
  - rewrite Hp, compute_metrics_values;
      [|exact Hnames | rewrite length_map; auto].
    match goal with
    | |- context [dict_update (dict_update [] _) ?sc] => set (scores := sc)
    end.
    assert (Hscores : map fst scores = map fst kwargs)
      by (subst scores; rewrite map_map; reflexivity).
    assert (Hres : dict_update
                     (dict_update [] [("eval_loss", mean)]) scores
                   = ("eval_loss", mean) :: scores).
    { unfold dict_update. simpl fold_left at 2.
      rewrite fold_dict_set_fresh; [reflexivity|].
      simpl. rewrite Hscores. apply NoDup_cons. split; assumption. }
    rewrite Hres. eexists. split; [reflexivity|].
    split; [|discriminate]. intros _.
    destruct (record_progress_succeeds (("eval_loss", mean) :: scores) st 0
                loss) as (st' & Hst' & _).
    + rewrite Hcols. simpl. rewrite map_map. simpl. rewrite map_id.
      repeat (apply NoDup_cons; split;
              [repeat (apply not_elem_of_cons; split; [discriminate|]);
               assumption|]).
      exact Hnames.
    + rewrite Hcols. repeat constructor.
      apply Forall_forall. intros kc Hin.
      apply list_elem_of_fmap in Hin. destruct Hin as (k & -> & _).
      reflexivity.
    + rewrite Hcols. left.
    + rewrite Hcols. right. right. left.
    + exact Hloss.
    + unfold touched. simpl. rewrite Hscores.
      repeat (apply NoDup_cons; split;
              [repeat (apply not_elem_of_cons; split; [discriminate|]);
               assumption|]).
      exact Hnames.
    + intros key. rewrite Hcols. unfold touched. simpl.
      rewrite map_map. simpl. rewrite map_id, Hscores.
      rewrite !elem_of_cons. tauto.
    + eauto.
  - eexists. split; [reflexivity|]. split; [discriminate|].
    intros _ Hkwargs. unfold record_progress. rewrite Hcols, Hloss.
    destruct kwargs as [|[name f] kwargs]; [contradiction|].
    reflexivity.
Qed.

End MetricsDuringTraining.

Lemma metrics_need_generated_text_witness :
  exists results,
    Evaluator.eval_model example_encode example_generate example_decode 0
      (example_predict_args 2) false [("rouge", example_metric)]
      [1%Q; 3%Q] example_eval_data []
    = (results, Returns results)
    /\ record_progress results example_first_evaluation = Raise ValueError.
Proof.
  destruct (metrics_need_generated_text example_encode example_generate
              example_decode 0
              ltac:(intros; apply length_map)
              ltac:(intros; apply length_map)
              (example_predict_args 2) false [("rouge", example_metric)]
              [1%Q; 3%Q] example_eval_data example_first_evaluation 1%Q
              ltac:(discriminate) ltac:(simpl; lia)
              ltac:(repeat constructor; intros H;
                    repeat (apply elem_of_cons in H;
                            destruct H as [H|H]; [discriminate|]);
                    inversion H)
              eq_refl eq_refl)
    as (results & Hr & _ & Hfail).
  exists results. split; [exact Hr|]. apply Hfail; [reflexivity|discriminate].
Defined.
